(** * Server.js: a shallow embedding of the request client

    The repository ships one source file, [Server.js], holding two
    successive versions of the same client: a class of static methods
    (module [Static] below) and an instance-based rewrite (module
    [Instance]).  Both build a form-encoded request from a configuration
    object, dispatch it through an [XMLHttpRequest] and hand the response
    to a callback.

    Layout of the development:
    - [JS]       the fragment of JavaScript values and string primitives
                 the program uses ([typeof], truthiness, [||], [ToString],
                 [toUpperCase], [indexOf], [encodeURI], [Object.entries]);
    - [Regex]    a backtracking matcher for the regular-expression
                 fragment of [Server.dirname];
    - [Effects]  the trace of observable effects and the state/exception
                 monad the methods run in;
    - [Static], [Instance]  the two classes, method by method;
    - [Reach]    the promise returned by [Server.canReach];
    - [Json]     a reference reader for JSON texts, for the examples;
    - the vocabulary of the statements, then the lemmas on each method
      and the theorems C1 to C10. *)

From Stdlib Require Import String Ascii List ZArith NArith Lia Bool.
From Stdlib Require Import Numbers.DecimalString.
Import ListNotations.
Local Open Scope string_scope.
Set Warnings "-register-all".

(* ===================================================================== *)
(** ** JavaScript values and string primitives *)
(* ===================================================================== *)

Module JS.

(** Strings are kept as their UTF-8 byte sequence (one [ascii] per byte).
    Numbers are the integer-valued ones.  A function value is identified
    by its source text, which is also what [ToString] yields for it.
    An object is the list of its own enumerable string-keyed properties in
    the order [Object.entries] yields them. *)
Inductive value : Type :=
| VUndefined
| VNull
| VBool (b : bool)
| VNum (z : Z)
| VStr (s : string)
| VFun (text : string)
| VObj (props : list (string * value))
| VArr (elems : list value).

(** [typeof v]. Note that no value has type ["array"]. *)
Definition typeof (v : value) : string :=
  match v with
  | VUndefined => "undefined"
  | VNull => "object"
  | VBool _ => "boolean"
  | VNum _ => "number"
  | VStr _ => "string"
  | VFun _ => "function"
  | VObj _ => "object"
  | VArr _ => "object"
  end.

(** [ToBoolean v], the test behind [!v], [v ? a : b] and [v || w]. *)
Definition truthy (v : value) : bool :=
  match v with
  | VUndefined | VNull => false
  | VBool b => b
  | VNum z => negb (Z.eqb z 0)
  | VStr s => negb (String.eqb s "")
  | VFun _ | VObj _ | VArr _ => true
  end.

(** [a || b] on values whose evaluation has no effect. *)
Definition js_or (a b : value) : value := if truthy a then a else b.

(** [v === false] and [v === true]. *)
Definition is_false (v : value) : bool :=
  match v with VBool false => true | _ => false end.
Definition is_true (v : value) : bool :=
  match v with VBool true => true | _ => false end.

Definition is_string (v : value) : bool :=
  match v with VStr _ => true | _ => false end.

(** Decimal rendering of an integer in full digits, which is what
    [Number.prototype.toString] gives for the integers a [Number] holds
    exactly (magnitude up to 2^53 - 1, [safe_integer] below); larger
    numbers are rounded and, from 10^21, printed with an exponent. *)
Definition Z_to_string (z : Z) : string :=
  NilZero.string_of_int (Z.to_int z).

(** [Array.prototype.join] renders [null] and [undefined] elements as the
    empty string. *)
Fixpoint join_with (sep : string) (l : list string) : string :=
  match l with
  | [] => ""
  | [x] => x
  | x :: rest => x ++ sep ++ join_with sep rest
  end.

(** [ToString v] for the values above, objects taken as plain objects
    that inherit [toString] and [valueOf]: on these ([printable] below)
    the conversion of a template literal and that of [+] give the same
    string.  An object with a conversion of its own would have it called. *)
Fixpoint to_string (v : value) : string :=
  match v with
  | VUndefined => "undefined"
  | VNull => "null"
  | VBool true => "true"
  | VBool false => "false"
  | VNum z => Z_to_string z
  | VStr s => s
  | VFun text => text
  | VObj _ => "[object Object]"
  | VArr elems =>
      join_with ","
        (map (fun e => match e with
                       | VUndefined | VNull => ""
                       | _ => to_string e
                       end) elems)
  end.

(** Own-property lookup in a property list. *)
Fixpoint assoc (k : string) (props : list (string * value)) : value :=
  match props with
  | [] => VUndefined
  | (k', v) :: rest => if String.eqb k k' then v else assoc k rest
  end.

(** Index keys ["0"], ["1"], ... of an array. *)
Fixpoint index_entries (i : nat) (elems : list value) : list (string * value) :=
  match elems with
  | [] => []
  | e :: rest => (Z_to_string (Z.of_nat i), e) :: index_entries (S i) rest
  end.

(** [Object.entries v] for a non-null value of type ["object"].  The
    caller handles [null]/[undefined] (a TypeError); primitives have no
    entries of interest here. *)
Definition entries (v : value) : list (string * value) :=
  match v with
  | VObj props => props
  | VArr elems => index_entries 0 elems
  | _ => []
  end.

(** [v[k]] for a key [k] that is not inherited from a prototype (none of
    the keys the client reads is).  [None] is the TypeError raised by a
    property read on [null] or [undefined]. *)
Definition get (v : value) (k : string) : option value :=
  match v with
  | VUndefined | VNull => None
  | VObj props => Some (assoc k props)
  | VArr elems => Some (assoc k (index_entries 0 elems))
  | _ => Some VUndefined
  end.

(** *** Characters *)

Definition code (c : ascii) : N := N_of_ascii c.

Definition in_range (lo hi c : ascii) : bool :=
  (N.leb (code lo) (code c) && N.leb (code c) (code hi))%bool.

Definition upper_char (c : ascii) : ascii :=
  if in_range "a" "z" c then ascii_of_N (code c - 32) else c.

Definition lower_char (c : ascii) : ascii :=
  if in_range "A" "Z" c then ascii_of_N (code c + 32) else c.

Fixpoint map_string (f : ascii -> ascii) (s : string) : string :=
  match s with
  | EmptyString => EmptyString
  | String c rest => String (f c) (map_string f rest)
  end.

(** [s.toUpperCase()] and [s.toLowerCase()]; the case mapping is the one
    of the ASCII letters, bytes of other characters are left as they are
    (the language maps the letters beyond ASCII too; methods and header
    values, on which the statements rely on the mapping, are ASCII). *)
Definition toUpperCase (s : string) : string := map_string upper_char s.
Definition toLowerCase (s : string) : string := map_string lower_char s.

(** [hay.indexOf(needle)]: position of the first occurrence, or -1. *)
Fixpoint indexOf_from (i : Z) (hay needle : string) : Z :=
  if String.prefix needle hay then i
  else match hay with
       | EmptyString => (-1)%Z
       | String _ rest => indexOf_from (i + 1) rest needle
       end.

Definition indexOf (hay needle : string) : Z := indexOf_from 0 hay needle.

(** [s.split(sep)] for a one-character separator. *)
Fixpoint split (sep : ascii) (s : string) : list string :=
  match s with
  | EmptyString => [EmptyString]
  | String c rest =>
      if Ascii.eqb c sep then EmptyString :: split sep rest
      else match split sep rest with
           | [] => [String c EmptyString]
           | seg :: segs => String c seg :: segs
           end
  end.

(** *** encodeURI *)

Definition hex_digit (n : N) : ascii :=
  if N.ltb n 10 then ascii_of_N (48 + n) else ascii_of_N (55 + n).

(** Characters [encodeURI] leaves alone: letters, digits, the marks
    [- _ . ! ~ * ' ( )], the reserved set [; / ? : @ & = + $ ,] and [#]. *)
Definition uri_kept (c : ascii) : bool :=
  (in_range "a" "z" c || in_range "A" "Z" c || in_range "0" "9" c
   || existsb (Ascii.eqb c)
        (list_ascii_of_string "-_.!~*'();/?:@&=+$,#"))%bool.

Fixpoint encodeURI (s : string) : string :=
  match s with
  | EmptyString => EmptyString
  | String c rest =>
      if uri_kept c then String c (encodeURI rest)
      else String "%" (String (hex_digit (code c / 16))
                         (String (hex_digit (code c mod 16)) (encodeURI rest)))
  end.

End JS.

Import JS.

(* ===================================================================== *)
(** ** Regular expressions of [Server.dirname] *)
(* ===================================================================== *)

Module Regex.

(** One-character matchers: a literal, a class given by its ranges, and
    [.] (any character but a line feed or a carriage return).  The [.] of
    the language stops at U+2028 and U+2029 as well, which are three bytes
    each here: a statement that runs [.*] over a text assumes that the
    text holds neither ([has_line_separator] below). *)
Inductive atom : Type :=
| AChar (c : ascii)
| ARanges (ranges : list (ascii * ascii))
| ADot.

(** The fragment used by the source: sequence, alternation, greedy [?]
    on a sub-expression, greedy [+] and [*] on one-character matchers. *)
Inductive regex : Type :=
| REps
| RAtom (a : atom)
| RSeq (r1 r2 : regex)
| RAlt (r1 r2 : regex)
| ROpt (r : regex)
| RPlus (a : atom)
| RStar (a : atom).

(** The literal [s]. *)
Fixpoint lit (s : string) : regex :=
  match s with
  | EmptyString => REps
  | String c rest => RSeq (RAtom (AChar c)) (lit rest)
  end.

Definition in_ranges (ranges : list (ascii * ascii)) (c : ascii) : bool :=
  existsb (fun r => in_range (fst r) (snd r) c) ranges.

Section Matcher.

(** The [i] flag: two characters match when their upper-case forms
    agree. *)
Variable ignore_case : bool.

Definition atom_test (a : atom) (c : ascii) : bool :=
  match a with
  | AChar d =>
      if ignore_case then Ascii.eqb (upper_char d) (upper_char c)
      else Ascii.eqb d c
  | ARanges ranges =>
      if ignore_case
      then (in_ranges ranges c || in_ranges ranges (upper_char c)
            || in_ranges ranges (lower_char c))%bool
      else in_ranges ranges c
  | ADot => negb (Ascii.eqb c "010" || Ascii.eqb c "013")%bool
  end.

(** Greedy iteration of a one-character matcher, longest first, with
    the continuation [k] deciding whether the rest matches. *)
Fixpoint star (a : atom) (s : string) (k : string -> option string)
  : option string :=
  match s with
  | EmptyString => k s
  | String c rest =>
      if atom_test a c
      then match star a rest k with
           | Some out => Some out
           | None => k s
           end
      else k s
  end.

(** Backtracking match of [r] at the head of [s]; the result is the
    text left after the match chosen by the priority order. *)
Fixpoint rmatch (r : regex) (s : string) (k : string -> option string)
  : option string :=
  match r with
  | REps => k s
  | RAtom a =>
      match s with
      | String c rest => if atom_test a c then k rest else None
      | EmptyString => None
      end
  | RSeq r1 r2 => rmatch r1 s (fun s' => rmatch r2 s' k)
  | RAlt r1 r2 =>
      match rmatch r1 s k with
      | Some out => Some out
      | None => rmatch r2 s k
      end
  | ROpt r1 =>
      match rmatch r1 s k with
      | Some out => Some out
      | None => k s
      end
  | RPlus a =>
      match s with
      | String c rest => if atom_test a c then star a rest k else None
      | EmptyString => None
      end
  | RStar a => star a s k
  end.

(** Leftmost match: the text before it and the text after it. *)
Fixpoint exec (r : regex) (s : string) : option (string * string) :=
  match rmatch r s Some with
  | Some rest => Some (EmptyString, rest)
  | None =>
      match s with
      | EmptyString => None
      | String c s' =>
          match exec r s' with
          | Some (before, rest) => Some (String c before, rest)
          | None => None
          end
      end
  end.

(** [s.match(r)] used as a condition. *)
Definition test (r : regex) (s : string) : bool :=
  match exec r s with Some _ => true | None => false end.

(** [s.replace(r, by)] for a non-global [r] and a replacement without
    [$] patterns. *)
Definition replace (r : regex) (by_ : string) (s : string) : string :=
  match exec r s with
  | Some (before, rest) => before ++ by_ ++ rest
  | None => s
  end.

End Matcher.

(** [/php|js|css|html|asp/i] *)
Definition extension_re : regex :=
  RAlt (lit "php") (RAlt (lit "js") (RAlt (lit "css") (RAlt (lit "html") (lit "asp")))).

(** [/[\/]?[A-z0-9]+\.(php|js|css|html|asp).*/i] *)
Definition filename_re : regex :=
  RSeq (ROpt (RAtom (ARanges [("/"%char, "/"%char)])))
    (RSeq (RPlus (ARanges [("A"%char, "z"%char); ("0"%char, "9"%char)]))
       (RSeq (RAtom (AChar "."))
          (RSeq extension_re (RStar ADot)))).

End Regex.

(* ===================================================================== *)
(** ** Observable effects and the monad of the methods *)
(* ===================================================================== *)

Module Effects.

(** An [XMLHttpRequest] object, as far as the client drives it: the
    arguments of [open(method, url, true)], of
    [setRequestHeader(name, value)] and of [send(body)].  The browser's
    [open] raises on a method that is no token or is forbidden and on a
    url that does not parse, and [setRequestHeader] on a value that is no
    header value; the three functions below are these calls on arguments
    the browser takes ([accepted] below), which is where the statements
    on the content of a request use them. *)
Record xhr : Type := Xhr {
  x_method : string;
  x_url : string;
  x_headers : list (string * string);
  x_body : option string
}.

Definition new_xhr : xhr :=
  {| x_method := ""; x_url := ""; x_headers := []; x_body := None |}.

Definition xhr_open (m u : string) (x : xhr) : xhr :=
  {| x_method := m; x_url := u; x_headers := x_headers x; x_body := x_body x |}.

Definition xhr_setRequestHeader (name v : string) (x : xhr) : xhr :=
  {| x_method := x_method x; x_url := x_url x;
     x_headers := (x_headers x ++ [(name, v)])%list; x_body := x_body x |}.

Definition xhr_send (body : string) (x : xhr) : xhr :=
  {| x_method := x_method x; x_url := x_url x;
     x_headers := x_headers x; x_body := Some body |}.

(** What the outside world sees, in order: console warnings, requests
    handed to the network, and callback invocations. *)
Inductive event : Type :=
| EvWarn (msg : string)
| EvRequest (x : xhr)
| EvCall (f : value) (arg : value).

Definition is_request (e : event) : bool :=
  match e with EvRequest _ => true | _ => false end.

Definition is_call (e : event) : bool :=
  match e with EvCall _ _ => true | _ => false end.

(** The requests issued along a trace. *)
Definition requests (tr : list event) : list xhr :=
  flat_map (fun e => match e with EvRequest x => [x] | _ => [] end) tr.

(** The callback invocations along a trace. *)
Definition calls (tr : list event) : list (value * value) :=
  flat_map (fun e => match e with EvCall f a => [(f, a)] | _ => [] end) tr.

Inductive exn : Type := TypeError | ReferenceError.

Inductive outcome (A : Type) : Type :=
| Normal (a : A)
| Thrown (e : exn).
Arguments Normal {A} a.
Arguments Thrown {A} e.

Section Monad.

Variable S : Type.

(** A method runs on the fields [S] of its class and extends the trace;
    an exception keeps the writes made so far. *)
Definition M (A : Type) : Type := S -> list event -> outcome A * S * list event.

Definition ret {A} (a : A) : M A := fun st tr => (Normal a, st, tr).

Definition bind {A B} (m : M A) (k : A -> M B) : M B :=
  fun st tr =>
    match m st tr with
    | (Normal a, st', tr') => k a st' tr'
    | (Thrown e, st', tr') => (Thrown e, st', tr')
    end.

Definition gets {A} (f : S -> A) : M A := fun st tr => (Normal (f st), st, tr).

Definition modify (f : S -> S) : M unit := fun st tr => (Normal tt, f st, tr).

Definition emit (e : event) : M unit := fun st tr => (Normal tt, st, (tr ++ [e])%list).

Definition throw {A} (e : exn) : M A := fun st tr => (Thrown e, st, tr).

(** [console.warn(msg)] *)
Definition warn (msg : string) : M unit := emit (EvWarn msg).

(** [v[k]], raising the TypeError of a read on [null]/[undefined]. *)
Definition read (v : value) (k : string) : M value :=
  match get v k with
  | Some w => ret w
  | None => throw TypeError
  end.

(** [f(arg)]: the call is observed; calling a non-function raises. *)
Definition call (f arg : value) : M unit :=
  match f with
  | VFun _ => emit (EvCall f arg)
  | _ => throw TypeError
  end.

End Monad.

Arguments ret {S A} a.
Arguments bind {S A B} m k.
Arguments gets {S A} f.
Arguments modify {S} f.
Arguments emit {S} e.
Arguments throw {S A} e.
Arguments warn {S} msg.
Arguments read {S} v k.
Arguments call {S} f arg.

End Effects.

Import Effects.

Declare Scope js_scope.
Delimit Scope js_scope with js.
Notation "x <- m ;; k" := (bind m (fun x => k))
  (at level 61, m at next level, right associativity) : js_scope.
Notation "m ;; k" := (bind m (fun _ => k))
  (at level 61, right associativity) : js_scope.

(* ===================================================================== *)
(** ** The hosting page *)
(* ===================================================================== *)

(** [window.location] *)
Record location : Type := Location {
  protocol : string;
  host : string;
  hostname : string;
  pathname : string
}.

(** What the client reads from its environment: [window.location], the
    global bindings [window[name]] and the built-in [JSON.parse], whose
    [None] is the SyntaxError it throws. *)
Record browser : Type := Browser {
  win_location : location;
  win_globals : list (string * value);
  JSON_parse : string -> option value
}.

(** The state of an [XMLHttpRequest] when [onreadystatechange] fires. *)
Record response : Type := Response {
  readyState : Z;
  http_status : Z;
  responseText : string
}.

(** A parameter declared [p = false] receives [false] for [undefined]. *)
Definition default_false (v : value) : value :=
  match v with VUndefined => VBool false | _ => v end.

(** [a || b] on strings. *)
Definition str_or (a b : string) : string :=
  if String.eqb a "" then b else a.

(** The test of the static response handler:
    [(resp.indexOf("{") != -1 && resp.indexOf("}") != -1) ||
     (resp.indexOf("[") != -1 && resp.indexOf("]") != -1)]. *)
Definition looks_structured (resp : string) : bool :=
  ((negb (Z.eqb (indexOf resp "{") (-1)) && negb (Z.eqb (indexOf resp "}") (-1)))
   || (negb (Z.eqb (indexOf resp "[") (-1)) && negb (Z.eqb (indexOf resp "]") (-1))))%bool.

(* ===================================================================== *)
(** ** The class of static methods (first version) *)
(* ===================================================================== *)

Module Static.

(** The static fields the methods read or write.  [con_status], [msg],
    [headers] and [ref] are declared by the class and never touched.
    [contentType] is not declared: it is the property [setContentType]
    creates, absent ([None]) until then. *)
Record state : Type := State {
  error : value;
  status : value;
  error_level : Z;
  url_auto_resolve : value;
  con : option xhr;
  method : string;
  src : value;
  content_type : string;
  contentType : option string;
  obj : value;
  params : string;
  cbf : value
}.

(** The field initialisers of the class. *)
Definition initial : state :=
  {| error := VBool false;
     status := VBool false;
     error_level := 0;
     url_auto_resolve := VBool false;
     con := None;
     method := "POST";
     src := VBool false;
     content_type := "application/x-www-form-urlencoded";
     contentType := None;
     obj := VBool false;
     params := "";
     cbf := VBool false |}.

Definition set_diagnostic (st_ : value) (msg : value) (lvl : Z) (s : state) : state :=
  {| error := msg; status := st_; error_level := lvl;
     url_auto_resolve := url_auto_resolve s; con := con s; method := method s;
     src := src s; content_type := content_type s; contentType := contentType s;
     obj := obj s; params := params s; cbf := cbf s |}.

Definition set_con (c : option xhr) (s : state) : state :=
  {| error := error s; status := status s; error_level := error_level s;
     url_auto_resolve := url_auto_resolve s; con := c; method := method s;
     src := src s; content_type := content_type s; contentType := contentType s;
     obj := obj s; params := params s; cbf := cbf s |}.

Definition set_method (m : string) (s : state) : state :=
  {| error := error s; status := status s; error_level := error_level s;
     url_auto_resolve := url_auto_resolve s; con := con s; method := m;
     src := src s; content_type := content_type s; contentType := contentType s;
     obj := obj s; params := params s; cbf := cbf s |}.

Definition set_src (v : value) (s : state) : state :=
  {| error := error s; status := status s; error_level := error_level s;
     url_auto_resolve := url_auto_resolve s; con := con s; method := method s;
     src := v; content_type := content_type s; contentType := contentType s;
     obj := obj s; params := params s; cbf := cbf s |}.

Definition set_contentType (c : option string) (s : state) : state :=
  {| error := error s; status := status s; error_level := error_level s;
     url_auto_resolve := url_auto_resolve s; con := con s; method := method s;
     src := src s; content_type := content_type s; contentType := c;
     obj := obj s; params := params s; cbf := cbf s |}.

Definition set_obj (v : value) (s : state) : state :=
  {| error := error s; status := status s; error_level := error_level s;
     url_auto_resolve := url_auto_resolve s; con := con s; method := method s;
     src := src s; content_type := content_type s; contentType := contentType s;
     obj := v; params := params s; cbf := cbf s |}.

Definition set_params (p : string) (s : state) : state :=
  {| error := error s; status := status s; error_level := error_level s;
     url_auto_resolve := url_auto_resolve s; con := con s; method := method s;
     src := src s; content_type := content_type s; contentType := contentType s;
     obj := obj s; params := p; cbf := cbf s |}.

Definition set_cbf (v : value) (s : state) : state :=
  {| error := error s; status := status s; error_level := error_level s;
     url_auto_resolve := url_auto_resolve s; con := con s; method := method s;
     src := src s; content_type := content_type s; contentType := contentType s;
     obj := obj s; params := params s; cbf := v |}.

Local Open Scope js_scope.

(** [Server.checkArgs(q)] *)
Definition checkArgs (q : value) : M state bool :=
  let q := default_false q in
  let t := typeof q in
  if (negb (String.eqb t "array") && negb (String.eqb t "object"))%bool
  then ret false
  else
    s <- read q "src" ;;
    if negb (truthy s)
    then
      modify (set_diagnostic (VNum 1)
        (VStr "URL destination was not specified in arguments. Please specify a target URL server to send this data to.")
        1) ;;
      ret false
    else
      a <- read q "args" ;;
      (if negb (truthy a)
       then modify (set_diagnostic (VNum 1) (VStr "No arguments were specified.") 16)
       else ret tt) ;;
      ret true.

(** [Server.check_obj()] *)
Definition check_obj (s : state) : bool :=
  let t := typeof (obj s) in
  (String.eqb t "array" || String.eqb t "object")%bool.

(** [Server.getSrc()] *)
Definition getSrc : M state value :=
  o <- gets obj ;;
  if (negb (String.eqb (typeof o) "array") && negb (String.eqb (typeof o) "object"))%bool
  then ret (VBool false)
  else
    v <- read o "src" ;;
    let t := typeof v in
    ret (if String.eqb t "string" then v else VBool false).

(** [Server.dirname(q)] *)
Definition dirname (q : value) : value :=
  match default_false q with
  | VStr q =>
      if (negb (Z.eqb (indexOf q ".") (-1))
          && Regex.test true Regex.extension_re (last (split "." q) ""))%bool
      then VStr (Regex.replace true Regex.filename_re "/" q)
      else VStr q
  | other => other
  end.

(** [Server.validateSources()] *)
Definition validateSources (env : browser) : M state unit :=
  v <- gets src ;;
  match v with
  | VStr s =>
      let q := toLowerCase s in
      if Z.eqb (indexOf q "http") (-1)
      then
        let l := win_location env in
        modify (set_src
          (VStr (protocol l ++ "//" ++ str_or (host l) (hostname l)
                 ++ to_string (dirname (VStr (pathname l))) ++ s)))
      else ret tt
  | _ => ret tt
  end.

(** [Server.url_encode(q)] *)
Definition url_encode (q : value) : value :=
  match default_false q with
  | VStr s => VStr (encodeURI s)
  | other => other
  end.

(** The loop of [Server.getParams]: [i] is incremented by the first
    iteration only. *)
Fixpoint params_loop (es : list (string * value)) (tmp : string) (i : Z) : string :=
  match es with
  | [] => tmp
  | (item, v) :: rest =>
      if Z.eqb i 0
      then params_loop rest
             (tmp ++ (to_string (url_encode (VStr item)) ++ "=" ++ to_string (url_encode v)))
             (i + 1)
      else params_loop rest
             (tmp ++ ("&" ++ to_string (url_encode (VStr item)) ++ "=" ++ to_string (url_encode v)))
             i
  end.

(** [Server.getParams()] *)
Definition getParams : M state string :=
  o <- gets obj ;;
  a <- read o "args" ;;
  if (negb (truthy a)
      || negb (String.eqb (typeof a) "array" || String.eqb (typeof a) "object"))%bool
  then ret ""
  else ret (params_loop (entries a) "" 0).

(** [Server.setMethod()] *)
Definition setMethod : M state unit :=
  ok <- gets check_obj ;;
  if negb ok then ret tt
  else
    o <- gets obj ;;
    m <- read o "method" ;;
    match m with
    | VStr s => if truthy m then modify (set_method (toUpperCase s)) else ret tt
    | _ => ret tt
    end.

(** [Server.setContentType()]: the assignment goes to
    [Server.contentType], not to the declared [Server.content_type]. *)
Definition setContentType : M state unit :=
  ok <- gets check_obj ;;
  if negb ok then ret tt
  else
    o <- gets obj ;;
    c <- read o "content-type" ;;
    match c with
    | VStr s => if truthy c then modify (set_contentType (Some (toUpperCase s))) else ret tt
    | _ => ret tt
    end.

(** [Server.setCallbackFunction()] *)
Definition setCallbackFunction : M state unit :=
  ok <- gets check_obj ;;
  if negb ok then ret tt
  else
    o <- gets obj ;;
    f <- read o "func" ;;
    c <- read o "cbf" ;;
    cb <- read o "callback" ;;
    cf <- read o "callback-function" ;;
    modify (set_cbf (js_or (js_or (js_or (js_or f c) cb) cf) (VBool false))).

(** [Server.checkReq()].  [Server.method] and [Server.params] only ever
    hold strings, so [Server.method === false] is false, and
    [!s.length > 0], read as [(!s.length) > 0], holds exactly when [s] is
    empty. *)
Definition checkReq (s : state) : bool :=
  negb (false
        || Nat.eqb (String.length (method s)) 0
        || Nat.eqb (String.length (params s)) 0
        || is_false (obj s))%bool.

(** The [onreadystatechange] handler installed by [Server.connect]; it
    reads [Server.cbf] when it fires. *)
Definition onreadystatechange (env : browser) (r : response) : M state unit :=
  if negb (Z.eqb (readyState r) 4) then ret tt
  else if (Z.leb 200 (http_status r) && Z.ltb (http_status r) 300)%bool
  then
    c <- gets cbf ;;
    if negb (truthy c)
    then warn "No callback function specified."
    else
      let g := assoc (to_string c) (win_globals env) in
      if (truthy g || String.eqb (typeof c) "function")%bool
      then
        let resp :=
          if looks_structured (responseText r)
          then match JSON_parse env (responseText r) with
               | Some v => v
               | None => VStr (responseText r)
               end
          else VStr (responseText r) in
        if truthy g then call g resp else call c resp
      else warn "Unable to locate callback function."
  else ret tt.

(** [Server.connect()] *)
Definition connect : M state value :=
  ok <- gets checkReq ;;
  if negb ok then ret (VBool false)
  else
    modify (set_con (Some new_xhr)) ;;
    m <- gets method ;;
    u <- gets src ;;
    modify (fun s => set_con (option_map (xhr_open m (to_string u)) (con s)) s) ;;
    ct <- gets content_type ;;
    modify (fun s => set_con (option_map (xhr_setRequestHeader "Content-type" ct) (con s)) s) ;;
    p <- gets params ;;
    modify (fun s => set_con (option_map (xhr_send p) (con s)) s) ;;
    x <- gets con ;;
    match x with
    | Some x => emit (EvRequest x)
    | None => ret tt
    end ;;
    ret (VBool true).

(** [Server.send(args, cbf, func)] *)
Definition send (env : browser) (args cbf_ func : value) : M state value :=
  let args := default_false args in
  let cbf_ := default_false cbf_ in
  let func := default_false func in
  ok <- checkArgs args ;;
  if negb ok
  then warn "Missing params" ;; ret (VBool false)
  else
    modify (set_obj args) ;;
    s <- getSrc ;;
    modify (set_src s) ;;
    auto <- gets url_auto_resolve ;;
    (if is_false auto then validateSources env else ret tt) ;;
    p <- getParams ;;
    modify (set_params p) ;;
    setMethod ;;
    setContentType ;;
    (if (is_false func && negb (is_false cbf_))%bool
     then modify (set_cbf cbf_)
     else if (is_true cbf_ && negb (is_false func))%bool
     then modify (set_cbf func)
     else setCallbackFunction) ;;
    connect.

(** [Server.getArrayType(q)]; [Object.entries(null)] raises a TypeError.
    The loop runs at most once: it stores the type of the first key and
    breaks. *)
Definition getArrayType (q : value) : outcome value :=
  let q := default_false q in
  let t := typeof q in
  if (negb (String.eqb t "array") && negb (String.eqb t "object"))%bool
  then Normal (VBool false)
  else match q with
       | VNull => Thrown TypeError
       | _ =>
           let type :=
             match entries q with
             | [] => VBool false
             | (item, _) :: _ => VStr (typeof (VStr item))
             end in
           Normal (if negb (match type with
                            | VStr t' => String.eqb t' "string"
                            | _ => false
                            end)
                   then VStr "object" else VStr "array")
       end.

End Static.

(* ===================================================================== *)
(** ** The instance-based class (second version) *)
(* ===================================================================== *)

Module Instance.

(** The fields of an instance the methods read or write ([conStatus],
    [overrides], [msg], [headers] and [ref] are never touched). *)
Record state : Type := State {
  error : value;
  status : value;
  errorLevel : Z;
  con : option xhr;
  method : string;
  src : value;
  contentType : string;
  obj : value;
  params : string;
  cbf : value
}.

(** The field initialisers of [new Server()]. *)
Definition initial : state :=
  {| error := VBool false;
     status := VBool false;
     errorLevel := 0;
     con := None;
     method := "POST";
     src := VBool false;
     contentType := "application/x-www-form-urlencoded";
     obj := VBool false;
     params := "";
     cbf := VBool false |}.

Definition set_diagnostic (msg : value) (lvl : Z) (st_ : value) (s : state) : state :=
  {| error := msg; status := st_; errorLevel := lvl; con := con s;
     method := method s; src := src s; contentType := contentType s;
     obj := obj s; params := params s; cbf := cbf s |}.

Definition set_con (c : option xhr) (s : state) : state :=
  {| error := error s; status := status s; errorLevel := errorLevel s; con := c;
     method := method s; src := src s; contentType := contentType s;
     obj := obj s; params := params s; cbf := cbf s |}.

Definition set_method (m : string) (s : state) : state :=
  {| error := error s; status := status s; errorLevel := errorLevel s; con := con s;
     method := m; src := src s; contentType := contentType s;
     obj := obj s; params := params s; cbf := cbf s |}.

Definition set_src (v : value) (s : state) : state :=
  {| error := error s; status := status s; errorLevel := errorLevel s; con := con s;
     method := method s; src := v; contentType := contentType s;
     obj := obj s; params := params s; cbf := cbf s |}.

Definition set_contentType (c : string) (s : state) : state :=
  {| error := error s; status := status s; errorLevel := errorLevel s; con := con s;
     method := method s; src := src s; contentType := c;
     obj := obj s; params := params s; cbf := cbf s |}.

Definition set_obj (v : value) (s : state) : state :=
  {| error := error s; status := status s; errorLevel := errorLevel s; con := con s;
     method := method s; src := src s; contentType := contentType s;
     obj := v; params := params s; cbf := cbf s |}.

Definition set_params (p : string) (s : state) : state :=
  {| error := error s; status := status s; errorLevel := errorLevel s; con := con s;
     method := method s; src := src s; contentType := contentType s;
     obj := obj s; params := p; cbf := cbf s |}.

Definition set_cbf (v : value) (s : state) : state :=
  {| error := error s; status := status s; errorLevel := errorLevel s; con := con s;
     method := method s; src := src s; contentType := contentType s;
     obj := obj s; params := params s; cbf := v |}.

Local Open Scope js_scope.

(** [["array", "object"].includes(typeof v)] *)
Definition array_or_object (v : value) : bool :=
  existsb (String.eqb (typeof v)) ["array"; "object"].

(** [setError(msg, level, status)] *)
Definition setError (msg : string) (level : Z) (st_ : Z) : M state bool :=
  modify (set_diagnostic (VStr msg) level (VNum st_)) ;;
  ret false.

(** [setWarning(msg, level, status)] *)
Definition setWarning (msg : string) (level : Z) (st_ : Z) : M state bool :=
  modify (set_diagnostic (VStr msg) level (VNum st_)) ;;
  ret true.

(** [checkArgs(q)] *)
Definition checkArgs (q : value) : M state bool :=
  let q := default_false q in
  if negb (array_or_object q) then ret false
  else
    s <- read q "src" ;;
    if negb (truthy s) then setError "URL destination not specified" 1 1
    else
      a <- read q "args" ;;
      if negb (truthy a) then setWarning "No arguments specified" 16 1
      else ret true.

(** [checkObj()] *)
Definition checkObj (s : state) : bool := array_or_object (obj s).

(** [getSrc()] *)
Definition getSrc : M state value :=
  ok <- gets checkObj ;;
  if negb ok then ret (VBool false)
  else
    o <- gets obj ;;
    v <- read o "src" ;;
    ret (if String.eqb (typeof v) "string" then v else VBool false).

(** [urlEncode(q)] *)
Definition urlEncode (q : value) : value :=
  match default_false q with
  | VStr s => VStr (encodeURI s)
  | other => other
  end.

(** The loop of [getParams]: [i++] runs at every iteration. *)
Fixpoint params_loop (es : list (string * value)) (tmp : string) (i : Z) : string :=
  match es with
  | [] => tmp
  | (item, v) :: rest =>
      params_loop rest
        (tmp ++ (if Z.eqb i 0
                 then to_string (urlEncode (VStr item)) ++ "=" ++ to_string (urlEncode v)
                 else "&" ++ to_string (urlEncode (VStr item)) ++ "=" ++ to_string (urlEncode v)))
        (i + 1)
  end.

(** [getParams()]; [Object.entries(null)] raises a TypeError. *)
Definition getParams : M state string :=
  ok <- gets checkObj ;;
  if negb ok then ret ""
  else
    o <- gets obj ;;
    a <- read o "args" ;;
    if negb (array_or_object a) then ret ""
    else match a with
         | VNull => throw TypeError
         | _ => ret (params_loop (entries a) "" 0)
         end.

(** [setMethod()] *)
Definition setMethod : M state unit :=
  ok <- gets checkObj ;;
  if negb ok then modify (set_method "POST")
  else
    o <- gets obj ;;
    m <- read o "method" ;;
    match m with
    | VStr s => if truthy m then modify (set_method (toUpperCase s))
                else modify (set_method "POST")
    | _ => modify (set_method "POST")
    end.

(** [setContentType()] *)
Definition setContentType : M state unit :=
  ok <- gets checkObj ;;
  if negb ok then modify (set_contentType "application/x-www-form-urlencoded")
  else
    o <- gets obj ;;
    c <- read o "content-type" ;;
    match c with
    | VStr s => if truthy c then modify (set_contentType (toUpperCase s))
                else modify (set_contentType "application/x-www-form-urlencoded")
    | _ => modify (set_contentType "application/x-www-form-urlencoded")
    end.

(** [setCallbackFunction()], which returns the callback here. *)
Definition setCallbackFunction : M state value :=
  ok <- gets checkObj ;;
  if negb ok then ret (VBool false)
  else
    o <- gets obj ;;
    f <- read o "func" ;;
    c <- read o "cbf" ;;
    cb <- read o "callback" ;;
    cf <- read o "callback-function" ;;
    ret (js_or (js_or (js_or (js_or f c) cb) cf) (VBool false)).

(** [checkReq()], as the condition [!this.checkReq()] reads it:
    [this.method && this.params && this.obj] is truthy. *)
Definition checkReq (s : state) : bool :=
  (negb (String.eqb (method s) "") && negb (String.eqb (params s) "")
   && truthy (obj s))%bool.

(** [parseJSON(resp)] *)
Definition parseJSON (env : browser) (resp : string) : value :=
  match JSON_parse env resp with
  | Some v => v
  | None => VStr resp
  end.

(** [processResponse()].  The method is written without semicolons:
<<
      let resp = this.con.responseText
          (resp.match(/[\{\[]/) && resp.match(/[\}\]]/)) ? resp = this.parseJSON(resp) : null
>>
    A line that starts with a parenthesis continues the expression before
    it, so this is one declaration whose initialiser is the conditional
    [this.con.responseText(resp.match(..) && resp.match(..)) ? .. : null].
    Its argument reads [resp] inside the declaration of [resp] itself,
    which raises a ReferenceError; the statement after it is never
    reached. *)
Definition processResponse (env : browser) (r : response) : M state unit :=
  c <- gets cbf ;;
  if negb (truthy c) then warn "No callback specified"
  else
    resp <- throw ReferenceError ;;
    if String.eqb (typeof c) "function" then call c resp
    else
      let g := assoc (to_string c) (win_globals env) in
      if truthy g then call g resp else warn "Callback not found".

(** [handleReadyStateChange()] *)
Definition handleReadyStateChange (env : browser) (r : response) : M state unit :=
  if negb (Z.eqb (readyState r) 4) then ret tt
  else if (Z.leb 200 (http_status r) && Z.ltb (http_status r) 300)%bool
  then processResponse env r
  else ret tt.

(** [connect()] *)
Definition connect : M state unit :=
  ok <- gets checkReq ;;
  if negb ok then ret tt
  else
    modify (set_con (Some new_xhr)) ;;
    m <- gets method ;;
    u <- gets src ;;
    modify (fun s => set_con (option_map (xhr_open m (to_string u)) (con s)) s) ;;
    ct <- gets contentType ;;
    modify (fun s => set_con (option_map (xhr_setRequestHeader "Content-type" ct) (con s)) s) ;;
    p <- gets params ;;
    modify (fun s => set_con (option_map (xhr_send p) (con s)) s) ;;
    x <- gets con ;;
    match x with
    | Some x => emit (EvRequest x)
    | None => ret tt
    end.

(** [prepareAndSend(args, cbf, func)] *)
Definition prepareAndSend (args cbf_ func : value) : M state unit :=
  modify (set_obj args) ;;
  s <- getSrc ;;
  modify (set_src s) ;;
  p <- getParams ;;
  modify (set_params p) ;;
  setMethod ;;
  setContentType ;;
  c <- (if is_false func then ret cbf_
        else if is_true cbf_ then ret func
        else setCallbackFunction) ;;
  modify (set_cbf c) ;;
  connect.

(** [send(args, cbf, func)]; the method has no [return]. *)
Definition send (args cbf_ func : value) : M state value :=
  let args := default_false args in
  let cbf_ := default_false cbf_ in
  let func := default_false func in
  ok <- checkArgs args ;;
  (if ok then prepareAndSend args cbf_ func else warn "Missing params") ;;
  ret VUndefined.

(** What happens while [canReachHost] spins: a test of the loop
    condition, with the value the clock gives to
    [performance.now() - start < 100], or the arrival of the image's
    [load] or [error] event. *)
Inductive spin_step : Type :=
| ClockTest (within : bool)
| ImageSettled.

(** The loop [while (performance.now() - start < 100 && !reached);].
    [queued] counts the handler tasks waiting in the event loop: an event
    that arrives while the method runs queues the handler
    [() => reached = true], and a queued task only runs once the method
    has returned, so the loop reads [reached] as the method last wrote
    it.  [None]: the steps given end while the loop still spins. *)
Fixpoint spin (steps : list spin_step) (reached : bool) (queued : nat)
  : option (bool * nat) :=
  match steps with
  | [] => None
  | ClockTest within :: rest =>
      if (within && negb reached)%bool then spin rest reached queued
      else Some (reached, queued)
  | ImageSettled :: rest => spin rest reached (S queued)
  end.

(** The outcome of [canReachHost]: the image address requested, if any,
    the value returned, and the handler tasks left to the event loop. *)
Record host_probe : Type := HostProbe {
  image_src : option string;
  returned : option bool;
  tasks_left : nat
}.

(** [canReachHost(host)], with [now] the value of [Date.now()]. *)
Definition canReachHost (host : value) (now : Z) (steps : list spin_step) : host_probe :=
  match host with
  | VStr h =>
      let reached := false in
      let address := h ++ "/favicon.ico?t=" ++ Z_to_string now in
      match spin steps reached 0 with
      | Some (r, q) => {| image_src := Some address; returned := Some r; tasks_left := q |}
      | None => {| image_src := Some address; returned := None; tasks_left := 0 |}
      end
  | _ => {| image_src := None; returned := Some false; tasks_left := 0 |}
  end.

End Instance.

(* ===================================================================== *)
(** ** [Server.canReach] *)
(* ===================================================================== *)

Module Reach.

(** The request a probe hands to the network:
    [xhr.open('HEAD', url, true); xhr.timeout = timeout; xhr.send()]. *)
Record probe_request : Type := ProbeRequest {
  pr_method : string;
  pr_url : string;
  pr_timeout : value
}.

(** What the browser reports on the probe's [XMLHttpRequest]. *)
Inductive xhr_event : Type :=
| ReadyStateChange (ready : Z) (st : Z)
| NetworkError
| TimedOut.

(** The promise returned by [canReach]; the first [resolve] wins.  The
    promise is rejected when the executor raises, which [xhr.open] does
    (a SyntaxError) on a url that does not parse. *)
Inductive promise : Type :=
| Pending
| Resolved (b : bool)
| Rejected.

Definition resolve (b : bool) (p : promise) : promise :=
  match p with
  | Pending => Resolved b
  | Resolved _ => p
  | Rejected => p
  end.

(** The three handlers [onreadystatechange], [onerror], [ontimeout]. *)
Definition handle (p : promise) (e : xhr_event) : promise :=
  match e with
  | ReadyStateChange ready st =>
      if Z.eqb ready 4
      then resolve (Z.leb 200 st && Z.ltb st 300)%bool p
      else p
  | NetworkError => resolve false p
  | TimedOut => resolve false p
  end.

(** The outcome of the call itself: the promise and the requests issued
    before it returns. *)
Record probe : Type := Probe {
  result : promise;
  issued : list probe_request
}.

(** [Server.canReach(url, timeout = 100)] up to its return.  [url_parses]
    is the URL parser of the browser, which [open] applies to its second
    argument: where it fails, [open] raises inside the executor, before
    [xhr.send()], and the promise is rejected with nothing issued. *)
Definition canReach (url_parses : string -> bool) (url timeout : value) : probe :=
  let timeout := match timeout with VUndefined => VNum 100 | _ => timeout end in
  if negb (truthy url)
  then {| result := Resolved false; issued := [] |}
  else if url_parses (to_string url)
  then {| result := Pending;
          issued := [ {| pr_method := "HEAD"; pr_url := to_string url;
                         pr_timeout := timeout |} ] |}
  else {| result := Rejected; issued := [] |}.

(** The promise after the browser delivered [evs] to the handlers. *)
Definition settle (p : promise) (evs : list xhr_event) : promise :=
  fold_left handle evs p.

(** The events on which a handler calls [resolve]. *)
Definition settling (e : xhr_event) : bool :=
  match e with
  | ReadyStateChange ready _ => Z.eqb ready 4
  | NetworkError | TimedOut => true
  end.

(** The request completed with status [st]. *)
Definition completed_with (e : xhr_event) (st : Z) : Prop :=
  e = ReadyStateChange 4 st.

End Reach.

(* ===================================================================== *)
(** ** A reference reader for JSON texts *)
(* ===================================================================== *)

(** [JSON.parse] belongs to the browser, and the methods are modelled
    over any browser.  The examples need one to run on: this reader
    follows the JSON grammar for objects, arrays, strings with the simple
    escapes, integer numbers and the three literals, and orders the keys
    of an object as [Object.entries] does (array indices first, in
    ascending order, then the other keys in order of first appearance).
    Texts with fractions, exponents or [\u] escapes lie outside the
    values of this development; the reader answers [None] on them. *)
Module Json.

Definition is_ws (c : ascii) : bool :=
  existsb (Ascii.eqb c) [" "%char; "009"%char; "010"%char; "013"%char].

Fixpoint skip_ws (s : string) : string :=
  match s with
  | String c rest => if is_ws c then skip_ws rest else s
  | EmptyString => s
  end.

Definition is_digit (c : ascii) : bool := in_range "0" "9" c.

Definition digit_value (c : ascii) : Z := Z.of_N (code c) - 48.

(** The digits at the head of [s], accumulated onto [acc]. *)
Fixpoint read_digits (s : string) (acc : Z) : Z * string :=
  match s with
  | String c rest =>
      if is_digit c then read_digits rest (acc * 10 + digit_value c) else (acc, s)
  | EmptyString => (acc, s)
  end.

Definition starts_fraction (s : string) : bool :=
  match s with
  | String c _ => existsb (Ascii.eqb c) ["."%char; "e"%char; "E"%char]
  | EmptyString => false
  end.

(** An integer without sign: [0], or a non-zero digit and more digits. *)
Definition read_natural (s : string) : option (Z * string) :=
  match s with
  | String c rest =>
      if Ascii.eqb c "0"
      then match rest with
           | String d _ => if is_digit d then None
                           else if starts_fraction rest then None
                           else Some (0%Z, rest)
           | EmptyString => Some (0%Z, rest)
           end
      else if is_digit c
      then let (n, rest') := read_digits rest (digit_value c) in
           if starts_fraction rest' then None else Some (n, rest')
      else None
  | EmptyString => None
  end.

Definition read_number (s : string) : option (Z * string) :=
  match s with
  | String "-" rest =>
      match read_natural rest with
      | Some (n, rest') => Some ((- n)%Z, rest')
      | None => None
      end
  | _ => read_natural s
  end.

Definition unescape (c : ascii) : option ascii :=
  if Ascii.eqb c "034" then Some "034"%char
  else if Ascii.eqb c "\" then Some "\"%char
  else if Ascii.eqb c "/" then Some "/"%char
  else if Ascii.eqb c "b" then Some "008"%char
  else if Ascii.eqb c "f" then Some "012"%char
  else if Ascii.eqb c "n" then Some "010"%char
  else if Ascii.eqb c "r" then Some "013"%char
  else if Ascii.eqb c "t" then Some "009"%char
  else None.

(** The characters of a string literal after its opening quote, up to the
    closing one. *)
Fixpoint read_string (s : string) : option (string * string) :=
  match s with
  | EmptyString => None
  | String c rest =>
      if Ascii.eqb c "034" then Some (EmptyString, rest)
      else if Ascii.eqb c "\"
      then match rest with
           | String e rest' =>
               match unescape e, read_string rest' with
               | Some u, Some (body, out) => Some (String u body, out)
               | _, _ => None
               end
           | EmptyString => None
           end
      else if N.ltb (code c) 32 then None
      else match read_string rest with
           | Some (body, out) => Some (String c body, out)
           | None => None
           end
  end.

(** A key that is an array index: [0], or digits without a leading zero,
    below 2^32 - 1. *)
Definition index_of_key (k : string) : option Z :=
  match read_natural k with
  | Some (n, EmptyString) => if Z.ltb n 4294967295 then Some n else None
  | _ => None
  end.

Fixpoint has_key (k : string) (props : list (string * value)) : bool :=
  match props with
  | [] => false
  | (k', _) :: rest => (String.eqb k k' || has_key k rest)%bool
  end.

Fixpoint replace_key (k : string) (v : value) (props : list (string * value))
  : list (string * value) :=
  match props with
  | [] => []
  | (k', v') :: rest =>
      if String.eqb k k' then (k', v) :: rest else (k', v') :: replace_key k v rest
  end.

(** Place of a new index key [n]: before the first key that is not an
    index or is a larger one. *)
Fixpoint insert_index (n : Z) (k : string) (v : value) (props : list (string * value))
  : list (string * value) :=
  match props with
  | [] => [(k, v)]
  | (k', v') :: rest =>
      match index_of_key k' with
      | Some m => if Z.ltb m n then (k', v') :: insert_index n k v rest
                  else (k, v) :: props
      | None => (k, v) :: props
      end
  end.

(** [obj[k] = v] on the property list of an ordinary object. *)
Definition put (k : string) (v : value) (props : list (string * value))
  : list (string * value) :=
  if has_key k props then replace_key k v props
  else match index_of_key k with
       | Some n => insert_index n k v props
       | None => (props ++ [(k, v)])%list
       end.

(** A value at the head of [s]; [fuel] bounds the nesting and the number
    of members read. *)
Fixpoint read_value (fuel : nat) (s : string) : option (value * string) :=
  match fuel with
  | O => None
  | S fuel' =>
      let members :=
        fix members (n : nat) (acc : list (string * value)) (s : string)
          : option (value * string) :=
          match n with
          | O => None
          | S n' =>
              match skip_ws s with
              | String "034" rest =>
                  match read_string rest with
                  | Some (k, after_key) =>
                      match skip_ws after_key with
                      | String ":" after_colon =>
                          match read_value fuel' after_colon with
                          | Some (v, after_value) =>
                              match skip_ws after_value with
                              | String "," more => members n' (put k v acc) more
                              | String "}" out => Some (VObj (put k v acc), out)
                              | _ => None
                              end
                          | None => None
                          end
                      | _ => None
                      end
                  | None => None
                  end
              | _ => None
              end
          end in
      let elements :=
        fix elements (n : nat) (acc : list value) (s : string)
          : option (value * string) :=
          match n with
          | O => None
          | S n' =>
              match read_value fuel' s with
              | Some (v, after_value) =>
                  match skip_ws after_value with
                  | String "," more => elements n' (acc ++ [v])%list more
                  | String "]" out => Some (VArr (acc ++ [v])%list, out)
                  | _ => None
                  end
              | None => None
              end
          end in
      match skip_ws s with
      | String "{" rest =>
          match skip_ws rest with
          | String "}" out => Some (VObj [], out)
          | _ => members (String.length rest) [] rest
          end
      | String "[" rest =>
          match skip_ws rest with
          | String "]" out => Some (VArr [], out)
          | _ => elements (String.length rest) [] rest
          end
      | String "034" rest =>
          match read_string rest with
          | Some (body, out) => Some (VStr body, out)
          | None => None
          end
      | String "t" (String "r" (String "u" (String "e" out))) => Some (VBool true, out)
      | String "f" (String "a" (String "l" (String "s" (String "e" out)))) =>
          Some (VBool false, out)
      | String "n" (String "u" (String "l" (String "l" out))) => Some (VNull, out)
      | other =>
          match read_number other with
          | Some (n, out) => Some (VNum n, out)
          | None => None
          end
      end
  end.

(** A whole text: one value, with white space around it. *)
Definition parse (s : string) : option value :=
  match read_value (S (String.length s)) s with
  | Some (v, rest) =>
      match skip_ws rest with
      | EmptyString => Some v
      | _ => None
      end
  | None => None
  end.

End Json.

(* ===================================================================== *)
(** ** Vocabulary of the statements *)
(* ===================================================================== *)

(** A configuration object: a non-null value of type ["object"]. *)
Definition is_object (v : value) : bool :=
  match v with
  | VObj _ | VArr _ => true
  | _ => false
  end.

(** The value of key [k] of a configuration object, [undefined] when the
    key is absent. *)
Definition prop (v : value) (k : string) : value := assoc k (entries v).


(** The three components of a run. *)
Definition result_of {S A : Type} (r : outcome A * S * list event) : outcome A :=
  fst (fst r).
Definition state_of {S A : Type} (r : outcome A * S * list event) : S :=
  snd (fst r).
Definition trace_of {S A : Type} (r : outcome A * S * list event) : list event :=
  snd r.

(** Error levels, from the header of [Server.js]: [0x01] is a fatal error
    (cannot continue), [0x10] a conditional warning (can continue). *)
Definition FATAL : Z := 1.
Definition WARNING : Z := 16.

(** The request [connect] builds from the fields of the static class. *)
Definition static_request (s : Static.state) : xhr :=
  {| x_method := Static.method s;
     x_url := to_string (Static.src s);
     x_headers := [("Content-type", Static.content_type s)];
     x_body := Some (Static.params s) |}.

(** The request [connect] builds from the fields of an instance. *)
Definition instance_request (s : Instance.state) : xhr :=
  {| x_method := Instance.method s;
     x_url := to_string (Instance.src s);
     x_headers := [("Content-type", Instance.contentType s)];
     x_body := Some (Instance.params s) |}.



(** One [key=value] pair of the encoded parameter string: the key and a
    string value go through [encodeURI]; any other value is rendered as
    it is, without encoding (an [undefined] one, which the encoder's
    parameter default replaces by [false], as ["false"]). *)
Definition encode_pair (kv : string * value) : string :=
  encodeURI (fst kv) ++ "=" ++
  match snd kv with
  | VStr s => encodeURI s
  | VUndefined => "false"
  | other => to_string other
  end.

(** The pairs after the first, each behind its separator. *)
Fixpoint separated (es : list (string * value)) : string :=
  match es with
  | [] => ""
  | e :: rest => "&" ++ encode_pair e ++ separated rest
  end.

(** The response body [{"k":1}] of the specification's example (["034"]
    is the double quote). *)
Definition json_k1 : string :=
  String "{" (String "034" (String "k" (String "034" ":1}"))).

(** A page used in the examples: [https://example.com/app/index.html],
    with one global function [handler]. *)
Definition example_page : browser :=
  {| win_location :=
       {| protocol := "https:"; host := "example.com";
          hostname := "example.com"; pathname := "/app/index.html" |};
     win_globals := [("handler", VFun "function handler(resp) { }")];
     JSON_parse := Json.parse |}.

(** The fields of the static class after each step of [send], for a
    configuration object stored in [Server.obj]. *)
Definition static_after_checkArgs (cfg : value) (s : Static.state) : Static.state :=
  let given := truthy (prop cfg "args") in
  Static.set_diagnostic
    (if given then Static.status s else VNum 1)
    (if given then Static.error s else VStr "No arguments were specified.")
    (if given then Static.error_level s else WARNING) s.

Definition static_after_getSrc (s : Static.state) : Static.state :=
  Static.set_src
    (if is_string (prop (Static.obj s) "src")
     then prop (Static.obj s) "src" else VBool false) s.

Definition static_after_validateSources (env : browser) (s : Static.state) : Static.state :=
  Static.set_src
    (if is_false (Static.url_auto_resolve s)
     then match Static.src s with
          | VStr u =>
              if Z.eqb (indexOf (toLowerCase u) "http") (-1)
              then VStr (protocol (win_location env) ++ "//"
                         ++ str_or (host (win_location env)) (hostname (win_location env))
                         ++ to_string (Static.dirname (VStr (pathname (win_location env))))
                         ++ u)
              else VStr u
          | other => other
          end
     else Static.src s) s.

Definition static_after_getParams (s : Static.state) : Static.state :=
  Static.set_params
    (let a := prop (Static.obj s) "args" in
     if is_object a then Static.params_loop (entries a) "" 0 else "") s.

Definition static_after_setMethod (s : Static.state) : Static.state :=
  Static.set_method
    match prop (Static.obj s) "method" with
    | VStr "" => Static.method s
    | VStr m => toUpperCase m
    | _ => Static.method s
    end s.

Definition static_after_setContentType (s : Static.state) : Static.state :=
  Static.set_contentType
    match prop (Static.obj s) "content-type" with
    | VStr "" => Static.contentType s
    | VStr c => Some (toUpperCase c)
    | _ => Static.contentType s
    end s.

Definition static_after_callback (cbf_ func : value) (s : Static.state) : Static.state :=
  Static.set_cbf
    (if (is_false func && negb (is_false cbf_))%bool then cbf_
     else if (is_true cbf_ && negb (is_false func))%bool then func
     else js_or (js_or (js_or (js_or (prop (Static.obj s) "func")
                                     (prop (Static.obj s) "cbf"))
                              (prop (Static.obj s) "callback"))
                       (prop (Static.obj s) "callback-function"))
                (VBool false)) s.

(** The fields when [send] reaches [connect]. *)
Definition static_prepared (env : browser) (cfg cbf_ func : value) (s : Static.state)
  : Static.state :=
  static_after_callback (default_false cbf_) (default_false func)
    (static_after_setContentType
       (static_after_setMethod
          (static_after_getParams
             (static_after_validateSources env
                (static_after_getSrc
                   (Static.set_obj cfg (static_after_checkArgs cfg s))))))).

(** The fields of an instance after each step of [prepareAndSend]. *)
Definition instance_after_checkArgs (cfg : value) (s : Instance.state) : Instance.state :=
  let given := truthy (prop cfg "args") in
  Instance.set_diagnostic
    (if given then Instance.error s else VStr "No arguments specified")
    (if given then Instance.errorLevel s else WARNING)
    (if given then Instance.status s else VNum 1) s.

Definition instance_after_getSrc (s : Instance.state) : Instance.state :=
  Instance.set_src
    (if is_string (prop (Instance.obj s) "src")
     then prop (Instance.obj s) "src" else VBool false) s.

Definition instance_after_getParams (s : Instance.state) : Instance.state :=
  Instance.set_params
    (let a := prop (Instance.obj s) "args" in
     if is_object a then Instance.params_loop (entries a) "" 0 else "") s.

Definition instance_after_setMethod (s : Instance.state) : Instance.state :=
  Instance.set_method
    match prop (Instance.obj s) "method" with
    | VStr "" => "POST"
    | VStr m => toUpperCase m
    | _ => "POST"
    end s.

Definition instance_after_setContentType (s : Instance.state) : Instance.state :=
  Instance.set_contentType
    match prop (Instance.obj s) "content-type" with
    | VStr "" => "application/x-www-form-urlencoded"
    | VStr c => toUpperCase c
    | _ => "application/x-www-form-urlencoded"
    end s.

Definition instance_after_callback (cbf_ func : value) (s : Instance.state) : Instance.state :=
  Instance.set_cbf
    (if is_false func then cbf_
     else if is_true cbf_ then func
     else js_or (js_or (js_or (js_or (prop (Instance.obj s) "func")
                                     (prop (Instance.obj s) "cbf"))
                              (prop (Instance.obj s) "callback"))
                       (prop (Instance.obj s) "callback-function"))
                (VBool false)) s.

(** The fields when [prepareAndSend] reaches [connect]. *)
Definition instance_prepared (cfg cbf_ func : value) (s : Instance.state)
  : Instance.state :=
  instance_after_callback (default_false cbf_) (default_false func)
    (instance_after_setContentType
       (instance_after_setMethod
          (instance_after_getParams
             (instance_after_getSrc
                (Instance.set_obj cfg (instance_after_checkArgs cfg s)))))).

(** The derived fields of the static class: everything [send] computes
    from the configuration. *)
Definition static_derived_equal (a b : Static.state) : Prop :=
  Static.obj a = Static.obj b /\ Static.src a = Static.src b /\
  Static.params a = Static.params b /\ Static.method a = Static.method b /\
  Static.content_type a = Static.content_type b /\
  Static.contentType a = Static.contentType b /\
  Static.cbf a = Static.cbf b /\ Static.con a = Static.con b.

(** The derived fields of an instance. *)
Definition instance_derived_equal (a b : Instance.state) : Prop :=
  Instance.obj a = Instance.obj b /\ Instance.src a = Instance.src b /\
  Instance.params a = Instance.params b /\ Instance.method a = Instance.method b /\
  Instance.contentType a = Instance.contentType b /\
  Instance.cbf a = Instance.cbf b /\ Instance.con a = Instance.con b.

(** [needle] occurs in [hay]. *)
Definition occurs (needle hay : string) : Prop :=
  exists before after, hay = before ++ needle ++ after.

(** The body holds an opening and a closing brace, or an opening and a
    closing bracket. *)
Definition brace_or_bracket (body : string) : Prop :=
  (occurs "{" body /\ occurs "}" body) \/ (occurs "[" body /\ occurs "]" body).

(** The function a callback field stands for when a response arrives:
    the global binding of that name when there is a truthy one, else the
    field itself. *)
Definition callback_target (env : browser) (c : value) : value :=
  let g := assoc (to_string c) (win_globals env) in
  if truthy g then g else c.


(** A completed response with a status in [200, 300). *)
Definition success (r : response) : Prop :=
  readyState r = 4%Z /\ (200 <= http_status r < 300)%Z.

(** The extensions named by [Server.dirname]. *)
Definition listed_extensions : list string := ["php"; "js"; "css"; "html"; "asp"].

(** Every character of [s] satisfies [p]. *)
Fixpoint all_chars (p : ascii -> bool) (s : string) : bool :=
  match s with
  | EmptyString => true
  | String c rest => (p c && all_chars p rest)%bool
  end.

(** A character of the class [[A-z0-9]] under the [i] flag: a letter, a
    digit, or one of the six characters between ["Z"] and ["a"]. *)
Definition word_char (c : ascii) : bool :=
  Regex.atom_test true (Regex.ARanges [("A"%char, "z"%char); ("0"%char, "9"%char)]) c.

Definition not_dot (c : ascii) : bool := negb (Ascii.eqb c ".").

(** A character [.] matches: anything but a line feed or a carriage
    return. *)
Definition not_line_break (c : ascii) : bool := Regex.atom_test true Regex.ADot c.

(** The directory component as the specification words it: when the last
    path segment is a file name whose extension is one of php, js, css,
    html, asp (in any case), the path without that file name, keeping the
    slash; otherwise the path as it is. *)
Definition spec_dirname (path : string) : string :=
  let segment := last (split "/" path) "" in
  match rev (split "." segment) with
  | ext :: _ :: _ =>
      if existsb (String.eqb (toLowerCase ext)) listed_extensions
      then String.concat "/" (removelast (split "/" path)) ++ "/"
      else path
  | _ => path
  end.

(** The text left when [s] starts with [w] up to case. *)
Fixpoint strip_prefix_ci (w s : string) : option string :=
  match w with
  | EmptyString => Some s
  | String a w' =>
      match s with
      | String b s' =>
          if Ascii.eqb (upper_char a) (upper_char b) then strip_prefix_ci w' s' else None
      | EmptyString => None
      end
  end.

(** The source [send] resolves for a relative [src] on page [env]. *)
Definition resolved_against (env : browser) (u : string) : string :=
  protocol (win_location env) ++ "//"
  ++ str_or (host (win_location env)) (hostname (win_location env))
  ++ to_string (Static.dirname (VStr (pathname (win_location env)))) ++ u.

(** The first of the literals [ws] that matches at the head of [s], up to
    case, and lets the continuation [k] succeed. *)
Fixpoint first_match (ws : list string) (s : string) (k : string -> option string)
  : option string :=
  match ws with
  | [] => None
  | w :: rest =>
      match match strip_prefix_ci w s with
            | Some after => k after
            | None => None
            end with
      | Some out => Some out
      | None => first_match rest s k
      end
  end.

(** The part of [filename_re] after the optional slash, and the part
    after the file name. *)
Definition name_and_extension_re : Regex.regex :=
  Regex.RSeq (Regex.RPlus (Regex.ARanges [("A"%char, "z"%char); ("0"%char, "9"%char)]))
    (Regex.RSeq (Regex.RAtom (Regex.AChar "."))
       (Regex.RSeq Regex.extension_re (Regex.RStar Regex.ADot))).

Definition dot_and_extension (s : string) : option string :=
  Regex.rmatch true
    (Regex.RSeq (Regex.RAtom (Regex.AChar "."))
       (Regex.RSeq Regex.extension_re (Regex.RStar Regex.ADot))) s Some.

(* ===================================================================== *)
(** ** The primitives on small inputs *)
(* ===================================================================== *)

Example encodeURI_space : encodeURI "x y" = "x%20y".
Proof. reflexivity. Qed.

Example encodeURI_reserved : encodeURI "a&b=c?d#e%" = "a&b=c?d#e%25".
Proof. reflexivity. Qed.

Example to_string_array :
  to_string (VArr [VNum 1; VNull; VStr "a"; VArr [VNum (-2); VNum 30]]) = "1,,a,-2,30".
Proof. reflexivity. Qed.

Example entries_array :
  entries (VArr [VStr "a"; VStr "b"]) = [("0", VStr "a"); ("1", VStr "b")].
Proof. reflexivity. Qed.

Example split_dots : split "." "/a.b/c.html" = ["/a"; "b/c"; "html"].
Proof. reflexivity. Qed.

Example indexOf_found :
  indexOf "some http here" "http" = 5%Z /\ indexOf "abc" "http" = (-1)%Z.
Proof. split; reflexivity. Qed.

Example toUpperCase_mixed : toUpperCase "application/Json; q=1" = "APPLICATION/JSON; Q=1".
Proof. reflexivity. Qed.

Example filename_re_index :
  Regex.replace true Regex.filename_re "/" "/app/index.html" = "/app/".
Proof. reflexivity. Qed.

Example filename_re_hyphen :
  Regex.replace true Regex.filename_re "/" "/app/my-page.HTML" = "/app/my-/".
Proof. reflexivity. Qed.

Example extension_re_unanchored :
  Regex.test true Regex.extension_re "json" = true /\
  Regex.test true Regex.extension_re "txt" = false.
Proof. split; reflexivity. Qed.

Example json_object : Json.parse json_k1 = Some (VObj [("k", VNum 1)]).
Proof. reflexivity. Qed.

Example json_rejects : Json.parse "plain" = None /\ Json.parse "[1,2" = None.
Proof. split; reflexivity. Qed.

(** A run of successive [Server.send] calls, each given as its three
    arguments; an exception ends the run. *)
Fixpoint static_sends (env : browser) (calls_ : list (value * value * value))
  (s : Static.state) (tr : list event) : Static.state * list event :=
  match calls_ with
  | [] => (s, tr)
  | (cfg, cbf_, func) :: rest =>
      match Static.send env cfg cbf_ func s tr with
      | (Normal _, s', tr') => static_sends env rest s' tr'
      | (Thrown _, s', tr') => (s', tr')
      end
  end.

(** The value of a hexadecimal digit. *)
Definition hex_value (c : ascii) : N :=
  if in_range "0" "9" c then code c - 48
  else if in_range "A" "F" c then code c - 55
  else 0.

(** Undoes the escapes written by [encodeURI]. *)
Fixpoint unescape_uri (s : string) : string :=
  match s with
  | EmptyString => EmptyString
  | String c rest =>
      if Ascii.eqb c "%"
      then match rest with
           | String h (String l rest') =>
               String (ascii_of_N (16 * hex_value h + hex_value l)) (unescape_uri rest')
           | _ => s
           end
      else String c (unescape_uri rest)
  end.

(** The payload the static handler hands to the callback. *)
Definition payload (env : browser) (body : string) : value :=
  if looks_structured body
  then match JSON_parse env body with
       | Some v => v
       | None => VStr body
       end
  else VStr body.

(** The header every request of the static class carries from its
    initial fields on. *)
Definition default_header : list (string * string) :=
  [("Content-type", "application/x-www-form-urlencoded")].

(** A run of successive [send] calls on one instance; an exception ends
    the run. *)
Fixpoint instance_sends (calls_ : list (value * value * value))
  (i : Instance.state) (tr : list event) : Instance.state * list event :=
  match calls_ with
  | [] => (i, tr)
  | (cfg, cbf_, func) :: rest =>
      match Instance.send cfg cbf_ func i tr with
      | (Normal _, i', tr') => instance_sends rest i' tr'
      | (Thrown _, i', tr') => (i', tr')
      end
  end.

(** A request with the single header [Content-type: v]. *)
Definition sole_header (v : string) (x : xhr) : Prop :=
  x_headers x = [("Content-type", v)].



Definition not_slash (c : ascii) : bool := negb (Ascii.eqb c "/").

(** The UTF-8 bytes of U+2028 or U+2029 somewhere in [s]: the two line
    terminators of the language that are not single bytes. *)
Fixpoint has_line_separator (s : string) : bool :=
  match s with
  | EmptyString => false
  | String _ s' =>
      (String.prefix (String "226" (String "128" (String "168" ""))) s
       || String.prefix (String "226" (String "128" (String "169" ""))) s
       || has_line_separator s')%bool
  end.

(** A value that, when a string, holds no line terminator. *)
Definition single_line (v : value) : Prop :=
  match v with
  | VStr p => all_chars not_line_break p = true /\ has_line_separator p = false
  | _ => True
  end.

(** *** The inputs on which the embedding is exact

    [to_string] prints an integer digit by digit and renders an object
    without consulting it, [toUpperCase] maps the ASCII letters, and
    [xhr_open] and [xhr_setRequestHeader] record their arguments without
    ever raising.  The predicates below delimit the inputs on which the
    language and the browser do just that; the statements on the content
    of a request assume them. *)

(** The integers a [Number] holds exactly; their digits are printed in
    full. *)
Definition safe_integer (z : Z) : bool := Z.leb (Z.abs z) 9007199254740991.

(** An own property [toString] or [valueOf], which a conversion would
    call. *)
Definition converts_itself (props : list (string * value)) : bool :=
  existsb (fun kv => (String.eqb (fst kv) "toString"
                      || String.eqb (fst kv) "valueOf")%bool) props.

(** A value that string concatenation ([+], through [ToPrimitive]) and a
    template literal (through [ToString]) convert alike, to
    [to_string]: a number is a safe integer, an object has no conversion
    of its own, and the elements of an array are such values. *)
Fixpoint printable (v : value) : bool :=
  match v with
  | VNum z => safe_integer z
  | VObj props => negb (converts_itself props)
  | VArr elems => forallb printable elems
  | _ => true
  end.

(** The values of the entries of a mapping are all [printable]. *)
Definition printable_entries (v : value) : bool :=
  forallb (fun kv => printable (snd kv)) (entries v).

(** Characters of a method token. *)
Definition token_char (c : ascii) : bool :=
  (in_range "a" "z" c || in_range "A" "Z" c || in_range "0" "9" c
   || existsb (Ascii.eqb c) (list_ascii_of_string "!#$%&'*+-.^_`|~"))%bool.

(** A method [open] takes as it is: a non-empty token, in upper case,
    that is none of the forbidden CONNECT, TRACE and TRACK. *)
Definition method_accepted (m : string) : bool :=
  (negb (String.eqb m "") && all_chars token_char m
   && String.eqb (toUpperCase m) m
   && negb (existsb (String.eqb m) ["CONNECT"; "TRACE"; "TRACK"]))%bool.

Fixpoint ends_with_space (s : string) : bool :=
  match s with
  | EmptyString => false
  | String c EmptyString => Ascii.eqb c " "
  | String _ rest => ends_with_space rest
  end.

(** A header value [setRequestHeader] takes as it is: printable ASCII
    characters and inner spaces. *)
Definition header_accepted (v : string) : bool :=
  (all_chars (in_range " " "~") v
   && negb (String.prefix " " v) && negb (ends_with_space v))%bool.

(** The longest prefix of characters in [f], and what follows it. *)
Fixpoint span (f : ascii -> bool) (s : string) : string * string :=
  match s with
  | EmptyString => (EmptyString, EmptyString)
  | String c rest =>
      if f c
      then let (a, b) := span f rest in (String c a, b)
      else (EmptyString, s)
  end.

Fixpoint after_prefix (p s : string) : option string :=
  match p, s with
  | EmptyString, _ => Some s
  | String a p', String b s' => if Ascii.eqb a b then after_prefix p' s' else None
  | String _ _, EmptyString => None
  end.

Definition letter (c : ascii) : bool := (in_range "a" "z" c || in_range "A" "Z" c)%bool.

Definition digit (c : ascii) : bool := in_range "0" "9" c.

(** A host name of non-empty labels of letters and digits, the last of
    which starts with a letter (so that it is not read as a number). *)
Definition simple_host (h : string) : bool :=
  (forallb (fun l => negb (String.eqb l "")) (split "." h)
   && match last (split "." h) "" with
      | String c _ => letter c
      | EmptyString => false
      end)%bool.

(** An optional port of one to four digits. *)
Definition after_port (r : string) : option string :=
  match r with
  | String ":" p =>
      let (d, r') := span digit p in
      if (Nat.leb 1 (String.length d) && Nat.leb (String.length d) 4)%bool
      then Some r' else None
  | _ => Some r
  end.

(** A url that every URL parser accepts: [http://] or [https://], a
    [simple_host], an optional port, and then nothing or a path, query
    or fragment (which never make the parser fail).  The condition is
    sufficient, not necessary. *)
Definition url_accepted (u : string) : bool :=
  match match after_prefix "http://" u with
        | Some t => Some t
        | None => after_prefix "https://" u
        end with
  | Some t =>
      let (h, r) := span (fun c => (letter c || digit c || Ascii.eqb c ".")%bool) t in
      (simple_host h
       && match after_port r with
          | Some EmptyString => true
          | Some (String c _) => existsb (Ascii.eqb c) (list_ascii_of_string "/?#")
          | None => false
          end)%bool
  | None => false
  end.

(** A request whose [open] and [setRequestHeader] raise nothing and hand
    on their arguments unchanged. *)
Definition accepted (x : xhr) : bool :=
  (method_accepted (x_method x) && url_accepted (x_url x)
   && forallb (fun h => header_accepted (snd h)) (x_headers x))%bool.

(** One pair as the specification words it: key and string value
    encoded, any other value passed through. *)
Definition claimed_pair (kv : string * value) : string :=
  encodeURI (fst kv) ++ "=" ++
  match snd kv with
  | VStr s => encodeURI s
  | other => to_string other
  end.

Example url_accepted_examples :
  map url_accepted
    ["https://example.com/api"; "https://example.com"; "http://localhost:8080/x?y#z";
     "http://"; "https://1.2.3.4.5/"; "data.json"; "https://a..b/"; "https://example.com:x/"]
  = [true; true; true; false; false; false; false; false].
Proof. reflexivity. Qed.

(* ===================================================================== *)
(** ** Running the methods: one lemma per method *)
(* ===================================================================== *)

Lemma bind_normal {S A B} (m : M S A) (k : A -> M S B) st tr a st' tr' :
  m st tr = (Normal a, st', tr') -> bind m k st tr = k a st' tr'.
Proof. intros H. unfold bind. rewrite H. reflexivity. Qed.

Lemma bind_thrown {S A B} (m : M S A) (k : A -> M S B) st tr e st' tr' :
  m st tr = (Thrown e, st', tr') -> bind m k st tr = (Thrown e, st', tr').
Proof. intros H. unfold bind. rewrite H. reflexivity. Qed.

Lemma bind_modify {S B} (f : S -> S) (k : unit -> M S B) st tr :
  bind (modify f) k st tr = k tt (f st) tr.
Proof. reflexivity. Qed.

Lemma bind_gets {S A B} (f : S -> A) (k : A -> M S B) st tr :
  bind (gets f) k st tr = k (f st) st tr.
Proof. reflexivity. Qed.

Lemma bind_ret {S A B} (a : A) (k : A -> M S B) st tr :
  bind (ret a) k st tr = k a st tr.
Proof. reflexivity. Qed.

Lemma get_object v k : is_object v = true -> get v k = Some (prop v k).
Proof. destruct v; simpl; intros H; try discriminate; reflexivity. Qed.

Lemma read_object {S} v k (st : S) tr :
  is_object v = true -> read v k st tr = (Normal (prop v k), st, tr).
Proof. intros H. unfold read. rewrite (get_object v k H). reflexivity. Qed.

Lemma typeof_object v : is_object v = true -> typeof v = "object".
Proof. destruct v; simpl; intros H; try discriminate; reflexivity. Qed.

Lemma default_false_object v : is_object v = true -> default_false v = v.
Proof. destruct v; simpl; intros H; try discriminate; reflexivity. Qed.


(** *** The static class *)

Lemma static_set_method_same s : Static.set_method (Static.method s) s = s.
Proof. destruct s; reflexivity. Qed.

Lemma static_set_src_same s : Static.set_src (Static.src s) s = s.
Proof. destruct s; reflexivity. Qed.

Lemma static_set_contentType_same s :
  Static.set_contentType (Static.contentType s) s = s.
Proof. destruct s; reflexivity. Qed.

Lemma static_set_diagnostic_same s :
  Static.set_diagnostic (Static.status s) (Static.error s) (Static.error_level s) s = s.
Proof. destruct s; reflexivity. Qed.

Lemma instance_set_diagnostic_same s :
  Instance.set_diagnostic (Instance.error s) (Instance.errorLevel s) (Instance.status s) s = s.
Proof. destruct s; reflexivity. Qed.

Section StaticRuns.

Variable env : browser.
Variables (st : Static.state) (tr : list event).

Lemma static_checkArgs_no_src q :
  is_object q = true -> truthy (prop q "src") = false ->
  Static.checkArgs q st tr =
    (Normal false,
     Static.set_diagnostic (VNum 1)
       (VStr "URL destination was not specified in arguments. Please specify a target URL server to send this data to.")
       FATAL st,
     tr).
Proof.
  intros Hq Hs. unfold Static.checkArgs.
  rewrite (default_false_object q Hq), (typeof_object q Hq). simpl.
  rewrite (bind_normal _ _ _ _ _ _ _ (read_object q "src" st tr Hq)).
  rewrite Hs. reflexivity.
Qed.

Lemma static_checkArgs_src q :
  is_object q = true -> truthy (prop q "src") = true ->
  Static.checkArgs q st tr = (Normal true, static_after_checkArgs q st, tr).
Proof.
  intros Hq Hs. unfold Static.checkArgs, static_after_checkArgs.
  rewrite (default_false_object q Hq), (typeof_object q Hq). simpl.
  rewrite (bind_normal _ _ _ _ _ _ _ (read_object q "src" st tr Hq)).
  rewrite Hs. simpl.
  rewrite (bind_normal _ _ _ _ _ _ _ (read_object q "args" st tr Hq)).
  cbv zeta. destruct (truthy (prop q "args")); [| reflexivity].
  rewrite static_set_diagnostic_same. reflexivity.
Qed.

Lemma static_checkArgs_not_object q :
  typeof (default_false q) <> "object" ->
  Static.checkArgs q st tr = (Normal false, st, tr).
Proof.
  intros Hq. unfold Static.checkArgs.
  destruct q; simpl in *; try reflexivity; congruence.
Qed.

Hypothesis Hobj : is_object (Static.obj st) = true.

Lemma static_getSrc :
  Static.getSrc st tr =
    (Normal (if is_string (prop (Static.obj st) "src")
             then prop (Static.obj st) "src" else VBool false),
     st, tr).
Proof.
  unfold Static.getSrc, bind, gets.
  rewrite (typeof_object _ Hobj). simpl.
  rewrite (read_object _ "src" st tr Hobj).
  destruct (prop (Static.obj st) "src"); reflexivity.
Qed.

Lemma static_getParams :
  Static.getParams st tr =
    (Normal (let a := prop (Static.obj st) "args" in
             if is_object a then Static.params_loop (entries a) "" 0 else ""),
     st, tr).
Proof.
  unfold Static.getParams, bind, gets.
  rewrite (read_object _ "args" st tr Hobj).
  destruct (prop (Static.obj st) "args"); try reflexivity.
  - simpl. destruct b; reflexivity.
  - simpl. destruct (negb (z =? 0)%Z); reflexivity.
  - simpl. destruct (negb (s =? "")); reflexivity.
Qed.

Lemma static_setMethod :
  Static.setMethod st tr = (Normal tt, static_after_setMethod st, tr).
Proof.
  unfold Static.setMethod, static_after_setMethod, bind, gets, Static.check_obj.
  rewrite (typeof_object _ Hobj). simpl.
  rewrite (read_object _ "method" st tr Hobj).
  destruct (prop (Static.obj st) "method");
    rewrite ?static_set_method_same; try reflexivity.
  destruct s; rewrite ?static_set_method_same; reflexivity.
Qed.

Lemma static_setContentType :
  Static.setContentType st tr = (Normal tt, static_after_setContentType st, tr).
Proof.
  unfold Static.setContentType, static_after_setContentType, bind, gets, Static.check_obj.
  rewrite (typeof_object _ Hobj). simpl.
  rewrite (read_object _ "content-type" st tr Hobj).
  destruct (prop (Static.obj st) "content-type");
    rewrite ?static_set_contentType_same; try reflexivity.
  destruct s; rewrite ?static_set_contentType_same; reflexivity.
Qed.

Lemma static_setCallbackFunction :
  Static.setCallbackFunction st tr =
    (Normal tt,
     Static.set_cbf
       (js_or (js_or (js_or (js_or (prop (Static.obj st) "func")
                                   (prop (Static.obj st) "cbf"))
                            (prop (Static.obj st) "callback"))
                     (prop (Static.obj st) "callback-function"))
              (VBool false)) st,
     tr).
Proof.
  unfold Static.setCallbackFunction, bind, gets, Static.check_obj.
  rewrite (typeof_object _ Hobj). simpl.
  rewrite !(read_object _ _ st tr Hobj). reflexivity.
Qed.

End StaticRuns.

Lemma static_validateSources_step env st tr :
  (if is_false (Static.url_auto_resolve st)
   then Static.validateSources env else ret tt) st tr =
    (Normal tt, static_after_validateSources env st, tr).
Proof.
  unfold static_after_validateSources.
  destruct (is_false (Static.url_auto_resolve st)).
  - unfold Static.validateSources, bind, gets.
    destruct (Static.src st) eqn:E;
      try (rewrite <- E, static_set_src_same; reflexivity).
    destruct (Z.eqb (indexOf (toLowerCase s) "http") (-1)); [reflexivity |].
    rewrite <- E, static_set_src_same. reflexivity.
  - rewrite static_set_src_same. reflexivity.
Qed.

Lemma static_connect st tr :
  Static.connect st tr =
    if Static.checkReq st
    then (Normal (VBool true),
          Static.set_con (Some (static_request st)) st,
          (tr ++ [EvRequest (static_request st)])%list)
    else (Normal (VBool false), st, tr).
Proof.
  unfold Static.connect, bind, gets.
  destruct (Static.checkReq st); reflexivity.
Qed.

(** [send] on a configuration object with a truthy [src]: validation
    passes and [connect] runs on the prepared fields. *)
Lemma static_send_valid env cfg cbf_ func st tr :
  is_object cfg = true -> truthy (prop cfg "src") = true ->
  Static.send env cfg cbf_ func st tr =
    Static.connect (static_prepared env cfg cbf_ func st) tr.
Proof.
  intros Hq Hs. unfold Static.send, static_prepared.
  rewrite (default_false_object cfg Hq).
  rewrite (bind_normal _ _ _ _ _ _ _ (static_checkArgs_src st tr cfg Hq Hs)).
  change (negb true) with false. cbv iota.
  set (s0 := static_after_checkArgs cfg st).
  rewrite bind_modify.
  set (s1 := Static.set_obj cfg s0).
  assert (H1 : is_object (Static.obj s1) = true) by exact Hq.
  rewrite (bind_normal _ _ _ _ _ _ _ (static_getSrc s1 tr H1)).
  rewrite bind_modify. fold (static_after_getSrc s1).
  set (s2 := static_after_getSrc s1).
  rewrite bind_gets.
  rewrite (bind_normal _ _ _ _ _ _ _ (static_validateSources_step env s2 tr)).
  set (s3 := static_after_validateSources env s2).
  assert (H3 : is_object (Static.obj s3) = true) by exact Hq.
  rewrite (bind_normal _ _ _ _ _ _ _ (static_getParams s3 tr H3)).
  rewrite bind_modify. fold (static_after_getParams s3).
  set (s4 := static_after_getParams s3).
  assert (H4 : is_object (Static.obj s4) = true) by exact H3.
  rewrite (bind_normal _ _ _ _ _ _ _ (static_setMethod s4 tr H4)).
  set (s5 := static_after_setMethod s4).
  assert (H5 : is_object (Static.obj s5) = true) by exact H4.
  rewrite (bind_normal _ _ _ _ _ _ _ (static_setContentType s5 tr H5)).
  set (s6 := static_after_setContentType s5).
  assert (H6 : is_object (Static.obj s6) = true) by exact H5.
  assert (Hc : (if (is_false (default_false func)
                    && negb (is_false (default_false cbf_)))%bool
                then modify (Static.set_cbf (default_false cbf_))
                else if (is_true (default_false cbf_)
                         && negb (is_false (default_false func)))%bool
                then modify (Static.set_cbf (default_false func))
                else Static.setCallbackFunction) s6 tr
               = (Normal tt,
                  static_after_callback (default_false cbf_) (default_false func) s6,
                  tr)).
  { unfold static_after_callback.
    destruct (_ && _)%bool; [reflexivity |].
    destruct (_ && _)%bool; [reflexivity |].
    apply static_setCallbackFunction. exact H6. }
  rewrite (bind_normal _ _ _ _ _ _ _ Hc).
  reflexivity.
Qed.

(** *** The instance class *)

Lemma array_or_object_object v : is_object v = true -> Instance.array_or_object v = true.
Proof. destruct v; simpl; intros H; try discriminate; reflexivity. Qed.

Section InstanceRuns.

Variables (st : Instance.state) (tr : list event).

Lemma instance_checkArgs_no_src q :
  is_object q = true -> truthy (prop q "src") = false ->
  Instance.checkArgs q st tr =
    (Normal false,
     Instance.set_diagnostic (VStr "URL destination not specified") FATAL (VNum 1) st,
     tr).
Proof.
  intros Hq Hs. unfold Instance.checkArgs.
  rewrite (default_false_object q Hq), (array_or_object_object q Hq).
  change (negb true) with false. cbv iota.
  rewrite (bind_normal _ _ _ _ _ _ _ (read_object q "src" st tr Hq)).
  rewrite Hs. reflexivity.
Qed.

Lemma instance_checkArgs_src q :
  is_object q = true -> truthy (prop q "src") = true ->
  Instance.checkArgs q st tr = (Normal true, instance_after_checkArgs q st, tr).
Proof.
  intros Hq Hs. unfold Instance.checkArgs, instance_after_checkArgs.
  rewrite (default_false_object q Hq), (array_or_object_object q Hq).
  change (negb true) with false. cbv iota.
  rewrite (bind_normal _ _ _ _ _ _ _ (read_object q "src" st tr Hq)).
  rewrite Hs. change (negb true) with false. cbv iota.
  rewrite (bind_normal _ _ _ _ _ _ _ (read_object q "args" st tr Hq)).
  cbv zeta. destruct (truthy (prop q "args")); [| reflexivity].
  rewrite instance_set_diagnostic_same. reflexivity.
Qed.

Hypothesis Hobj : is_object (Instance.obj st) = true.

Lemma instance_getSrc :
  Instance.getSrc st tr =
    (Normal (if is_string (prop (Instance.obj st) "src")
             then prop (Instance.obj st) "src" else VBool false),
     st, tr).
Proof.
  unfold Instance.getSrc. rewrite bind_gets.
  unfold Instance.checkObj. rewrite (array_or_object_object _ Hobj).
  change (negb true) with false. cbv iota. rewrite bind_gets.
  rewrite (bind_normal _ _ _ _ _ _ _ (read_object _ "src" st tr Hobj)).
  destruct (prop (Instance.obj st) "src"); reflexivity.
Qed.

Lemma instance_getParams :
  prop (Instance.obj st) "args" <> VNull ->
  Instance.getParams st tr =
    (Normal (let a := prop (Instance.obj st) "args" in
             if is_object a then Instance.params_loop (entries a) "" 0 else ""),
     st, tr).
Proof.
  intros Hn. unfold Instance.getParams. rewrite bind_gets.
  unfold Instance.checkObj. rewrite (array_or_object_object _ Hobj).
  change (negb true) with false. cbv iota. rewrite bind_gets.
  rewrite (bind_normal _ _ _ _ _ _ _ (read_object _ "args" st tr Hobj)).
  destruct (prop (Instance.obj st) "args"); try reflexivity.
  congruence.
Qed.

Lemma instance_getParams_null :
  prop (Instance.obj st) "args" = VNull ->
  Instance.getParams st tr = (Thrown TypeError, st, tr).
Proof.
  intros Hn. unfold Instance.getParams. rewrite bind_gets.
  unfold Instance.checkObj. rewrite (array_or_object_object _ Hobj).
  change (negb true) with false. cbv iota. rewrite bind_gets.
  rewrite (bind_normal _ _ _ _ _ _ _ (read_object _ "args" st tr Hobj)).
  rewrite Hn. reflexivity.
Qed.

Lemma instance_setMethod :
  Instance.setMethod st tr = (Normal tt, instance_after_setMethod st, tr).
Proof.
  unfold Instance.setMethod, instance_after_setMethod. rewrite bind_gets.
  unfold Instance.checkObj. rewrite (array_or_object_object _ Hobj).
  change (negb true) with false. cbv iota. rewrite bind_gets.
  rewrite (bind_normal _ _ _ _ _ _ _ (read_object _ "method" st tr Hobj)).
  destruct (prop (Instance.obj st) "method"); try reflexivity.
  destruct s; reflexivity.
Qed.

Lemma instance_setContentType :
  Instance.setContentType st tr = (Normal tt, instance_after_setContentType st, tr).
Proof.
  unfold Instance.setContentType, instance_after_setContentType. rewrite bind_gets.
  unfold Instance.checkObj. rewrite (array_or_object_object _ Hobj).
  change (negb true) with false. cbv iota. rewrite bind_gets.
  rewrite (bind_normal _ _ _ _ _ _ _ (read_object _ "content-type" st tr Hobj)).
  destruct (prop (Instance.obj st) "content-type"); try reflexivity.
  destruct s; reflexivity.
Qed.

Lemma instance_setCallbackFunction :
  Instance.setCallbackFunction st tr =
    (Normal (js_or (js_or (js_or (js_or (prop (Instance.obj st) "func")
                                        (prop (Instance.obj st) "cbf"))
                                 (prop (Instance.obj st) "callback"))
                          (prop (Instance.obj st) "callback-function"))
                   (VBool false)),
     st, tr).
Proof.
  unfold Instance.setCallbackFunction. rewrite bind_gets.
  unfold Instance.checkObj. rewrite (array_or_object_object _ Hobj).
  change (negb true) with false. cbv iota. rewrite bind_gets.
  rewrite !(bind_normal _ _ _ _ _ _ _ (read_object _ _ st tr Hobj)).
  reflexivity.
Qed.

End InstanceRuns.

Lemma instance_connect st tr :
  Instance.connect st tr =
    if Instance.checkReq st
    then (Normal tt,
          Instance.set_con (Some (instance_request st)) st,
          (tr ++ [EvRequest (instance_request st)])%list)
    else (Normal tt, st, tr).
Proof.
  unfold Instance.connect, bind, gets.
  destruct (Instance.checkReq st); reflexivity.
Qed.

(** [send] on a configuration object with a truthy [src] and an [args]
    other than [null]: [connect] runs on the prepared fields. *)
Lemma instance_send_valid cfg cbf_ func st tr :
  is_object cfg = true -> truthy (prop cfg "src") = true ->
  prop cfg "args" <> VNull ->
  Instance.send cfg cbf_ func st tr =
    let p := instance_prepared cfg cbf_ func st in
    if Instance.checkReq p
    then (Normal VUndefined,
          Instance.set_con (Some (instance_request p)) p,
          (tr ++ [EvRequest (instance_request p)])%list)
    else (Normal VUndefined, p, tr).
Proof.
  intros Hq Hs Hn. unfold Instance.send, instance_prepared.
  rewrite (default_false_object cfg Hq).
  rewrite (bind_normal _ _ _ _ _ _ _ (instance_checkArgs_src st tr cfg Hq Hs)).
  set (s0 := instance_after_checkArgs cfg st).
  unfold Instance.prepareAndSend.
  match goal with
  | |- bind ?m ?k s0 tr = _ =>
      assert (Hm : m s0 tr =
        Instance.connect
          (instance_after_callback (default_false cbf_) (default_false func)
             (instance_after_setContentType
                (instance_after_setMethod
                   (instance_after_getParams
                      (instance_after_getSrc (Instance.set_obj cfg s0)))))) tr)
  end.
  { rewrite bind_modify.
    set (s1 := Instance.set_obj cfg s0).
    assert (H1 : is_object (Instance.obj s1) = true) by exact Hq.
    rewrite (bind_normal _ _ _ _ _ _ _ (instance_getSrc s1 tr H1)).
    rewrite bind_modify. fold (instance_after_getSrc s1).
    set (s2 := instance_after_getSrc s1).
    assert (H2 : is_object (Instance.obj s2) = true) by exact Hq.
    assert (Hn2 : prop (Instance.obj s2) "args" <> VNull) by exact Hn.
    rewrite (bind_normal _ _ _ _ _ _ _ (instance_getParams s2 tr H2 Hn2)).
    rewrite bind_modify. fold (instance_after_getParams s2).
    set (s3 := instance_after_getParams s2).
    assert (H3 : is_object (Instance.obj s3) = true) by exact Hq.
    rewrite (bind_normal _ _ _ _ _ _ _ (instance_setMethod s3 tr H3)).
    set (s4 := instance_after_setMethod s3).
    assert (H4 : is_object (Instance.obj s4) = true) by exact Hq.
    rewrite (bind_normal _ _ _ _ _ _ _ (instance_setContentType s4 tr H4)).
    set (s5 := instance_after_setContentType s4).
    assert (H5 : is_object (Instance.obj s5) = true) by exact Hq.
    assert (Hc : (if is_false (default_false func) then ret (default_false cbf_)
                  else if is_true (default_false cbf_) then ret (default_false func)
                  else Instance.setCallbackFunction) s5 tr
                 = (Normal (Instance.cbf
                      (instance_after_callback (default_false cbf_) (default_false func) s5)),
                    s5, tr)).
    { unfold instance_after_callback.
      destruct (is_false (default_false func)); [reflexivity |].
      destruct (is_true (default_false cbf_)); [reflexivity |].
      apply instance_setCallbackFunction. exact H5. }
    rewrite (bind_normal _ _ _ _ _ _ _ Hc).
    rewrite bind_modify. reflexivity. }
  unfold bind at 1. rewrite Hm, instance_connect.
  cbv zeta.
  destruct (Instance.checkReq _); reflexivity.
Qed.

Lemma requests_app tr1 tr2 : requests (tr1 ++ tr2) = (requests tr1 ++ requests tr2)%list.
Proof. unfold requests. apply flat_map_app. Qed.

(* ===================================================================== *)
(** ** C5: a configuration without destination is rejected *)
(* ===================================================================== *)

(** C5, as stated, fails for the instance class: its [send] has no
    return statement, so a call turned down for its missing [src] returns
    [undefined], the very result of a call that dispatched its request.
    Nothing in the result tells the failure. *)
Lemma C5_counterexample :
  let rejected := Instance.send (VObj []) VUndefined VUndefined Instance.initial [] in
  let sent :=
    Instance.send (VObj [("src", VStr "https://example.com/api");
                         ("args", VObj [("key", VStr "value")])])
      VUndefined VUndefined Instance.initial [] in
  truthy (prop (VObj []) "src") = false
  /\ requests (trace_of rejected) = []
  /\ length (requests (trace_of sent)) = 1%nat
  /\ result_of rejected = Normal VUndefined
  /\ result_of rejected = result_of sent.
Proof. cbv zeta. repeat split; reflexivity. Qed.

(** C5, amended.  For every configuration object whose [src] is absent or
    falsy, [send] records the fatal diagnostic (level [0x01], status
    [0x0001], the "URL destination" message), leaves every derived field
    as it was, and issues no request: the only effect is the console
    warning.  The static [send] returns [false]; the instance [send]
    returns [undefined] as on every call, the failure showing in the
    diagnostic fields and in the [false] of its [checkArgs]. *)
Theorem C5_missing_src_aborts :
  forall (env : browser) (cfg cbf_ func : value)
         (s : Static.state) (i : Instance.state) (tr : list event),
    is_object cfg = true ->
    truthy (prop cfg "src") = false ->
    let rs := Static.send env cfg cbf_ func s tr in
    let ri := Instance.send cfg cbf_ func i tr in
    (result_of rs = Normal (VBool false)
     /\ Static.error_level (state_of rs) = FATAL
     /\ Static.status (state_of rs) = VNum 1
     /\ Static.error (state_of rs) =
          VStr "URL destination was not specified in arguments. Please specify a target URL server to send this data to."
     /\ static_derived_equal (state_of rs) s
     /\ trace_of rs = (tr ++ [EvWarn "Missing params"])%list
     /\ requests (trace_of rs) = requests tr)
    /\
    (result_of (Instance.checkArgs cfg i tr) = Normal false
     /\ result_of ri = Normal VUndefined
     /\ Instance.errorLevel (state_of ri) = FATAL
     /\ Instance.status (state_of ri) = VNum 1
     /\ Instance.error (state_of ri) = VStr "URL destination not specified"
     /\ instance_derived_equal (state_of ri) i
     /\ trace_of ri = (tr ++ [EvWarn "Missing params"])%list
     /\ requests (trace_of ri) = requests tr).
Proof.
  intros env cfg cbf_ func s i tr Hq Hs rs ri.
  assert (Es : rs = (Normal (VBool false),
                     Static.set_diagnostic (VNum 1)
                       (VStr "URL destination was not specified in arguments. Please specify a target URL server to send this data to.")
                       FATAL s,
                     (tr ++ [EvWarn "Missing params"])%list)).
  { unfold rs, Static.send. rewrite (default_false_object cfg Hq).
    rewrite (bind_normal _ _ _ _ _ _ _ (static_checkArgs_no_src s tr cfg Hq Hs)).
    reflexivity. }
  assert (Ei : ri = (Normal VUndefined,
                     Instance.set_diagnostic (VStr "URL destination not specified")
                       FATAL (VNum 1) i,
                     (tr ++ [EvWarn "Missing params"])%list)).
  { unfold ri, Instance.send. rewrite (default_false_object cfg Hq).
    rewrite (bind_normal _ _ _ _ _ _ _ (instance_checkArgs_no_src i tr cfg Hq Hs)).
    reflexivity. }
  split.
  - rewrite Es. cbn [result_of state_of trace_of fst snd].
    repeat split; try reflexivity.
    rewrite requests_app. simpl. apply app_nil_r.
  - rewrite Ei, (instance_checkArgs_no_src i tr cfg Hq Hs).
    cbn [result_of state_of trace_of fst snd].
    repeat split; try reflexivity.
    rewrite requests_app. simpl. apply app_nil_r.
Qed.

(** Outside the configuration objects: [null] has type ["object"], so
    [checkArgs] goes on to read [null["src"]], which raises; any value of
    another type is turned down without a diagnostic. *)
Lemma static_send_null env cbf_ func s tr :
  Static.send env VNull cbf_ func s tr = (Thrown TypeError, s, tr).
Proof. reflexivity. Qed.

Lemma instance_send_null cbf_ func i tr :
  Instance.send VNull cbf_ func i tr = (Thrown TypeError, i, tr).
Proof. reflexivity. Qed.

Lemma static_send_not_object env cfg cbf_ func s tr :
  typeof (default_false cfg) <> "object" ->
  Static.send env cfg cbf_ func s tr
  = (Normal (VBool false), s, (tr ++ [EvWarn "Missing params"])%list).
Proof.
  intros H. unfold Static.send.
  rewrite (bind_normal _ _ _ _ _ _ _
             (static_checkArgs_not_object s tr (default_false cfg)
                ltac:(destruct cfg; simpl in *; congruence))).
  reflexivity.
Qed.

(** The claim at the empty configuration [{}], from the initial fields. *)
Lemma C5_missing_src_aborts_witness :
  let rs := Static.send example_page (VObj []) VUndefined VUndefined Static.initial [] in
  result_of rs = Normal (VBool false)
  /\ Static.error_level (state_of rs) = FATAL
  /\ requests (trace_of rs) = [].
Proof.
  pose proof (C5_missing_src_aborts example_page (VObj []) VUndefined VUndefined
                Static.initial Instance.initial [] eq_refl eq_refl) as H.
  destruct H as [(H1 & H2 & _ & _ & _ & _ & H7) _].
  exact (conj H1 (conj H2 H7)).
Defined.

(* ===================================================================== *)
(** ** C1: a configuration without arguments *)
(* ===================================================================== *)

Lemma static_checkReq_iff x :
  Static.checkReq x = true <->
  Static.method x <> "" /\ Static.params x <> "" /\ Static.obj x <> VBool false.
Proof.
  unfold Static.checkReq.
  destruct (Static.method x) as [| c m]; simpl.
  - split; [discriminate | intros [H _]; congruence].
  - destruct (Static.params x) as [| d p]; simpl.
    + split; [discriminate | intros (_ & H & _); congruence].
    + destruct (Static.obj x) as [| | [|] | | | | |]; simpl;
        (split;
         [ intros H; first [discriminate H | repeat split; discriminate]
         | intros (_ & _ & H); first [reflexivity | congruence] ]).
Qed.

Lemma instance_checkReq_iff x :
  Instance.checkReq x = true <->
  Instance.method x <> "" /\ Instance.params x <> "" /\ truthy (Instance.obj x) = true.
Proof.
  unfold Instance.checkReq.
  destruct (Instance.method x) as [| c m]; simpl.
  - split; [discriminate | intros [H _]; congruence].
  - destruct (Instance.params x) as [| d p]; simpl.
    + split; [discriminate | intros (_ & H & _); congruence].
    + split; [intros H; repeat split; try discriminate; exact H | intros (_ & _ & H); exact H].
Qed.

(** C1, as stated, fails: on the configuration [{src: "https://example.com/api"}]
    (a present [src], no [args]) validation passes and the encoded
    parameter string is empty, but [checkReq] is false and neither class
    issues a request, so there is no request with an empty body. *)
Lemma C1_counterexample :
  let cfg := VObj [("src", VStr "https://example.com/api")] in
  let rs := Static.send example_page cfg VUndefined VUndefined Static.initial [] in
  let ri := Instance.send cfg VUndefined VUndefined Instance.initial [] in
  truthy (prop cfg "src") = true /\ prop cfg "args" = VUndefined
  /\ Static.params (state_of rs) = "" /\ Static.checkReq (state_of rs) = false
  /\ Instance.params (state_of ri) = "" /\ Instance.checkReq (state_of ri) = false
  /\ ~ (exists x, In x (requests (trace_of rs)) /\ x_body x = Some "")
  /\ ~ (exists x, In x (requests (trace_of ri)) /\ x_body x = Some "").
Proof.
  cbv zeta. repeat split; try reflexivity.
  - intros (x & H & _). vm_compute in H. exact H.
  - intros (x & H & _). vm_compute in H. exact H.
Qed.

(** C1, amended.  For every configuration object with a truthy [src] and
    no [args], [send] proceeds past validation (the configuration is
    stored, with the non-fatal warning of level [0x10]) and the encoded
    parameter string is empty; [connect] then opens no connection and
    issues no request, because [checkReq] requires a non-empty method, a
    non-empty parameter string and a present configuration object. *)
Theorem C1_send_without_args :
  forall (env : browser) (cfg cbf_ func : value)
         (s : Static.state) (i : Instance.state) (tr : list event),
    is_object cfg = true ->
    truthy (prop cfg "src") = true ->
    prop cfg "args" = VUndefined ->
    let rs := Static.send env cfg cbf_ func s tr in
    let ri := Instance.send cfg cbf_ func i tr in
    (result_of (Static.checkArgs cfg s tr) = Normal true
     /\ Static.obj (state_of rs) = cfg
     /\ Static.error_level (state_of rs) = WARNING
     /\ Static.params (state_of rs) = ""
     /\ Static.checkReq (state_of rs) = false
     /\ Static.con (state_of rs) = Static.con s
     /\ result_of rs = Normal (VBool false)
     /\ trace_of rs = tr)
    /\
    (result_of (Instance.checkArgs cfg i tr) = Normal true
     /\ Instance.obj (state_of ri) = cfg
     /\ Instance.errorLevel (state_of ri) = WARNING
     /\ Instance.params (state_of ri) = ""
     /\ Instance.checkReq (state_of ri) = false
     /\ Instance.con (state_of ri) = Instance.con i
     /\ result_of ri = Normal VUndefined
     /\ trace_of ri = tr)
    /\
    (forall x, Static.checkReq x = true <->
               Static.method x <> "" /\ Static.params x <> "" /\ Static.obj x <> VBool false)
    /\
    (forall x, Instance.checkReq x = true <->
               Instance.method x <> "" /\ Instance.params x <> ""
               /\ truthy (Instance.obj x) = true).
Proof.
  intros env cfg cbf_ func s i tr Hq Hs Ha rs ri.
  assert (Ps : Static.params (static_prepared env cfg cbf_ func s) = "").
  { cbn. rewrite Ha. reflexivity. }
  assert (Cs : Static.checkReq (static_prepared env cfg cbf_ func s) = false).
  { unfold Static.checkReq. rewrite Ps. simpl.
    destruct (String.length _ =? 0)%nat; reflexivity. }
  assert (Es : rs = (Normal (VBool false), static_prepared env cfg cbf_ func s, tr)).
  { unfold rs. rewrite (static_send_valid env cfg cbf_ func s tr Hq Hs).
    rewrite static_connect, Cs. reflexivity. }
  assert (Hn : prop cfg "args" <> VNull) by (rewrite Ha; discriminate).
  assert (Pi : Instance.params (instance_prepared cfg cbf_ func i) = "").
  { cbn. rewrite Ha. reflexivity. }
  assert (Ci : Instance.checkReq (instance_prepared cfg cbf_ func i) = false).
  { unfold Instance.checkReq. rewrite Pi. simpl.
    destruct (negb _); reflexivity. }
  assert (Ei : ri = (Normal VUndefined, instance_prepared cfg cbf_ func i, tr)).
  { unfold ri. rewrite (instance_send_valid cfg cbf_ func i tr Hq Hs Hn).
    cbv zeta. rewrite Ci. reflexivity. }
  split; [| split; [| split]].
  - rewrite Es, (static_checkArgs_src s tr cfg Hq Hs).
    cbn [result_of state_of trace_of fst snd].
    repeat split; try assumption; try reflexivity;
      cbn; unfold static_after_checkArgs; rewrite Ha; reflexivity.
  - rewrite Ei, (instance_checkArgs_src i tr cfg Hq Hs).
    cbn [result_of state_of trace_of fst snd].
    repeat split; try assumption; try reflexivity;
      cbn; unfold instance_after_checkArgs; rewrite Ha; reflexivity.
  - exact static_checkReq_iff.
  - exact instance_checkReq_iff.
Qed.

(** The amended claim at [{src: "https://example.com/api"}]. *)
Lemma C1_send_without_args_witness :
  let cfg := VObj [("src", VStr "https://example.com/api")] in
  let rs := Static.send example_page cfg VUndefined VUndefined Static.initial [] in
  Static.params (state_of rs) = "" /\ result_of rs = Normal (VBool false)
  /\ trace_of rs = [].
Proof.
  pose proof (C1_send_without_args example_page
                (VObj [("src", VStr "https://example.com/api")])
                VUndefined VUndefined Static.initial Instance.initial []
                eq_refl eq_refl eq_refl) as H.
  destruct H as [(_ & _ & _ & H4 & _ & _ & H7 & H8) _].
  exact (conj H4 (conj H7 H8)).
Defined.

(* ===================================================================== *)
(** ** C2: the Content-type header *)
(* ===================================================================== *)

(** The fields and the trace after [send] on a valid configuration. *)
Lemma static_send_state env cfg cbf_ func s tr :
  is_object cfg = true -> truthy (prop cfg "src") = true ->
  let p := static_prepared env cfg cbf_ func s in
  Static.send env cfg cbf_ func s tr =
    if Static.checkReq p
    then (Normal (VBool true), Static.set_con (Some (static_request p)) p,
          (tr ++ [EvRequest (static_request p)])%list)
    else (Normal (VBool false), p, tr).
Proof.
  intros Hq Hs p. unfold p.
  rewrite (static_send_valid env cfg cbf_ func s tr Hq Hs).
  apply static_connect.
Qed.

(** [connect] only writes [con]: the other fields after [send] are the
    prepared ones. *)
Lemma static_send_fields env cfg cbf_ func s tr :
  is_object cfg = true -> truthy (prop cfg "src") = true ->
  forall rs p,
    rs = Static.send env cfg cbf_ func s tr ->
    p = static_prepared env cfg cbf_ func s ->
    Static.obj (state_of rs) = Static.obj p
    /\ Static.src (state_of rs) = Static.src p
    /\ Static.params (state_of rs) = Static.params p
    /\ Static.method (state_of rs) = Static.method p
    /\ Static.cbf (state_of rs) = Static.cbf p.
Proof.
  intros Hq Hs rs p -> Hp.
  rewrite (static_send_valid env cfg cbf_ func s tr Hq Hs), <- Hp.
  clear Hp. rewrite static_connect.
  destruct (Static.checkReq p); cbn [state_of fst snd];
    repeat split; reflexivity.
Qed.

Lemma instance_send_fields cfg cbf_ func i tr :
  is_object cfg = true -> truthy (prop cfg "src") = true ->
  prop cfg "args" <> VNull ->
  forall ri p,
    ri = Instance.send cfg cbf_ func i tr ->
    p = instance_prepared cfg cbf_ func i ->
    Instance.obj (state_of ri) = Instance.obj p
    /\ Instance.src (state_of ri) = Instance.src p
    /\ Instance.params (state_of ri) = Instance.params p
    /\ Instance.method (state_of ri) = Instance.method p
    /\ Instance.contentType (state_of ri) = Instance.contentType p
    /\ Instance.cbf (state_of ri) = Instance.cbf p.
Proof.
  intros Hq Hs Hn ri p -> Hp.
  rewrite (instance_send_valid cfg cbf_ func i tr Hq Hs Hn). cbv zeta.
  rewrite <- Hp. clear Hp.
  destruct (Instance.checkReq p); cbn [state_of fst snd];
    repeat split; reflexivity.
Qed.

(** Whatever the configuration says, a request of the static class
    carries the one header [Content-type] with the value of the declared
    field [content_type], which no method writes. *)
Lemma static_header_is_declared_field env cfg cbf_ func s tr :
  is_object cfg = true -> truthy (prop cfg "src") = true ->
  let rs := Static.send env cfg cbf_ func s tr in
  Static.content_type (state_of rs) = Static.content_type s
  /\ (trace_of rs = tr
      \/ exists x, trace_of rs = (tr ++ [EvRequest x])%list
                   /\ x_headers x = [("Content-type", Static.content_type s)]).
Proof.
  intros Hq Hs rs. unfold rs.
  rewrite (static_send_state env cfg cbf_ func s tr Hq Hs). cbv zeta.
  destruct (Static.checkReq _); cbn [state_of trace_of fst snd].
  - split; [reflexivity |]. right. eexists. split; reflexivity.
  - split; [reflexivity |]. left. reflexivity.
Qed.

(** The instance class resolves the header as C2 describes, for a
    non-empty string; an empty string counts as absent. *)
Lemma instance_header_resolved cfg cbf_ func i tr :
  is_object cfg = true -> truthy (prop cfg "src") = true ->
  prop cfg "args" <> VNull ->
  let ri := Instance.send cfg cbf_ func i tr in
  let ct := match prop cfg "content-type" with
            | VStr "" => "application/x-www-form-urlencoded"
            | VStr c => toUpperCase c
            | _ => "application/x-www-form-urlencoded"
            end in
  Instance.contentType (state_of ri) = ct
  /\ (trace_of ri = tr
      \/ exists x, trace_of ri = (tr ++ [EvRequest x])%list
                   /\ x_headers x = [("Content-type", ct)]).
Proof.
  intros Hq Hs Hn ri ct. unfold ri.
  rewrite (instance_send_valid cfg cbf_ func i tr Hq Hs Hn). cbv zeta.
  destruct (Instance.checkReq _); cbn [state_of trace_of fst snd].
  - split; [reflexivity |]. right. eexists. split; reflexivity.
  - split; [reflexivity |]. left. reflexivity.
Qed.

(** C2 (the code departs from the claim).  On the configuration
    [{src: "https://example.com/api", args: {a: "1"},
      "content-type": "application/json"}] the static class sends the
    header [Content-type: application/x-www-form-urlencoded], not
    [APPLICATION/JSON]: [setContentType] stores the resolved value in
    [Server.contentType] while [connect] reads [Server.content_type].  The
    instance class sends [APPLICATION/JSON] on the same input.  In both
    the header is the only one. *)
Theorem C2_static_header_ignores_config :
  let cfg := VObj [("src", VStr "https://example.com/api");
                   ("args", VObj [("a", VStr "1")]);
                   ("content-type", VStr "application/json")] in
  let rs := Static.send example_page cfg VUndefined VUndefined Static.initial [] in
  let ri := Instance.send cfg VUndefined VUndefined Instance.initial [] in
  requests (trace_of rs) =
    [ {| x_method := "POST"; x_url := "https://example.com/api";
         x_headers := [("Content-type", "application/x-www-form-urlencoded")];
         x_body := Some "a=1" |} ]
  /\ Static.contentType (state_of rs) = Some "APPLICATION/JSON"
  /\ Static.content_type (state_of rs) = "application/x-www-form-urlencoded"
  /\ requests (trace_of ri) =
       [ {| x_method := "POST"; x_url := "https://example.com/api";
            x_headers := [("Content-type", "APPLICATION/JSON")];
            x_body := Some "a=1" |} ].
Proof. cbv zeta. repeat split; reflexivity. Qed.

(* ===================================================================== *)
(** ** C3: the callback taken from the configuration *)
(* ===================================================================== *)





(* ===================================================================== *)
(** ** C6: defaults of a call after an earlier call *)
(* ===================================================================== *)

(** In the static class the method of a configuration without a usable
    [method] key is whatever the field held before the call. *)
Lemma static_method_sticks env cfg cbf_ func s tr :
  is_object cfg = true -> truthy (prop cfg "src") = true ->
  prop cfg "method" = VUndefined ->
  Static.method (state_of (Static.send env cfg cbf_ func s tr)) = Static.method s.
Proof.
  intros Hq Hs Hm.
  destruct (static_send_fields env cfg cbf_ func s tr Hq Hs _ _ eq_refl eq_refl)
    as (_ & _ & _ & E & _).
  rewrite E. cbn. rewrite Hm. reflexivity.
Qed.

(** The instance class resolves both defaults anew at every call that
    gets as far as [setMethod]. *)
Lemma instance_defaults_fresh cfg cbf_ func i tr :
  is_object cfg = true -> truthy (prop cfg "src") = true ->
  prop cfg "args" <> VNull ->
  let ri := Instance.send cfg cbf_ func i tr in
  (prop cfg "method" = VUndefined -> Instance.method (state_of ri) = "POST")
  /\ (prop cfg "content-type" = VUndefined ->
      Instance.contentType (state_of ri) = "application/x-www-form-urlencoded").
Proof.
  intros Hq Hs Hn ri. unfold ri.
  destruct (instance_send_fields cfg cbf_ func i tr Hq Hs Hn _ _ eq_refl eq_refl)
    as (_ & _ & _ & Em & Ec & _).
  split; intros H.
  - rewrite Em. cbn. rewrite H. reflexivity.
  - rewrite Ec. cbn. rewrite H. reflexivity.
Qed.

(** C6 (the code departs from the claim).  After
    [Server.send({src: "https://example.com/api", args: {a: "1"},
                  method: "get", "content-type": "text/csv"})],
    the call [Server.send({src: "https://example.com/api", args: {a: "1"}})],
    whose configuration has neither a [method] nor a [content-type] key,
    resolves the method ["GET"] and sends a GET request: the static field
    keeps the value of the earlier call, and so does the property
    [contentType] that [setContentType] writes (the header sent is the
    default one, as it always is in the static class).  The same two
    calls on one instance resolve ["POST"] and the default content type
    for the second. *)
Theorem C6_static_method_leaks :
  let first := VObj [("src", VStr "https://example.com/api");
                     ("args", VObj [("a", VStr "1")]);
                     ("method", VStr "get");
                     ("content-type", VStr "text/csv")] in
  let second := VObj [("src", VStr "https://example.com/api");
                      ("args", VObj [("a", VStr "1")])] in
  let s1 := Static.send example_page first VUndefined VUndefined Static.initial [] in
  let s2 := Static.send example_page second VUndefined VUndefined
              (state_of s1) (trace_of s1) in
  let i1 := Instance.send first VUndefined VUndefined Instance.initial [] in
  let i2 := Instance.send second VUndefined VUndefined (state_of i1) (trace_of i1) in
  prop second "method" = VUndefined
  /\ prop second "content-type" = VUndefined
  /\ Static.method (state_of s2) = "GET"
  /\ map x_method (requests (trace_of s2)) = ["GET"; "GET"]
  /\ Static.contentType (state_of s2) = Some "TEXT/CSV"
  /\ Static.content_type (state_of s2) = "application/x-www-form-urlencoded"
  /\ Instance.method (state_of i2) = "POST"
  /\ map x_method (requests (trace_of i2)) = ["GET"; "POST"]
  /\ Instance.contentType (state_of i1) = "TEXT/CSV"
  /\ Instance.contentType (state_of i2) = "application/x-www-form-urlencoded".
Proof. cbv zeta. repeat split; reflexivity. Qed.

(* ===================================================================== *)
(** ** C8 and C10: the encoded parameter string *)
(* ===================================================================== *)

Lemma append_assoc (a b c : string) : (a ++ b) ++ c = a ++ (b ++ c).
Proof. induction a as [| x a IH]; simpl; [reflexivity | rewrite IH; reflexivity]. Qed.

Lemma append_nil_r (a : string) : a ++ "" = a.
Proof. induction a as [| x a IH]; simpl; [reflexivity | rewrite IH; reflexivity]. Qed.

(** What the loops append for one entry. *)
Lemma static_pair item v :
  to_string (Static.url_encode (VStr item)) ++ "=" ++ to_string (Static.url_encode v)
  = encode_pair (item, v).
Proof. unfold encode_pair. destruct v; reflexivity. Qed.

Lemma instance_pair item v :
  to_string (Instance.urlEncode (VStr item)) ++ "=" ++ to_string (Instance.urlEncode v)
  = encode_pair (item, v).
Proof. unfold encode_pair. destruct v; reflexivity. Qed.

Lemma concat_cons_separated e es :
  String.concat "&" (map encode_pair (e :: es)) = encode_pair e ++ separated es.
Proof.
  revert e. induction es as [| e' es IH]; intros e.
  - simpl. rewrite append_nil_r. reflexivity.
  - change (String.concat "&" (map encode_pair (e :: e' :: es)))
      with (encode_pair e ++ "&" ++ String.concat "&" (map encode_pair (e' :: es))).
    rewrite IH. reflexivity.
Qed.

Lemma static_params_loop_rest es tmp :
  Static.params_loop es tmp 1 = tmp ++ separated es.
Proof.
  revert tmp. induction es as [| [item v] es IH]; intros tmp.
  - simpl. rewrite append_nil_r. reflexivity.
  - change (Static.params_loop ((item, v) :: es) tmp 1)
      with (Static.params_loop es
              (tmp ++ ("&" ++ to_string (Static.url_encode (VStr item)) ++ "="
                       ++ to_string (Static.url_encode v))) 1).
    rewrite IH, static_pair, append_assoc.
    change (separated ((item, v) :: es))
      with ("&" ++ encode_pair (item, v) ++ separated es).
    f_equal.
Qed.

Lemma static_params_loop_concat es :
  Static.params_loop es "" 0 = String.concat "&" (map encode_pair es).
Proof.
  destruct es as [| [item v] es]; [reflexivity |].
  rewrite concat_cons_separated.
  change (Static.params_loop ((item, v) :: es) "" 0)
    with (Static.params_loop es
            ("" ++ (to_string (Static.url_encode (VStr item)) ++ "="
                    ++ to_string (Static.url_encode v))) 1).
  rewrite static_params_loop_rest, static_pair. reflexivity.
Qed.

Lemma instance_params_loop_rest es tmp i :
  (0 < i)%Z -> Instance.params_loop es tmp i = tmp ++ separated es.
Proof.
  revert tmp i. induction es as [| [item v] es IH]; intros tmp i Hi.
  - simpl. rewrite append_nil_r. reflexivity.
  - cbn [Instance.params_loop].
    destruct (Z.eqb_spec i 0) as [E | _]; [lia |].
    rewrite IH by lia. rewrite instance_pair, append_assoc.
    change (separated ((item, v) :: es))
      with ("&" ++ encode_pair (item, v) ++ separated es).
    f_equal.
Qed.

Lemma instance_params_loop_concat es :
  Instance.params_loop es "" 0 = String.concat "&" (map encode_pair es).
Proof.
  destruct es as [| [item v] es]; [reflexivity |].
  rewrite concat_cons_separated.
  cbn [Instance.params_loop]. change (0 =? 0)%Z with true. cbv iota.
  rewrite instance_params_loop_rest by lia. rewrite instance_pair. reflexivity.
Qed.

(** C8, as stated, fails: a value that is not a string is not always
    passed through.  [url_encode] declares its parameter with the default
    [false], so an entry whose value is [undefined] is encoded as
    ["false"]: [{a: undefined}] gives ["a=false"], where the value passed
    through would give ["a=undefined"]. *)
Lemma C8_counterexample :
  let args := VObj [("a", VUndefined)] in
  let cfg := VObj [("src", VStr "https://example.com/api"); ("args", args)] in
  let encoded :=
    Static.params (state_of (Static.send example_page cfg VUndefined VUndefined
                               Static.initial [])) in
  is_object args = true
  /\ String.concat "&" (map claimed_pair (entries args)) = "a=undefined"
  /\ Static.url_encode VUndefined = VBool false
  /\ encoded = "a=false"
  /\ encoded <> String.concat "&" (map claimed_pair (entries args)).
Proof. cbv zeta. repeat split; try reflexivity. discriminate. Qed.

(** C8, amended.  For every configuration object with a truthy [src]:
    when [args] is a mapping whose values are [printable], the encoded
    parameter string of [send] is the ["&"]-joined sequence, in the order
    of [Object.entries], of the pairs [key=value] with the key and a
    string value passed through [encodeURI], an [undefined] value
    rendered ["false"] and any other value rendered unencoded by its
    conversion to a string; for [args = {a: "1", b: "x y"}] it is
    ["a=1&b=x%20y"]; and when [args] is absent or not a mapping it is the
    empty string. *)
Theorem C8_encoded_params :
  forall (env : browser) (cfg cbf_ func : value) (s : Static.state) (tr : list event),
    is_object cfg = true ->
    truthy (prop cfg "src") = true ->
    let args := prop cfg "args" in
    let encoded := Static.params (state_of (Static.send env cfg cbf_ func s tr)) in
    (is_object args = true -> printable_entries args = true ->
       encoded = String.concat "&" (map encode_pair (entries args))
       /\ result_of (Static.getParams (Static.set_obj cfg s) tr) = Normal encoded)
    /\ (args = VObj [("a", VStr "1"); ("b", VStr "x y")] -> encoded = "a=1&b=x%20y")
    /\ (is_object args = false -> encoded = "").
Proof.
  intros env cfg cbf_ func s tr Hq Hs args encoded.
  assert (E : encoded = if is_object args
                        then Static.params_loop (entries args) "" 0 else "").
  { unfold encoded.
    destruct (static_send_fields env cfg cbf_ func s tr Hq Hs _ _ eq_refl eq_refl)
      as (_ & _ & E & _).
    rewrite E. reflexivity. }
  split; [| split].
  - intros Ha _. rewrite Ha in E. rewrite static_params_loop_concat in E.
    split; [exact E |].
    rewrite (static_getParams (Static.set_obj cfg s) tr Hq).
    cbn [result_of fst Static.obj Static.set_obj]. fold args. rewrite Ha.
    rewrite static_params_loop_concat, E. reflexivity.
  - intros Ha. rewrite E, Ha. reflexivity.
  - intros Ha. rewrite E, Ha. reflexivity.
Qed.

(** The claim at [{src: "https://example.com/api", args: {a: "1", b: "x y"}}]
    and at the values [7], [undefined], [null], [true] and [[1, "x"]]. *)
Lemma C8_encoded_params_witness :
  Static.params
    (state_of (Static.send example_page
                 (VObj [("src", VStr "https://example.com/api");
                        ("args", VObj [("a", VStr "1"); ("b", VStr "x y")])])
                 VUndefined VUndefined Static.initial []))
  = "a=1&b=x%20y"
  /\ Static.params
       (state_of (Static.send example_page
                    (VObj [("src", VStr "https://example.com/api");
                           ("args", VObj [("n", VNum 7); ("u", VUndefined);
                                          ("z", VNull); ("t", VBool true);
                                          ("l", VArr [VNum 1; VStr "x"])])])
                    VUndefined VUndefined Static.initial []))
     = "n=7&u=false&z=null&t=true&l=1,x".
Proof.
  split.
  - exact (proj1 (proj2 (C8_encoded_params example_page
                           (VObj [("src", VStr "https://example.com/api");
                                  ("args", VObj [("a", VStr "1"); ("b", VStr "x y")])])
                           VUndefined VUndefined Static.initial [] eq_refl eq_refl))
                 eq_refl).
  - exact (proj1 (proj1 (C8_encoded_params example_page
                           (VObj [("src", VStr "https://example.com/api");
                                  ("args", VObj [("n", VNum 7); ("u", VUndefined);
                                                 ("z", VNull); ("t", VBool true);
                                                 ("l", VArr [VNum 1; VStr "x"])])])
                           VUndefined VUndefined Static.initial [] eq_refl eq_refl)
                    eq_refl eq_refl)).
Defined.

(** The instance class encodes a mapping the same way. *)
Lemma instance_encoded_params cfg cbf_ func i tr :
  is_object cfg = true -> truthy (prop cfg "src") = true ->
  is_object (prop cfg "args") = true ->
  Instance.params (state_of (Instance.send cfg cbf_ func i tr))
  = String.concat "&" (map encode_pair (entries (prop cfg "args"))).
Proof.
  intros Hq Hs Ha.
  assert (Hn : prop cfg "args" <> VNull) by (intros E; rewrite E in Ha; discriminate).
  destruct (instance_send_fields cfg cbf_ func i tr Hq Hs Hn _ _ eq_refl eq_refl)
    as (_ & _ & E & _).
  rewrite E. cbn. rewrite Ha. apply instance_params_loop_concat.
Qed.

(** C10.  The encoding is not injective: [encodeURI] leaves ["&"] and
    ["="] alone, so the distinct mappings [{a: "b&c=d"}] and
    [{a: "b", c: "d"}] are both encoded as ["a=b&c=d"], by [getParams] of
    either class and in the body of the request [send] issues. *)
Theorem C10_encoding_not_injective :
  encodeURI "b&c=d" = "b&c=d"
  /\ exists args1 args2 : value,
       args1 <> args2
       /\ is_object args1 = true /\ is_object args2 = true
       /\ (forall (s : Static.state) (i : Instance.state) (tr : list event) (src_ : value),
             result_of (Static.getParams
                          (Static.set_obj (VObj [("src", src_); ("args", args1)]) s) tr)
             = Normal "a=b&c=d"
             /\ result_of (Static.getParams
                             (Static.set_obj (VObj [("src", src_); ("args", args2)]) s) tr)
                = Normal "a=b&c=d"
             /\ result_of (Instance.getParams
                             (Instance.set_obj (VObj [("src", src_); ("args", args1)]) i) tr)
                = Normal "a=b&c=d"
             /\ result_of (Instance.getParams
                             (Instance.set_obj (VObj [("src", src_); ("args", args2)]) i) tr)
                = Normal "a=b&c=d")
       /\ map x_body
            (requests (trace_of (Static.send example_page
               (VObj [("src", VStr "https://example.com/api"); ("args", args1)])
               VUndefined VUndefined Static.initial [])))
          = map x_body
              (requests (trace_of (Static.send example_page
                 (VObj [("src", VStr "https://example.com/api"); ("args", args2)])
                 VUndefined VUndefined Static.initial []))).
Proof.
  split; [reflexivity |].
  exists (VObj [("a", VStr "b&c=d")]), (VObj [("a", VStr "b"); ("c", VStr "d")]).
  split; [discriminate |].
  split; [reflexivity |]. split; [reflexivity |].
  split; [| reflexivity].
  intros s i tr src_. repeat split; reflexivity.
Qed.

(* ===================================================================== *)
(** ** C9: the reachability probe *)
(* ===================================================================== *)

Lemma settle_resolved b evs : Reach.settle (Reach.Resolved b) evs = Reach.Resolved b.
Proof.
  unfold Reach.settle. induction evs as [| e evs IH]; [reflexivity |].
  simpl. destruct e as [ready st | |]; simpl; try exact IH.
  destruct (Z.eqb ready 4); exact IH.
Qed.

Lemma settle_quiet evs :
  forallb (fun e => negb (Reach.settling e)) evs = true ->
  Reach.settle Reach.Pending evs = Reach.Pending.
Proof.
  unfold Reach.settle. induction evs as [| e evs IH]; [reflexivity |].
  simpl. intros H. apply andb_prop in H. destruct H as [He Hr].
  destruct e as [ready st | |]; simpl in He; try discriminate.
  simpl. destruct (Z.eqb ready 4); [discriminate |]. apply IH, Hr.
Qed.

Lemma settle_app p evs1 evs2 :
  Reach.settle p (evs1 ++ evs2) = Reach.settle (Reach.settle p evs1) evs2.
Proof. unfold Reach.settle. apply fold_left_app. Qed.

Lemma settle_rejected evs : Reach.settle Reach.Rejected evs = Reach.Rejected.
Proof.
  unfold Reach.settle. induction evs as [| e evs IH]; [reflexivity |].
  simpl. destruct e as [ready st | |]; simpl; try exact IH.
  destruct (Z.eqb ready 4); exact IH.
Qed.

(** C9.  Whatever the timeout: on a falsy [url] (empty string,
    [undefined], [null], [0], [false]) [canReach] resolves [false] at once
    and issues no request.  On any other [url] (with [url] and [timeout]
    [printable], so that their conversions raise nothing): when the
    browser's parser accepts the url, [canReach] issues one HEAD request
    and stays pending, and the browser's events settle it by the first
    one a handler reacts to: [true] exactly when that is the completion
    ([readyState] 4) with a status in [200, 300), [false] when it is an
    error, a timeout, or a completion with any other status (500
    included); later events change nothing, and without such an event the
    promise stays pending.  When the parser refuses the url, [open]
    raises, the promise is rejected with nothing issued, and it never
    resolves. *)
Theorem C9_canReach :
  forall (url_parses : string -> bool) (url timeout : value),
    let probe := Reach.canReach url_parses url timeout in
    (truthy url = false ->
       probe = {| Reach.result := Reach.Resolved false; Reach.issued := [] |})
    /\
    (truthy url = true -> printable url = true -> printable timeout = true ->
       (url_parses (to_string url) = true ->
          Reach.result probe = Reach.Pending
          /\ map Reach.pr_method (Reach.issued probe) = ["HEAD"]
          /\ map Reach.pr_url (Reach.issued probe) = [to_string url]
          /\ (forall before e after,
                forallb (fun e => negb (Reach.settling e)) before = true ->
                Reach.settling e = true ->
                let final := Reach.settle (Reach.result probe) (before ++ e :: after) in
                (forall st, Reach.completed_with e st ->
                            final = Reach.Resolved (Z.leb 200 st && Z.ltb st 300)%bool)
                /\ (e = Reach.NetworkError -> final = Reach.Resolved false)
                /\ (e = Reach.TimedOut -> final = Reach.Resolved false)
                /\ (final = Reach.Resolved true <->
                    exists st, Reach.completed_with e st /\ (200 <= st < 300)%Z))
          /\ Reach.settle (Reach.result probe) [Reach.ReadyStateChange 4 500]
             = Reach.Resolved false
          /\ (forall evs,
                forallb (fun e => negb (Reach.settling e)) evs = true ->
                Reach.settle (Reach.result probe) evs = Reach.Pending))
       /\ (url_parses (to_string url) = false ->
           Reach.result probe = Reach.Rejected
           /\ Reach.issued probe = []
           /\ forall evs, Reach.settle (Reach.result probe) evs = Reach.Rejected)).
Proof.
  intros url_parses url timeout probe. split; [intros Hu | intros Hu _ _; split; intros Hp].
  - unfold probe, Reach.canReach. rewrite Hu. reflexivity.
  - assert (E : probe =
                {| Reach.result := Reach.Pending;
                   Reach.issued :=
                     [ {| Reach.pr_method := "HEAD"; Reach.pr_url := to_string url;
                          Reach.pr_timeout :=
                            match timeout with VUndefined => VNum 100 | _ => timeout end |} ] |}).
    { unfold probe, Reach.canReach. rewrite Hu, Hp. reflexivity. }
    rewrite E. cbn [Reach.result Reach.issued map Reach.pr_method Reach.pr_url].
    split; [reflexivity |]. split; [reflexivity |]. split; [reflexivity |].
    split; [| split; [reflexivity | exact settle_quiet]].
    intros before e after Hb He.
    set (final := Reach.settle Reach.Pending (before ++ e :: after)).
    assert (F : final = Reach.handle Reach.Pending e).
    { unfold final. rewrite settle_app, (settle_quiet before Hb).
      change (Reach.settle Reach.Pending (e :: after))
        with (Reach.settle (Reach.handle Reach.Pending e) after).
      destruct e as [ready st | |]; simpl in He |- *.
      - rewrite He. simpl. apply settle_resolved.
      - apply settle_resolved.
      - apply settle_resolved. }
    split; [| split; [| split]].
    + intros st H. unfold Reach.completed_with in H. subst e.
      rewrite F. reflexivity.
    + intros ->. rewrite F. reflexivity.
    + intros ->. rewrite F. reflexivity.
    + rewrite F. destruct e as [ready st | |]; simpl in He |- *.
      * rewrite He. simpl. apply Z.eqb_eq in He. subst ready. split.
        -- intros H. injection H as H. exists st. split; [reflexivity |].
           apply andb_prop in H. destruct H as [H1 H2].
           apply Z.leb_le in H1. apply Z.ltb_lt in H2. lia.
        -- intros (st' & H & Hr). unfold Reach.completed_with in H.
           injection H as <-.
           f_equal. apply andb_true_intro. split.
           ++ apply Z.leb_le. lia.
           ++ apply Z.ltb_lt. lia.
      * split; [discriminate |].
        intros (st & H & _). unfold Reach.completed_with in H. discriminate H.
      * split; [discriminate |].
        intros (st & H & _). unfold Reach.completed_with in H. discriminate H.
  - assert (E : probe = {| Reach.result := Reach.Rejected; Reach.issued := [] |}).
    { unfold probe, Reach.canReach. rewrite Hu, Hp. reflexivity. }
    rewrite E. cbn [Reach.result Reach.issued].
    split; [reflexivity |]. split; [reflexivity | exact settle_rejected].
Qed.

(** The claim on [canReach("")], on a probe that completes with 204 after
    two intermediate state changes, and on the url ["http://"], which has
    no host.  The parser taken here is [url_accepted]. *)
Lemma C9_canReach_witness :
  Reach.canReach url_accepted (VStr "") VUndefined
  = {| Reach.result := Reach.Resolved false; Reach.issued := [] |}
  /\ Reach.settle
       (Reach.result (Reach.canReach url_accepted (VStr "https://example.com") (VNum 250)))
       ([Reach.ReadyStateChange 1 0; Reach.ReadyStateChange 2 204]
        ++ Reach.ReadyStateChange 4 204 :: [])
     = Reach.Resolved true
  /\ Reach.canReach url_accepted (VStr "http://") VUndefined
     = {| Reach.result := Reach.Rejected; Reach.issued := [] |}.
Proof.
  split; [| split].
  - exact (proj1 (C9_canReach url_accepted (VStr "") VUndefined) eq_refl).
  - pose proof (proj1 (proj2 (C9_canReach url_accepted (VStr "https://example.com")
                                (VNum 250)) eq_refl eq_refl eq_refl) eq_refl)
      as (_ & _ & _ & H & _).
    exact (proj1 (H [Reach.ReadyStateChange 1 0; Reach.ReadyStateChange 2 204]
                    (Reach.ReadyStateChange 4 204) [] eq_refl eq_refl)
             204%Z eq_refl).
  - pose proof (proj2 (proj2 (C9_canReach url_accepted (VStr "http://") VUndefined)
                         eq_refl eq_refl eq_refl) eq_refl) as (H1 & H2 & _).
    revert H1 H2.
    destruct (Reach.canReach url_accepted (VStr "http://") VUndefined) as [res iss].
    cbn [Reach.result Reach.issued]. intros -> ->. reflexivity.
Defined.

(* ===================================================================== *)
(** ** C4: delivery of the response *)
(* ===================================================================== *)

Lemma prefix_iff a b : String.prefix a b = true <-> exists rest, b = a ++ rest.
Proof.
  revert b. induction a as [| x a IH]; intros b.
  - split; [intros _; exists b; reflexivity | destruct b; reflexivity].
  - destruct b as [| y b]; simpl.
    + split; [discriminate | intros [rest H]; discriminate H].
    + destruct (Ascii.ascii_dec x y) as [-> | Hxy].
      * rewrite IH. split; intros [rest H]; exists rest.
        -- rewrite H. reflexivity.
        -- injection H as H. exact H.
      * split; [discriminate |]. intros [rest H]. injection H as H1 H2. congruence.
Qed.

Lemma occurs_nil needle : occurs needle "" <-> needle = "".
Proof.
  split.
  - intros (before & after & H). destruct before; [| discriminate H].
    destruct needle; [reflexivity | discriminate H].
  - intros ->. exists "", "". reflexivity.
Qed.

Lemma occurs_cons needle c hay :
  occurs needle (String c hay) <->
  String.prefix needle (String c hay) = true \/ occurs needle hay.
Proof.
  split.
  - intros (before & after & H). destruct before as [| b before].
    + left. apply prefix_iff. exists after. exact H.
    + right. injection H as _ H. exists before, after. exact H.
  - intros [H | (before & after & H)].
    + apply prefix_iff in H. destruct H as [rest H]. exists "", rest. exact H.
    + exists (String c before), after. rewrite H. reflexivity.
Qed.

Lemma indexOf_from_occurs i hay needle :
  (0 <= i)%Z -> indexOf_from i hay needle <> (-1)%Z <-> occurs needle hay.
Proof.
  revert i. induction hay as [| c hay IH]; intros i Hi.
  - simpl. rewrite occurs_nil. destruct needle; simpl.
    + split; [reflexivity | lia].
    + split; [congruence | discriminate].
  - cbn [indexOf_from]. rewrite occurs_cons.
    destruct (String.prefix needle (String c hay)).
    + split; [left; reflexivity | lia].
    + rewrite (IH (i + 1)%Z) by lia.
      split; [right; assumption | intros [H | H]; [discriminate | exact H]].
Qed.

Lemma indexOf_occurs hay needle :
  negb (Z.eqb (indexOf hay needle) (-1)) = true <-> occurs needle hay.
Proof.
  unfold indexOf. rewrite <- (indexOf_from_occurs 0 hay needle) by lia.
  rewrite negb_true_iff, Z.eqb_neq. reflexivity.
Qed.

(** The test of the handler is the condition of C4. *)
Lemma looks_structured_iff body :
  looks_structured body = true <-> brace_or_bracket body.
Proof.
  unfold looks_structured, brace_or_bracket.
  rewrite orb_true_iff, !andb_true_iff, !indexOf_occurs. reflexivity.
Qed.

Lemma success_test r :
  success r ->
  Z.eqb (readyState r) 4 = true
  /\ (Z.leb 200 (http_status r) && Z.ltb (http_status r) 300)%bool = true.
Proof.
  intros [H1 [H2 H3]]. split.
  - apply Z.eqb_eq. exact H1.
  - apply andb_true_intro. split; [apply Z.leb_le | apply Z.ltb_lt]; assumption.
Qed.

(** The static handler does what C4 says: on a completed response with a
    status in [200, 300) and a callback that resolves to a function, the
    function is called once, with the parsed body when the body holds a
    pair of braces or of brackets and parses, and with the raw text
    otherwise. *)
Theorem static_response_delivery :
  forall (env : browser) (s : Static.state) (tr : list event) (r : response) (f : string),
    success r ->
    truthy (Static.cbf s) = true ->
    callback_target env (Static.cbf s) = VFun f ->
    let body := responseText r in
    let run := Static.onreadystatechange env r s tr in
    (forall v, brace_or_bracket body -> JSON_parse env body = Some v ->
               run = (Normal tt, s, (tr ++ [EvCall (VFun f) v])%list))
    /\ (brace_or_bracket body -> JSON_parse env body = None ->
        run = (Normal tt, s, (tr ++ [EvCall (VFun f) (VStr body)])%list))
    /\ (~ brace_or_bracket body ->
        run = (Normal tt, s, (tr ++ [EvCall (VFun f) (VStr body)])%list)).
Proof.
  intros env s tr r f Hr Hc Ht body run.
  destruct (success_test r Hr) as [H4 H2].
  assert (E : forall payload,
             (if looks_structured body
              then match JSON_parse env body with
                   | Some v => v
                   | None => VStr body
                   end
              else VStr body) = payload ->
             run = (Normal tt, s, (tr ++ [EvCall (VFun f) payload])%list)).
  { intros payload Hp. unfold run, Static.onreadystatechange.
    rewrite H4, H2. change (negb true) with false. cbv iota.
    rewrite bind_gets, Hc. change (negb true) with false. cbv iota.
    fold body. rewrite Hp.
    unfold callback_target in Ht. cbv zeta in Ht.
    destruct (truthy (assoc (to_string (Static.cbf s)) (win_globals env))) eqn:Eg.
    - rewrite Ht. reflexivity.
    - rewrite Ht. reflexivity. }
  split; [| split].
  - intros v Hb Hv. apply E. apply looks_structured_iff in Hb.
    rewrite Hb, Hv. reflexivity.
  - intros Hb Hv. apply E. apply looks_structured_iff in Hb.
    rewrite Hb, Hv. reflexivity.
  - intros Hb. apply E.
    destruct (looks_structured body) eqn:El; [| reflexivity].
    exfalso. apply Hb, looks_structured_iff, El.
Qed.

(** The two bodies of C4 in the static class, with the callback given by
    the name of a global function. *)
Lemma static_response_delivery_witness :
  let s := Static.set_cbf (VStr "handler") Static.initial in
  let h := VFun "function handler(resp) { }" in
  Static.onreadystatechange example_page
    {| readyState := 4; http_status := 200; responseText := json_k1 |} s []
  = (Normal tt, s, [EvCall h (VObj [("k", VNum 1)])])
  /\ Static.onreadystatechange example_page
       {| readyState := 4; http_status := 200; responseText := "plain" |} s []
     = (Normal tt, s, [EvCall h (VStr "plain")]).
Proof.
  split.
  - refine (proj1 (static_response_delivery example_page
                     (Static.set_cbf (VStr "handler") Static.initial) []
                     {| readyState := 4; http_status := 200; responseText := json_k1 |}
                     "function handler(resp) { }" _ eq_refl eq_refl)
                  (VObj [("k", VNum 1)]) _ eq_refl).
    + split; [reflexivity | cbn; lia].
    + apply looks_structured_iff. reflexivity.
  - refine (proj2 (proj2 (static_response_delivery example_page
                     (Static.set_cbf (VStr "handler") Static.initial) []
                     {| readyState := 4; http_status := 200; responseText := "plain" |}
                     "function handler(resp) { }" _ eq_refl eq_refl)) _).
    + split; [reflexivity | cbn; lia].
    + intros H. apply looks_structured_iff in H. discriminate H.
Defined.

(** In the instance class a successful response with a callback set
    always ends in the ReferenceError of [processResponse]: nothing is
    called and nothing is logged. *)
Lemma instance_response_throws env (i : Instance.state) tr r :
  success r -> truthy (Instance.cbf i) = true ->
  Instance.handleReadyStateChange env r i tr = (Thrown ReferenceError, i, tr).
Proof.
  intros Hr Hc. destruct (success_test r Hr) as [H4 H2].
  unfold Instance.handleReadyStateChange, Instance.processResponse.
  rewrite H4, H2. change (negb true) with false. cbv iota.
  rewrite bind_gets, Hc. reflexivity.
Qed.

(** C4 (the code departs from the claim).  The usage of [main.js],
    [server.send({src: "https://example.com/api", args: {key: "value"}},
                 resp => console.log(resp))],
    followed by a response with status 200: the instance class raises a
    ReferenceError in [processResponse] and never calls the callback,
    for the body ["plain"] and for the body [{"k":1}] alike.  The static
    class, on the same call and responses, calls it with the text
    ["plain"] and with the structured value [{k: 1}]. *)
Theorem C4_instance_never_delivers :
  let cfg := VObj [("src", VStr "https://example.com/api");
                   ("args", VObj [("key", VStr "value")])] in
  let cb := VFun "resp => console.log(resp)" in
  let plain := {| readyState := 4; http_status := 200; responseText := "plain" |} in
  let json := {| readyState := 4; http_status := 200; responseText := json_k1 |} in
  let i0 := Instance.send cfg cb VUndefined Instance.initial [] in
  let s0 := Static.send example_page cfg cb VUndefined Static.initial [] in
  let after_i (r : response) :=
    Instance.handleReadyStateChange example_page r (state_of i0) (trace_of i0) in
  let after_s (r : response) :=
    Static.onreadystatechange example_page r (state_of s0) (trace_of s0) in
  Instance.cbf (state_of i0) = cb
  /\ length (requests (trace_of i0)) = 1%nat
  /\ result_of (after_i plain) = Thrown ReferenceError
  /\ calls (trace_of (after_i plain)) = []
  /\ result_of (after_i json) = Thrown ReferenceError
  /\ calls (trace_of (after_i json)) = []
  /\ calls (trace_of (after_s plain)) = [(cb, VStr "plain")]
  /\ calls (trace_of (after_s json)) = [(cb, VObj [("k", VNum 1)])].
Proof. cbv zeta. repeat split; reflexivity. Qed.

(* ===================================================================== *)
(** ** C7: resolution of a relative source *)
(* ===================================================================== *)

(** *** Characters *)

Lemma upper_lower_char c : upper_char (lower_char c) = upper_char c.
Proof. destruct c as [[|] [|] [|] [|] [|] [|] [|] [|]]; reflexivity. Qed.

Lemma lower_upper_char c : lower_char (upper_char c) = lower_char c.
Proof. destruct c as [[|] [|] [|] [|] [|] [|] [|] [|]]; reflexivity. Qed.

Lemma word_char_not_dot c : word_char c = true -> not_dot c = true.
Proof.
  destruct c as [[|] [|] [|] [|] [|] [|] [|] [|]];
    intros H; first [reflexivity | discriminate H].
Qed.

Lemma dot_test c : Regex.atom_test true (Regex.AChar ".") c = negb (not_dot c).
Proof. destruct c as [[|] [|] [|] [|] [|] [|] [|] [|]]; reflexivity. Qed.

Lemma slash_test c :
  Regex.atom_test true (Regex.ARanges [("/"%char, "/"%char)]) c = Ascii.eqb c "/".
Proof. destruct c as [[|] [|] [|] [|] [|] [|] [|] [|]]; reflexivity. Qed.

(** *** Strings *)

Lemma map_string_app f a b : map_string f (a ++ b) = map_string f a ++ map_string f b.
Proof. induction a as [| c a IH]; simpl; [reflexivity | rewrite IH; reflexivity]. Qed.

Lemma all_chars_app p a b :
  all_chars p (a ++ b) = (all_chars p a && all_chars p b)%bool.
Proof.
  induction a as [| c a IH]; simpl; [reflexivity |].
  rewrite IH. apply andb_assoc.
Qed.

Lemma strip_prefix_ci_some w s rest :
  strip_prefix_ci w s = Some rest ->
  exists x, s = x ++ rest /\ toUpperCase x = toUpperCase w.
Proof.
  revert s. induction w as [| a w IH]; intros s H.
  - injection H as <-. exists "". split; reflexivity.
  - destruct s as [| b s]; [discriminate H |]. simpl in H.
    destruct (Ascii.eqb_spec (upper_char a) (upper_char b)) as [E | E];
      [| discriminate H].
    destruct (IH s H) as (x & -> & Hx).
    exists (String b x). split; [reflexivity |].
    change (String (upper_char b) (toUpperCase x) = String (upper_char a) (toUpperCase w)).
    rewrite Hx, E. reflexivity.
Qed.

Lemma strip_prefix_ci_app w x rest :
  toUpperCase x = toUpperCase w -> strip_prefix_ci w (x ++ rest) = Some rest.
Proof.
  revert x. induction w as [| a w IH]; intros x H.
  - destruct x; [reflexivity | discriminate H].
  - destruct x as [| b x]; [discriminate H |].
    injection H as H1 H2. simpl. rewrite H1, Ascii.eqb_refl. apply IH, H2.
Qed.

Lemma strip_prefix_ci_all p w s rest :
  strip_prefix_ci w s = Some rest -> all_chars p s = true -> all_chars p rest = true.
Proof.
  intros H Hs. destruct (strip_prefix_ci_some w s rest H) as (x & -> & _).
  rewrite all_chars_app in Hs. apply andb_prop in Hs. apply Hs.
Qed.

(** *** The matcher on the two expressions of [dirname] *)

Lemma rmatch_lit w s k :
  Regex.rmatch true (Regex.lit w) s k =
    match strip_prefix_ci w s with
    | Some rest => k rest
    | None => None
    end.
Proof.
  revert s. induction w as [| a w IH]; intros s; [reflexivity |].
  destruct s as [| b s]; [reflexivity |].
  cbn [Regex.lit Regex.rmatch Regex.atom_test strip_prefix_ci].
  destruct (Ascii.eqb (upper_char a) (upper_char b)); [apply IH | reflexivity].
Qed.

Lemma extension_re_first_match s k :
  Regex.rmatch true Regex.extension_re s k = first_match listed_extensions s k.
Proof.
  unfold Regex.extension_re, listed_extensions.
  cbn [Regex.rmatch first_match]. rewrite !rmatch_lit.
  repeat match goal with
         | |- context [match ?x with Some _ => _ | None => _ end] =>
             lazymatch x with
             | strip_prefix_ci _ _ => destruct x
             end
         end;
    repeat match goal with
           | |- context [k ?t] => destruct (k t)
           end; reflexivity.
Qed.

Lemma first_match_some ws s k out :
  first_match ws s k = Some out ->
  exists w rest, In w ws /\ strip_prefix_ci w s = Some rest /\ k rest = Some out.
Proof.
  induction ws as [| w ws IH]; [discriminate |].
  cbn [first_match]. destruct (strip_prefix_ci w s) as [rest |] eqn:E.
  - destruct (k rest) as [o |] eqn:Ek.
    + intros H. injection H as <-. exists w, rest.
      split; [left; reflexivity | split; assumption].
    + intros H. destruct (IH H) as (w' & rest' & Hin & H1 & H2).
      exists w', rest'. split; [right; exact Hin | split; assumption].
  - intros H. destruct (IH H) as (w' & rest' & Hin & H1 & H2).
    exists w', rest'. split; [right; exact Hin | split; assumption].
Qed.

Lemma first_match_const ws s k out :
  (forall w rest, In w ws -> strip_prefix_ci w s = Some rest -> k rest = Some out) ->
  (exists w rest, In w ws /\ strip_prefix_ci w s = Some rest) ->
  first_match ws s k = Some out.
Proof.
  induction ws as [| w ws IH]; intros Hk (w0 & rest0 & Hin & H0).
  - destruct Hin.
  - cbn [first_match]. destruct (strip_prefix_ci w s) as [rest |] eqn:E.
    + rewrite (Hk w rest (or_introl eq_refl) E). reflexivity.
    + apply IH.
      * intros w' rest' Hin' H'. apply (Hk w' rest' (or_intror Hin') H').
      * destruct Hin as [<- | Hin]; [congruence |].
        exists w0, rest0. split; assumption.
Qed.

Lemma star_dot_all s :
  all_chars not_line_break s = true -> Regex.star true Regex.ADot s Some = Some "".
Proof.
  induction s as [| c s IH]; [reflexivity |].
  cbn [all_chars]. intros H. apply andb_prop in H. destruct H as [Hc Hs].
  cbn [Regex.star]. unfold not_line_break in Hc. rewrite Hc, (IH Hs). reflexivity.
Qed.

Lemma star_word_run run s k out :
  all_chars word_char run = true ->
  Regex.star true (Regex.ARanges [("A"%char, "z"%char); ("0"%char, "9"%char)]) s k = Some out ->
  Regex.star true (Regex.ARanges [("A"%char, "z"%char); ("0"%char, "9"%char)]) (run ++ s) k
  = Some out.
Proof.
  induction run as [| c run IH]; intros Hr Hs; [exact Hs |].
  cbn [all_chars] in Hr. apply andb_prop in Hr. destruct Hr as [Hc Hr].
  change (String c run ++ s) with (String c (run ++ s)).
  cbn [Regex.star]. unfold word_char in Hc. rewrite Hc, (IH Hr Hs). reflexivity.
Qed.

Lemma dot_and_extension_cons c s :
  dot_and_extension (String c s) =
    if not_dot c then None
    else first_match listed_extensions s (fun t => Regex.star true Regex.ADot t Some).
Proof.
  unfold dot_and_extension.
  cbn [Regex.rmatch]. rewrite dot_test.
  destruct (not_dot c); [reflexivity |].
  cbn [negb]. apply extension_re_first_match.
Qed.

(** No match of the file name starts in a text without dot that a slash
    follows. *)
Lemma star_word_blocked d t :
  all_chars not_dot d = true ->
  Regex.star true (Regex.ARanges [("A"%char, "z"%char); ("0"%char, "9"%char)])
    (d ++ String "/" t) dot_and_extension = None.
Proof.
  induction d as [| c d IH]; intros Hd.
  - cbn [append Regex.star]. change (Regex.atom_test true _ "/"%char) with false.
    cbv iota. reflexivity.
  - cbn [all_chars] in Hd. apply andb_prop in Hd. destruct Hd as [Hc Hd].
    change (String c d ++ String "/" t) with (String c (d ++ String "/" t)).
    cbn [Regex.star]. rewrite (IH Hd).
    rewrite dot_and_extension_cons, Hc.
    destruct (Regex.atom_test true _ c); reflexivity.
Qed.

Lemma name_and_extension_unfold s :
  Regex.rmatch true name_and_extension_re s Some =
    match s with
    | String c rest =>
        if word_char c
        then Regex.star true (Regex.ARanges [("A"%char, "z"%char); ("0"%char, "9"%char)])
               rest dot_and_extension
        else None
    | EmptyString => None
    end.
Proof. destruct s; reflexivity. Qed.

Lemma filename_re_unfold s :
  Regex.rmatch true Regex.filename_re s Some =
    match s with
    | String c rest =>
        if Ascii.eqb c "/"
        then match Regex.rmatch true name_and_extension_re rest Some with
             | Some out => Some out
             | None => Regex.rmatch true name_and_extension_re s Some
             end
        else Regex.rmatch true name_and_extension_re s Some
    | EmptyString => None
    end.
Proof.
  destruct s as [| c rest]; [reflexivity |].
  unfold Regex.filename_re. fold name_and_extension_re.
  change (Regex.rmatch true
            (Regex.RSeq (Regex.ROpt (Regex.RAtom (Regex.ARanges [("/"%char, "/"%char)])))
               name_and_extension_re) (String c rest) Some)
    with (match (if Regex.atom_test true (Regex.ARanges [("/"%char, "/"%char)]) c
                 then Regex.rmatch true name_and_extension_re rest Some
                 else None) with
          | Some out => Some out
          | None => Regex.rmatch true name_and_extension_re (String c rest) Some
          end).
  rewrite slash_test. destruct (Ascii.eqb c "/"); reflexivity.
Qed.

Lemma name_and_extension_blocked d t :
  all_chars not_dot d = true ->
  Regex.rmatch true name_and_extension_re (d ++ String "/" t) Some = None.
Proof.
  intros Hd. rewrite name_and_extension_unfold.
  destruct d as [| c d].
  - reflexivity.
  - change (String c d ++ String "/" t) with (String c (d ++ String "/" t)).
    cbn [all_chars] in Hd. apply andb_prop in Hd. destruct Hd as [_ Hd].
    rewrite (star_word_blocked d t Hd). destruct (word_char c); reflexivity.
Qed.

Lemma filename_re_blocked c d t :
  all_chars not_dot (String c d) = true ->
  Regex.rmatch true Regex.filename_re (String c d ++ String "/" t) Some = None.
Proof.
  intros Hd.
  change (String c d ++ String "/" t) with (String c (d ++ String "/" t)).
  rewrite filename_re_unfold.
  change (String c (d ++ String "/" t)) with (String c d ++ String "/" t).
  rewrite (name_and_extension_blocked (String c d) t Hd).
  cbn [all_chars] in Hd. apply andb_prop in Hd. destruct Hd as [_ Hd'].
  rewrite (name_and_extension_blocked d t Hd').
  destruct (Ascii.eqb c "/"); reflexivity.
Qed.

(** The file name matches where it starts, and the match runs to the end
    of a text without line break. *)
Lemma filename_re_matches name ext tail :
  name <> "" -> all_chars word_char name = true ->
  In (toLowerCase ext) listed_extensions ->
  all_chars not_line_break (ext ++ tail) = true ->
  Regex.rmatch true Regex.filename_re
    (String "/" (name ++ String "." (ext ++ tail))) Some = Some "".
Proof.
  intros Hne Hname Hext Htail.
  assert (Hd : dot_and_extension (String "." (ext ++ tail)) = Some "").
  { rewrite dot_and_extension_cons. change (not_dot ".") with false. cbv iota.
    apply first_match_const.
    - intros w rest _ Hw. apply star_dot_all.
      apply (strip_prefix_ci_all _ _ _ _ Hw Htail).
    - exists (toLowerCase ext), tail. split; [exact Hext |].
      apply strip_prefix_ci_app.
      unfold toUpperCase, toLowerCase. clear.
      induction ext as [| c ext IH]; [reflexivity |].
      simpl. rewrite upper_lower_char, IH. reflexivity. }
  rewrite filename_re_unfold. change (Ascii.eqb "/" "/") with true. cbv iota.
  rewrite name_and_extension_unfold.
  destruct name as [| n name]; [congruence |].
  cbn [all_chars] in Hname. apply andb_prop in Hname. destruct Hname as [Hn Hname].
  change (String n name ++ String "." (ext ++ tail))
    with (String n (name ++ String "." (ext ++ tail))).
  cbv iota. rewrite Hn.
  rewrite (star_word_run name (String "." (ext ++ tail)) dot_and_extension "" Hname).
  - reflexivity.
  - cbn [Regex.star]. change (Regex.atom_test true _ "."%char) with false.
    cbv iota. exact Hd.
Qed.

(** *** Leftmost match *)

Lemma exec_here r s rest :
  Regex.rmatch true r s Some = Some rest -> Regex.exec true r s = Some ("", rest).
Proof. intros H. destruct s; cbn [Regex.exec]; rewrite H; reflexivity. Qed.

Lemma exec_skip r c s :
  Regex.rmatch true r (String c s) Some = None ->
  Regex.exec true r (String c s) =
    match Regex.exec true r s with
    | Some (before, rest) => Some (String c before, rest)
    | None => None
    end.
Proof. intros H. cbn [Regex.exec]. rewrite H. reflexivity. Qed.

Lemma exec_after_blocked r d s rest :
  (forall d1 c d2, d = d1 ++ String c d2 ->
                   Regex.rmatch true r (String c d2 ++ s) Some = None) ->
  Regex.rmatch true r s Some = Some rest ->
  Regex.exec true r (d ++ s) = Some (d, rest).
Proof.
  induction d as [| c d IH]; intros Hb Hs.
  - apply exec_here, Hs.
  - change (String c d ++ s) with (String c (d ++ s)).
    rewrite exec_skip.
    + rewrite IH; [reflexivity | | exact Hs].
      intros d1 c' d2 E. apply (Hb (String c d1) c' d2). rewrite E. reflexivity.
    + apply (Hb "" c d). reflexivity.
Qed.

Lemma exec_some r s before rest :
  Regex.exec true r s = Some (before, rest) ->
  exists s', s = before ++ s' /\ Regex.rmatch true r s' Some = Some rest.
Proof.
  revert before. induction s as [| c s IH]; intros before H.
  - cbn [Regex.exec] in H.
    destruct (Regex.rmatch true r "" Some) as [out |] eqn:E; [| discriminate H].
    injection H as <- <-. exists "". split; [reflexivity | exact E].
  - cbn [Regex.exec] in H.
    destruct (Regex.rmatch true r (String c s) Some) as [out |] eqn:E.
    + injection H as <- <-. exists (String c s). split; [reflexivity | exact E].
    + destruct (Regex.exec true r s) as [[b o] |] eqn:Ex; [| discriminate H].
      injection H as <- <-.
      destruct (IH b eq_refl) as (s' & -> & Hs').
      exists s'. split; [reflexivity | exact Hs'].
Qed.

(** *** The parts of a path *)

Lemma split_no_sep seg : all_chars not_dot seg = true -> split "." seg = [seg].
Proof.
  induction seg as [| c seg IH]; [reflexivity |].
  cbn [all_chars]. intros H. apply andb_prop in H. destruct H as [Hc Hs].
  cbn [split]. unfold not_dot in Hc. apply negb_true_iff in Hc. rewrite Hc.
  rewrite (IH Hs). reflexivity.
Qed.

Lemma split_app_last pre seg :
  all_chars not_dot seg = true ->
  exists f front, split "." (pre ++ String "." seg) = (f :: front ++ [seg])%list.
Proof.
  intros Hs. induction pre as [| c pre (f & front & IH)].
  - exists "", []. cbn [append split]. change (Ascii.eqb "." ".") with true.
    cbv iota. rewrite (split_no_sep seg Hs). reflexivity.
  - change (String c pre ++ String "." seg) with (String c (pre ++ String "." seg)).
    cbn [split]. rewrite IH. destruct (Ascii.eqb c ".").
    + exists "", (f :: front). reflexivity.
    + exists (String c f), front. reflexivity.
Qed.

Lemma last_segment pre seg :
  all_chars not_dot seg = true ->
  last (split "." (pre ++ String "." seg)) "" = seg.
Proof.
  intros Hs. destruct (split_app_last pre seg Hs) as (f & front & ->).
  change (f :: front ++ [seg])%list with ((f :: front) ++ [seg])%list.
  apply last_last.
Qed.

Lemma occurs_middle a needle b : occurs needle (a ++ needle ++ b).
Proof. exists a, b. reflexivity. Qed.

Lemma upper_eq_lower x w :
  toUpperCase x = toUpperCase w -> toLowerCase x = toLowerCase w.
Proof.
  revert w. induction x as [| c x IH]; intros w H.
  - destruct w; [reflexivity | discriminate H].
  - destruct w as [| d w]; [discriminate H |].
    injection H as H1 H2.
    change (String (lower_char c) (toLowerCase x) = String (lower_char d) (toLowerCase w)).
    rewrite (IH w H2), <- (lower_upper_char c), H1, lower_upper_char. reflexivity.
Qed.

Lemma listed_lower w : In w listed_extensions -> toLowerCase w = w.
Proof.
  intros H. repeat (destruct H as [<- | H]; [reflexivity |]). destruct H.
Qed.

Lemma not_dot_lower c : not_dot (lower_char c) = not_dot c.
Proof. destruct c as [[|] [|] [|] [|] [|] [|] [|] [|]]; reflexivity. Qed.

Lemma not_line_break_lower c : not_line_break (lower_char c) = not_line_break c.
Proof. destruct c as [[|] [|] [|] [|] [|] [|] [|] [|]]; reflexivity. Qed.

Lemma all_chars_lower p s :
  (forall c, p (lower_char c) = p c) ->
  all_chars p (toLowerCase s) = all_chars p s.
Proof.
  intros Hp. induction s as [| c s IH]; [reflexivity |].
  change (toLowerCase (String c s)) with (String (lower_char c) (toLowerCase s)).
  cbn [all_chars]. rewrite Hp, IH. reflexivity.
Qed.

Lemma listed_plain ext :
  In (toLowerCase ext) listed_extensions ->
  all_chars not_dot ext = true /\ all_chars not_line_break ext = true.
Proof.
  intros H.
  rewrite <- (all_chars_lower not_dot ext not_dot_lower).
  rewrite <- (all_chars_lower not_line_break ext not_line_break_lower).
  repeat (destruct H as [<- | H]; [split; reflexivity |]). destruct H.
Qed.

(** *** [dirname] *)

Lemma dirname_string p :
  Static.dirname (VStr p) =
    VStr (if (negb (Z.eqb (indexOf p ".") (-1))
              && Regex.test true Regex.extension_re (last (split "." p) ""))%bool
          then Regex.replace true Regex.filename_re "/" p
          else p).
Proof.
  unfold Static.dirname. cbn [default_false].
  destruct (negb _ && _)%bool; reflexivity.
Qed.

(** A path without dot is kept. *)
Lemma dirname_no_dot p : ~ occurs "." p -> Static.dirname (VStr p) = VStr p.
Proof.
  intros H. rewrite dirname_string.
  destruct (negb (Z.eqb (indexOf p ".") (-1))) eqn:E; [| reflexivity].
  exfalso. apply H, indexOf_occurs, E.
Qed.

(** A path is kept when the text after its last dot holds none of the
    five names, in any case. *)
Lemma dirname_unlisted pre seg :
  all_chars not_dot seg = true ->
  (forall name, In name listed_extensions -> ~ occurs name (toLowerCase seg)) ->
  Static.dirname (VStr (pre ++ String "." seg)) = VStr (pre ++ String "." seg).
Proof.
  intros Hs Hn. rewrite dirname_string, (last_segment pre seg Hs).
  destruct (Regex.test true Regex.extension_re seg) eqn:E.
  - exfalso. unfold Regex.test in E.
    destruct (Regex.exec true Regex.extension_re seg) as [[before rest] |] eqn:Ex;
      [| discriminate E].
    destruct (exec_some _ _ _ _ Ex) as (s' & -> & Hm).
    rewrite extension_re_first_match in Hm.
    destruct (first_match_some _ _ _ _ Hm) as (w & rest' & Hin & Hw & _).
    destruct (strip_prefix_ci_some _ _ _ Hw) as (x & -> & Hx).
    apply (Hn w Hin).
    unfold toLowerCase. rewrite !map_string_app. fold (toLowerCase x).
    rewrite (upper_eq_lower x w Hx), (listed_lower w Hin).
    apply occurs_middle.
  - rewrite andb_false_r. reflexivity.
Qed.

(** A file name made of characters of [[A-z0-9]], with an extension that
    starts with one of the five names, is cut off a directory without
    dot; the slash stays. *)
Lemma dirname_strips dir name ext tail :
  all_chars not_dot dir = true ->
  name <> "" -> all_chars word_char name = true ->
  In (toLowerCase ext) listed_extensions ->
  all_chars not_dot tail = true -> all_chars not_line_break tail = true ->
  Static.dirname (VStr (dir ++ String "/" (name ++ String "." (ext ++ tail))))
  = VStr (dir ++ "/").
Proof.
  intros Hdir Hne Hname Hext Htd Htl.
  destruct (listed_plain ext Hext) as [Hed Hel].
  assert (Hseg : all_chars not_dot (ext ++ tail) = true).
  { rewrite all_chars_app, Hed, Htd. reflexivity. }
  assert (Hbrk : all_chars not_line_break (ext ++ tail) = true).
  { rewrite all_chars_app, Hel, Htl. reflexivity. }
  set (p := dir ++ String "/" (name ++ String "." (ext ++ tail))).
  assert (Ep : p = (dir ++ String "/" name) ++ String "." (ext ++ tail)).
  { unfold p. rewrite append_assoc. reflexivity. }
  rewrite dirname_string.
  assert (H1 : negb (Z.eqb (indexOf p ".") (-1)) = true).
  { apply indexOf_occurs. rewrite Ep. exists (dir ++ String "/" name), (ext ++ tail).
    reflexivity. }
  assert (H2 : Regex.test true Regex.extension_re (last (split "." p) "") = true).
  { rewrite Ep, (last_segment _ _ Hseg). unfold Regex.test.
    assert (Hm : exists out,
               Regex.rmatch true Regex.extension_re (ext ++ tail) Some = Some out).
    { rewrite extension_re_first_match.
      assert (Hw : strip_prefix_ci (toLowerCase ext) (ext ++ tail) = Some tail).
      { apply strip_prefix_ci_app. unfold toUpperCase, toLowerCase. clear.
        induction ext as [| c ext IH]; [reflexivity |].
        simpl. rewrite upper_lower_char, IH. reflexivity. }
      revert Hext Hw. generalize (toLowerCase ext) as w.
      generalize listed_extensions as ws.
      induction ws as [| w0 ws IH]; intros w Hin Hw; [destruct Hin |].
      cbn [first_match].
      destruct (strip_prefix_ci w0 (ext ++ tail)) as [r |] eqn:E0.
      - exists r. reflexivity.
      - destruct Hin as [-> | Hin]; [congruence |]. apply (IH w Hin Hw). }
    destruct Hm as [out Hm]. rewrite (exec_here _ _ _ Hm). reflexivity. }
  rewrite H1, H2. cbn [andb]. f_equal.
  unfold Regex.replace, p.
  rewrite (exec_after_blocked Regex.filename_re dir
             (String "/" (name ++ String "." (ext ++ tail))) "").
  - reflexivity.
  - intros d1 c d2 E.
    apply filename_re_blocked.
    rewrite E, all_chars_app in Hdir. apply andb_prop in Hdir. apply Hdir.
  - apply filename_re_matches; assumption.
Qed.

(** *** The claim *)

(** The source after [send], for a string [src] and the default override. *)
Lemma static_send_src env cfg cbf_ func s tr u :
  is_object cfg = true -> prop cfg "src" = VStr u -> u <> "" ->
  Static.url_auto_resolve s = VBool false ->
  Static.src (state_of (Static.send env cfg cbf_ func s tr)) =
    if Z.eqb (indexOf (toLowerCase u) "http") (-1)
    then VStr (resolved_against env u)
    else VStr u.
Proof.
  intros Hq Hu Hne Ha.
  assert (Hs : truthy (prop cfg "src") = true).
  { rewrite Hu. simpl. destruct u; [congruence | reflexivity]. }
  destruct (static_send_fields env cfg cbf_ func s tr Hq Hs _ _ eq_refl eq_refl)
    as (_ & E & _).
  rewrite E. unfold resolved_against.
  cbn -[Static.dirname to_string indexOf toLowerCase].
  rewrite Ha, Hu. cbn -[Static.dirname to_string indexOf toLowerCase].
  destruct (Z.eqb (indexOf (toLowerCase u) "http") (-1)); reflexivity.
Qed.

(** C7, as stated, fails: on the page [https://example.com/app/index.aspx]
    the last path segment has the extension [aspx], which is none of
    php, js, css, html, asp, so the directory component of the claim is
    the path as it is; [dirname] cuts the file name off all the same and
    ["data.json"] resolves to [https://example.com/app/data.json]. *)
Lemma C7_counterexample :
  let page := {| win_location :=
                   {| protocol := "https:"; host := "example.com";
                      hostname := "example.com"; pathname := "/app/index.aspx" |};
                 win_globals := []; JSON_parse := Json.parse |} in
  let cfg := VObj [("src", VStr "data.json"); ("args", VObj [("a", VStr "1")])] in
  let resolved :=
    Static.src (state_of (Static.send page cfg VUndefined VUndefined Static.initial [])) in
  indexOf (toLowerCase "data.json") "http" = (-1)%Z
  /\ spec_dirname "/app/index.aspx" = "/app/index.aspx"
  /\ Static.dirname (VStr "/app/index.aspx") = VStr "/app/"
  /\ resolved = VStr "https://example.com/app/data.json"
  /\ resolved <> VStr ("https:" ++ "//" ++ "example.com"
                       ++ spec_dirname "/app/index.aspx" ++ "data.json").
Proof. cbv zeta. repeat split; try reflexivity. discriminate. Qed.

(** C7, amended.  For every string [src] without the substring "http" in
    any case, sent with the override [url-auto-resolve] at its default
    [false] from a page whose path holds no raw U+2028 or U+2029 (the
    path of a page never does), the static class resolves the source to
    the page's scheme,
    ["//"], its host (the host name when the host is empty), the
    directory component [dirname] of its path, and [src].  [dirname]
    keeps a path that has no dot, or whose text after the last dot holds
    none of php, js, css, html, asp in any case; from a path
    [dir/name.ext...] with no dot in [dir], a non-empty [name] of
    characters of [[A-z0-9]], an [ext] that is one of the five in any
    case, and a rest without dot or line terminator (line feed, carriage
    return, U+2028, U+2029), it keeps [dir/].  With
    the page at [https://example.com/app/index.html], ["data.json"]
    resolves to [https://example.com/app/data.json]. *)
Theorem C7_relative_source :
  (forall (env : browser) (cfg cbf_ func : value) (s : Static.state)
          (tr : list event) (u : string),
      is_object cfg = true -> prop cfg "src" = VStr u -> u <> "" ->
      ~ occurs "http" (toLowerCase u) ->
      Static.url_auto_resolve s = VBool false ->
      has_line_separator (pathname (win_location env)) = false ->
      Static.src (state_of (Static.send env cfg cbf_ func s tr))
      = VStr (protocol (win_location env) ++ "//"
              ++ str_or (host (win_location env)) (hostname (win_location env))
              ++ to_string (Static.dirname (VStr (pathname (win_location env))))
              ++ u))
  /\ (forall path, ~ occurs "." path -> Static.dirname (VStr path) = VStr path)
  /\ (forall before seg,
        all_chars not_dot seg = true ->
        (forall name, In name listed_extensions -> ~ occurs name (toLowerCase seg)) ->
        Static.dirname (VStr (before ++ "." ++ seg)) = VStr (before ++ "." ++ seg))
  /\ (forall dir name ext rest,
        all_chars not_dot dir = true ->
        name <> "" -> all_chars word_char name = true ->
        In (toLowerCase ext) listed_extensions ->
        all_chars not_dot rest = true ->
        all_chars not_line_break rest = true -> has_line_separator rest = false ->
        Static.dirname (VStr (dir ++ "/" ++ name ++ "." ++ ext ++ rest))
        = VStr (dir ++ "/"))
  /\ Static.src (state_of (Static.send example_page
                             (VObj [("src", VStr "data.json")])
                             VUndefined VUndefined Static.initial []))
     = VStr "https://example.com/app/data.json".
Proof.
  split; [| split; [| split; [| split]]].
  - intros env cfg cbf_ func s tr u Hq Hu Hne Hh Ha _.
    rewrite (static_send_src env cfg cbf_ func s tr u Hq Hu Hne Ha).
    destruct (Z.eqb (indexOf (toLowerCase u) "http") (-1)) eqn:E; [reflexivity |].
    exfalso. apply Hh, indexOf_occurs. rewrite E. reflexivity.
  - exact dirname_no_dot.
  - exact dirname_unlisted.
  - intros dir name ext rest Hd Hn Hw He Hr Hl _.
    exact (dirname_strips dir name ext rest Hd Hn Hw He Hr Hl).
  - reflexivity.
Qed.

(** The amended claim on the page [https://example.com/app/index.html]
    and on the paths [/app/index.html], [/app/page.ASPX] and
    [/app/readme.txt]. *)
Lemma C7_relative_source_witness :
  Static.src (state_of (Static.send example_page
                          (VObj [("src", VStr "img/logo.png"); ("method", VStr "get")])
                          VUndefined VUndefined Static.initial []))
  = VStr "https://example.com/app/img/logo.png"
  /\ Static.dirname (VStr "/app/index.html") = VStr "/app/"
  /\ Static.dirname (VStr "/app/page.ASPX") = VStr "/app/"
  /\ Static.dirname (VStr "/app/readme.txt") = VStr "/app/readme.txt".
Proof.
  destruct C7_relative_source as (H1 & _ & H3 & H4 & _).
  split; [| split; [| split]].
  - refine (H1 example_page
              (VObj [("src", VStr "img/logo.png"); ("method", VStr "get")])
              VUndefined VUndefined Static.initial [] "img/logo.png"
              eq_refl eq_refl _ _ eq_refl eq_refl).
    + discriminate.
    + intros H. apply indexOf_occurs in H. discriminate H.
  - refine (H4 "/app" "index" "html" "" eq_refl _ eq_refl _ eq_refl eq_refl eq_refl).
    + discriminate.
    + right. right. right. left. reflexivity.
  - refine (H4 "/app" "page" "ASP" "X" eq_refl _ eq_refl _ eq_refl eq_refl eq_refl).
    + discriminate.
    + right. right. right. right. left. reflexivity.
  - refine (H3 "/app/readme" "txt" eq_refl _).
    intros name Hin H. apply indexOf_occurs in H.
    repeat (destruct Hin as [<- | Hin]; [discriminate H |]). destruct Hin.
Defined.

(* ===================================================================== *)
(** ** Further properties of the two classes *)
(* ===================================================================== *)

(** *** [send] on any argument *)

Lemma value_eq_null (v : value) : v = VNull \/ v <> VNull.
Proof. destruct v; first [left; reflexivity | right; discriminate]. Qed.

Lemma value_cases v :
  typeof (default_false v) <> "object" \/ v = VNull \/ is_object v = true.
Proof.
  destruct v; simpl;
    first [ left; discriminate
          | right; left; reflexivity
          | right; right; reflexivity ].
Qed.

Lemma static_send_no_src env cfg cbf_ func s tr :
  is_object cfg = true -> truthy (prop cfg "src") = false ->
  Static.send env cfg cbf_ func s tr =
    (Normal (VBool false),
     Static.set_diagnostic (VNum 1)
       (VStr "URL destination was not specified in arguments. Please specify a target URL server to send this data to.")
       FATAL s,
     (tr ++ [EvWarn "Missing params"])%list).
Proof.
  intros Hq Hs. unfold Static.send. rewrite (default_false_object cfg Hq).
  rewrite (bind_normal _ _ _ _ _ _ _ (static_checkArgs_no_src s tr cfg Hq Hs)).
  reflexivity.
Qed.

Lemma instance_send_no_src cfg cbf_ func i tr :
  is_object cfg = true -> truthy (prop cfg "src") = false ->
  Instance.send cfg cbf_ func i tr =
    (Normal VUndefined,
     Instance.set_diagnostic (VStr "URL destination not specified") FATAL (VNum 1) i,
     (tr ++ [EvWarn "Missing params"])%list).
Proof.
  intros Hq Hs. unfold Instance.send. rewrite (default_false_object cfg Hq).
  rewrite (bind_normal _ _ _ _ _ _ _ (instance_checkArgs_no_src i tr cfg Hq Hs)).
  reflexivity.
Qed.

Lemma instance_send_not_object cfg cbf_ func i tr :
  typeof (default_false cfg) <> "object" ->
  Instance.send cfg cbf_ func i tr
  = (Normal VUndefined, i, (tr ++ [EvWarn "Missing params"])%list).
Proof. intros H. destruct cfg; simpl in H; try reflexivity; congruence. Qed.

(** [send] with [args: null] in the instance class: [getParams] raises
    after [obj] and [src] were written. *)
Lemma instance_send_args_null cfg cbf_ func i tr :
  is_object cfg = true -> truthy (prop cfg "src") = true ->
  prop cfg "args" = VNull ->
  Instance.send cfg cbf_ func i tr =
    (Thrown TypeError,
     instance_after_getSrc (Instance.set_obj cfg (instance_after_checkArgs cfg i)),
     tr).
Proof.
  intros Hq Hs Hn. unfold Instance.send.
  rewrite (default_false_object cfg Hq).
  rewrite (bind_normal _ _ _ _ _ _ _ (instance_checkArgs_src i tr cfg Hq Hs)).
  set (s0 := instance_after_checkArgs cfg i).
  unfold Instance.prepareAndSend.
  match goal with
  | |- bind ?m ?k s0 tr = _ =>
      assert (Hm : m s0 tr =
        (Thrown TypeError, instance_after_getSrc (Instance.set_obj cfg s0), tr))
  end.
  { rewrite bind_modify.
    set (s1 := Instance.set_obj cfg s0).
    assert (H1 : is_object (Instance.obj s1) = true) by exact Hq.
    rewrite (bind_normal _ _ _ _ _ _ _ (instance_getSrc s1 tr H1)).
    rewrite bind_modify. fold (instance_after_getSrc s1).
    set (s2 := instance_after_getSrc s1).
    assert (H2 : is_object (Instance.obj s2) = true) by exact Hq.
    assert (Hn2 : prop (Instance.obj s2) "args" = VNull) by exact Hn.
    rewrite (bind_thrown _ _ _ _ _ _ _ (instance_getParams_null s2 tr H2 Hn2)).
    reflexivity. }
  unfold bind at 1. rewrite Hm. reflexivity.
Qed.

Lemma app_one_neq {A} (l : list A) (a : A) : l <> (l ++ [a])%list.
Proof.
  intros H. apply (f_equal (@length A)) in H.
  rewrite length_app in H. simpl in H. lia.
Qed.

Lemma calls_app tr1 tr2 : calls (tr1 ++ tr2) = (calls tr1 ++ calls tr2)%list.
Proof. unfold calls. apply flat_map_app. Qed.

Lemma calls_one_quiet tr e :
  is_call e = false -> calls (tr ++ [e]) = calls tr.
Proof.
  intros H. rewrite calls_app. destruct e; try discriminate H; apply app_nil_r.
Qed.

(** X1.  Whatever its arguments, one static [send] extends the trace by
    nothing, by the one warning ["Missing params"], or by one request;
    it returns [true] exactly when it issued the request; and it never
    calls a callback itself. *)
Theorem static_send_effects :
  forall (env : browser) (cfg cbf_ func : value) (s : Static.state) (tr : list event),
    let r := Static.send env cfg cbf_ func s tr in
    (trace_of r = tr
     \/ trace_of r = (tr ++ [EvWarn "Missing params"])%list
     \/ exists x, trace_of r = (tr ++ [EvRequest x])%list)
    /\ (result_of r = Normal (VBool true) <->
        exists x, trace_of r = (tr ++ [EvRequest x])%list)
    /\ calls (trace_of r) = calls tr.
Proof.
  intros env cfg cbf_ func s tr r.
  assert (Hw : forall st,
             r = (Normal (VBool false), st, (tr ++ [EvWarn "Missing params"])%list) ->
             (trace_of r = tr
              \/ trace_of r = (tr ++ [EvWarn "Missing params"])%list
              \/ exists x, trace_of r = (tr ++ [EvRequest x])%list)
             /\ (result_of r = Normal (VBool true) <->
                 exists x, trace_of r = (tr ++ [EvRequest x])%list)
             /\ calls (trace_of r) = calls tr).
  { intros st ->. cbn [trace_of result_of fst snd]. split; [| split].
    - right. left. reflexivity.
    - split; [discriminate |]. intros [x H]. apply app_inv_head in H. discriminate H.
    - apply calls_one_quiet. reflexivity. }
  assert (Hn : forall o st,
             o <> Normal (VBool true) -> r = (o, st, tr) ->
             (trace_of r = tr
              \/ trace_of r = (tr ++ [EvWarn "Missing params"])%list
              \/ exists x, trace_of r = (tr ++ [EvRequest x])%list)
             /\ (result_of r = Normal (VBool true) <->
                 exists x, trace_of r = (tr ++ [EvRequest x])%list)
             /\ calls (trace_of r) = calls tr).
  { intros o st Ho ->. cbn [trace_of result_of fst snd]. split; [| split].
    - left. reflexivity.
    - split; [intros H; congruence |]. intros [x H]. exfalso. exact (app_one_neq _ _ H).
    - reflexivity. }
  destruct (value_cases cfg) as [H | [-> | Hq]].
  - apply (Hw s). apply static_send_not_object, H.
  - apply (Hn (Thrown TypeError) s); [discriminate | reflexivity].
  - destruct (truthy (prop cfg "src")) eqn:Hs.
    + pose proof (static_send_state env cfg cbf_ func s tr Hq Hs) as E.
      cbv zeta in E. fold r in E.
      destruct (Static.checkReq _).
      * rewrite E. cbn [trace_of result_of fst snd]. split; [| split].
        -- right. right. eexists. reflexivity.
        -- split; [intros _; eexists; reflexivity | reflexivity].
        -- apply calls_one_quiet. reflexivity.
      * refine (Hn (Normal (VBool false)) _ _ E). discriminate.
    + apply (Hw _ (static_send_no_src env cfg cbf_ func s tr Hq Hs)).
Qed.

(** X2.  Whatever its arguments, one [send] of the instance class
    extends the trace by nothing, by the one warning ["Missing params"],
    or by one request, and calls no callback; it never returns a value;
    when it raises, it has issued nothing; and it raises a TypeError on
    the configuration [null], and on a configuration object with a truthy
    [src] whose [args] is [null]. *)
Theorem instance_send_effects :
  forall (cfg cbf_ func : value) (i : Instance.state) (tr : list event),
    let r := Instance.send cfg cbf_ func i tr in
    (trace_of r = tr
     \/ trace_of r = (tr ++ [EvWarn "Missing params"])%list
     \/ exists x, trace_of r = (tr ++ [EvRequest x])%list)
    /\ calls (trace_of r) = calls tr
    /\ (forall v, result_of r = Normal v -> v = VUndefined)
    /\ (forall e, result_of r = Thrown e -> trace_of r = tr)
    /\ (cfg = VNull
        \/ (is_object cfg = true /\ truthy (prop cfg "src") = true
            /\ prop cfg "args" = VNull) ->
        result_of r = Thrown TypeError).
Proof.
  intros cfg cbf_ func i tr r.
  assert (Returns : forall st tr',
             r = (Normal VUndefined, st, tr') ->
             (forall v, result_of r = Normal v -> v = VUndefined)
             /\ (forall e, result_of r = Thrown e -> trace_of r = tr)).
  { intros st tr' ->. cbn [result_of trace_of fst snd]. split.
    - intros v H. injection H as <-. reflexivity.
    - intros e H. discriminate H. }
  destruct (value_cases cfg) as [H | [-> | Hq]].
  - assert (E : r = (Normal VUndefined, i, (tr ++ [EvWarn "Missing params"])%list))
      by (apply instance_send_not_object, H).
    destruct (Returns _ _ E) as [R1 R2].
    split; [| split; [| split; [exact R1 | split; [exact R2 |]]]].
    + right. left. rewrite E. reflexivity.
    + rewrite E. apply calls_one_quiet. reflexivity.
    + intros [-> | (Hq & _)]; exfalso.
      * apply H. reflexivity.
      * apply H. destruct cfg; try discriminate Hq; reflexivity.
  - unfold r. rewrite instance_send_null. cbn [trace_of result_of fst snd].
    split; [left; reflexivity | split; [reflexivity |]].
    split; [intros v Hv; discriminate Hv |].
    split; [reflexivity | reflexivity].
  - destruct (truthy (prop cfg "src")) eqn:Hs.
    + destruct (value_eq_null (prop cfg "args")) as [Ha | Hn].
      * unfold r. rewrite (instance_send_args_null cfg cbf_ func i tr Hq Hs Ha).
        cbn [trace_of result_of fst snd].
        split; [left; reflexivity | split; [reflexivity |]].
        split; [intros v Hv; discriminate Hv |].
        split; [reflexivity | reflexivity].
      * pose proof (instance_send_valid cfg cbf_ func i tr Hq Hs Hn) as E.
        cbv zeta in E. fold r in E.
        destruct (Instance.checkReq _).
        -- destruct (Returns _ _ E) as [R1 R2].
           split; [| split; [| split; [exact R1 | split; [exact R2 |]]]].
           ++ right. right. rewrite E. eexists. reflexivity.
           ++ rewrite E. apply calls_one_quiet. reflexivity.
           ++ intros [-> | (_ & _ & Ha)]; [discriminate Hq | contradiction].
        -- destruct (Returns _ _ E) as [R1 R2].
           split; [| split; [| split; [exact R1 | split; [exact R2 |]]]].
           ++ left. rewrite E. reflexivity.
           ++ rewrite E. reflexivity.
           ++ intros [-> | (_ & _ & Ha)]; [discriminate Hq | contradiction].
    + assert (E : r = (Normal VUndefined,
                       Instance.set_diagnostic (VStr "URL destination not specified")
                         FATAL (VNum 1) i,
                       (tr ++ [EvWarn "Missing params"])%list))
        by (apply instance_send_no_src; assumption).
      destruct (Returns _ _ E) as [R1 R2].
      split; [| split; [| split; [exact R1 | split; [exact R2 |]]]].
      * right. left. rewrite E. reflexivity.
      * rewrite E. apply calls_one_quiet. reflexivity.
      * intros [-> | (_ & Hs' & _)]; [discriminate Hq | congruence].
Qed.

(** The two raising calls: [send(null)] and a configuration with
    [args: null]. *)
Lemma instance_send_effects_witness :
  result_of (Instance.send VNull VUndefined VUndefined Instance.initial [])
  = Thrown TypeError
  /\ result_of (Instance.send
                  (VObj [("src", VStr "https://example.com/api"); ("args", VNull)])
                  VUndefined VUndefined Instance.initial [])
     = Thrown TypeError.
Proof.
  split.
  - exact (proj2 (proj2 (proj2 (proj2
             (instance_send_effects VNull VUndefined VUndefined Instance.initial []))))
             (or_introl eq_refl)).
  - exact (proj2 (proj2 (proj2 (proj2
             (instance_send_effects
                (VObj [("src", VStr "https://example.com/api"); ("args", VNull)])
                VUndefined VUndefined Instance.initial []))))
             (or_intror (conj eq_refl (conj eq_refl eq_refl)))).
Defined.

(** *** When a request is dispatched *)

Lemma static_prepared_facts env cfg cbf_ func s p :
  p = static_prepared env cfg cbf_ func s ->
  Static.obj p = cfg
  /\ Static.params p =
       (if is_object (prop cfg "args")
        then Static.params_loop (entries (prop cfg "args")) "" 0 else "")
  /\ Static.content_type p = Static.content_type s
  /\ Static.method p =
       match prop cfg "method" with
       | VStr "" => Static.method s
       | VStr m => toUpperCase m
       | _ => Static.method s
       end.
Proof. intros ->. repeat split; reflexivity. Qed.

Lemma instance_prepared_facts cfg cbf_ func i p :
  p = instance_prepared cfg cbf_ func i ->
  Instance.obj p = cfg
  /\ Instance.params p =
       (if is_object (prop cfg "args")
        then Instance.params_loop (entries (prop cfg "args")) "" 0 else "")
  /\ Instance.contentType p =
       match prop cfg "content-type" with
       | VStr "" => "application/x-www-form-urlencoded"
       | VStr c => toUpperCase c
       | _ => "application/x-www-form-urlencoded"
       end
  /\ Instance.method p =
       match prop cfg "method" with
       | VStr "" => "POST"
       | VStr m => toUpperCase m
       | _ => "POST"
       end.
Proof. intros ->. repeat split; reflexivity. Qed.

Lemma resolved_method_nonempty (v : value) (old : string) :
  old <> "" ->
  match v with
  | VStr "" => old
  | VStr m => toUpperCase m
  | _ => old
  end <> "".
Proof.
  intros H. destruct v; try exact H. destruct s; [exact H | discriminate].
Qed.

Lemma concat_pairs_nonempty es :
  es <> [] -> String.concat "&" (map encode_pair es) <> "".
Proof.
  destruct es as [| [k v] es]; [congruence |]. intros _.
  rewrite concat_cons_separated. unfold encode_pair. cbn [fst snd].
  destruct (encodeURI k); discriminate.
Qed.

Lemma length_zero_iff (s : string) : Nat.eqb (String.length s) 0 = true <-> s = "".
Proof. destruct s; simpl; split; congruence. Qed.

Lemma static_checkReq_prepared (p : Static.state) :
  is_object (Static.obj p) = true -> Static.method p <> "" ->
  Static.checkReq p = negb (Nat.eqb (String.length (Static.params p)) 0).
Proof.
  intros Ho Hm. unfold Static.checkReq.
  destruct (Nat.eqb (String.length (Static.method p)) 0) eqn:E.
  - apply length_zero_iff in E. congruence.
  - destruct (Static.obj p); try discriminate Ho; simpl; rewrite orb_false_r; reflexivity.
Qed.

(** X3.  For a configuration object with a truthy [src], sent while the
    static method field is not empty, from a page whose path holds no raw
    U+2028 or U+2029: when [args] is a mapping with at
    least one entry and [printable] values, and the request to make is
    one the browser takes ([accepted]: a method token that is not
    forbidden, a url that parses, a header value), [send] returns [true]
    and issues exactly that request, with the resolved method, the source
    as its address, the single header [Content-type] holding the declared
    field, and the joined pairs as its body; when [args] is anything else
    (absent, [null], not an object, or a mapping without entries), it
    returns [false] and issues nothing. *)
Theorem static_send_dispatch :
  forall (env : browser) (cfg cbf_ func : value) (s : Static.state) (tr : list event),
    is_object cfg = true ->
    truthy (prop cfg "src") = true ->
    Static.method s <> "" ->
    has_line_separator (pathname (win_location env)) = false ->
    let args := prop cfg "args" in
    let r := Static.send env cfg cbf_ func s tr in
    let x := {| x_method := Static.method (state_of r);
                x_url := to_string (Static.src (state_of r));
                x_headers := [("Content-type", Static.content_type s)];
                x_body := Some (String.concat "&" (map encode_pair (entries args))) |} in
    (is_object args = true -> entries args <> [] ->
     printable_entries args = true -> accepted x = true ->
       result_of r = Normal (VBool true)
       /\ trace_of r = (tr ++ [EvRequest x])%list)
    /\ (is_object args = false \/ entries args = [] ->
        result_of r = Normal (VBool false) /\ trace_of r = tr).
Proof.
  intros env cfg cbf_ func s tr Hq Hs Hm _ args r x. subst x.
  assert (E : exists p,
             r = Static.connect p tr
             /\ Static.obj p = cfg
             /\ Static.params p =
                  (if is_object args
                   then Static.params_loop (entries args) "" 0 else "")
             /\ Static.content_type p = Static.content_type s
             /\ Static.method p <> "").
  { exists (static_prepared env cfg cbf_ func s).
    destruct (static_prepared_facts env cfg cbf_ func s _ eq_refl) as (Po & Pp & Pc & Pm).
    split; [apply static_send_valid; assumption |].
    split; [exact Po |]. split; [exact Pp |]. split; [exact Pc |].
    rewrite Pm. apply resolved_method_nonempty, Hm. }
  destruct E as (p & E & Po & Pp & Pc & Hmp).
  clearbody r.
  assert (Hop : is_object (Static.obj p) = true) by (rewrite Po; exact Hq).
  rewrite static_connect, (static_checkReq_prepared p Hop Hmp) in E.
  split.
  - intros Ha He _ _. rewrite Ha, static_params_loop_concat in Pp.
    assert (Hz : Nat.eqb (String.length (Static.params p)) 0 = false).
    { destruct (Nat.eqb _ 0) eqn:Z; [| reflexivity].
      apply length_zero_iff in Z. rewrite Pp in Z.
      exfalso. exact (concat_pairs_nonempty _ He Z). }
    rewrite Hz in E. cbn [negb] in E. rewrite E.
    cbn [result_of trace_of state_of fst snd Static.method Static.src Static.set_con].
    split; [reflexivity |].
    unfold static_request. rewrite Pp, Pc. reflexivity.
  - intros Ha.
    assert (Hz : Static.params p = "").
    { rewrite Pp. destruct Ha as [Ha | Ha].
      - rewrite Ha. reflexivity.
      - destruct (is_object args); [| reflexivity]. rewrite Ha. reflexivity. }
    rewrite Hz in E. cbn in E. rewrite E. split; reflexivity.
Qed.

(** The dispatch at [{src: "https://example.com/api", args: {a: "1"}}] and
    the refusal at the same configuration with [args: {}]. *)
Lemma static_send_dispatch_witness :
  trace_of (Static.send example_page
              (VObj [("src", VStr "https://example.com/api");
                     ("args", VObj [("a", VStr "1")])])
              VUndefined VUndefined Static.initial [])
  = [EvRequest {| x_method := "POST"; x_url := "https://example.com/api";
                  x_headers := [("Content-type", "application/x-www-form-urlencoded")];
                  x_body := Some "a=1" |}]
  /\ trace_of (Static.send example_page
                 (VObj [("src", VStr "https://example.com/api"); ("args", VObj [])])
                 VUndefined VUndefined Static.initial [])
     = [].
Proof.
  split.
  - refine (proj2 (proj1 (static_send_dispatch example_page
              (VObj [("src", VStr "https://example.com/api");
                     ("args", VObj [("a", VStr "1")])])
              VUndefined VUndefined Static.initial [] eq_refl eq_refl _ eq_refl)
              eq_refl _ eq_refl eq_refl)); discriminate.
  - refine (proj2 (proj2 (static_send_dispatch example_page
              (VObj [("src", VStr "https://example.com/api"); ("args", VObj [])])
              VUndefined VUndefined Static.initial [] eq_refl eq_refl _ eq_refl)
              (or_intror eq_refl))); discriminate.
Defined.

Lemma instance_checkReq_prepared (p : Instance.state) :
  is_object (Instance.obj p) = true -> Instance.method p <> "" ->
  Instance.checkReq p = negb (String.eqb (Instance.params p) "").
Proof.
  intros Ho Hm. unfold Instance.checkReq.
  destruct (String.eqb_spec (Instance.method p) "") as [E | _]; [congruence |].
  destruct (Instance.obj p); try discriminate Ho; simpl; rewrite andb_true_r; reflexivity.
Qed.

(** X4.  For a configuration object with a truthy [src] and an [args]
    other than [null], the instance [send] issues exactly one request
    when [args] is a mapping with at least one entry and [printable]
    values and the request is one the browser takes ([accepted]): its
    method is the upper-cased [method] of the configuration or ["POST"],
    its single header [Content-type] the upper-cased [content-type] or
    the default, its body the joined pairs; for any other [args] it
    issues nothing. *)
Theorem instance_send_dispatch :
  forall (cfg cbf_ func : value) (i : Instance.state) (tr : list event),
    is_object cfg = true ->
    truthy (prop cfg "src") = true ->
    prop cfg "args" <> VNull ->
    let args := prop cfg "args" in
    let r := Instance.send cfg cbf_ func i tr in
    let x := {| x_method := match prop cfg "method" with
                            | VStr "" => "POST"
                            | VStr m => toUpperCase m
                            | _ => "POST"
                            end;
                x_url := to_string (Instance.src (state_of r));
                x_headers :=
                  [("Content-type",
                    match prop cfg "content-type" with
                    | VStr "" => "application/x-www-form-urlencoded"
                    | VStr c => toUpperCase c
                    | _ => "application/x-www-form-urlencoded"
                    end)];
                x_body := Some (String.concat "&" (map encode_pair (entries args))) |} in
    (is_object args = true -> entries args <> [] ->
     printable_entries args = true -> accepted x = true ->
       trace_of r = (tr ++ [EvRequest x])%list)
    /\ (is_object args = false \/ entries args = [] -> trace_of r = tr).
Proof.
  intros cfg cbf_ func i tr Hq Hs Hn args r x. subst x.
  assert (E : exists p,
             r = (if Instance.checkReq p
                  then (Normal VUndefined,
                        Instance.set_con (Some (instance_request p)) p,
                        (tr ++ [EvRequest (instance_request p)])%list)
                  else (Normal VUndefined, p, tr))
             /\ Instance.obj p = cfg
             /\ Instance.params p =
                  (if is_object args
                   then Instance.params_loop (entries args) "" 0 else "")
             /\ Instance.contentType p =
                  match prop cfg "content-type" with
                  | VStr "" => "application/x-www-form-urlencoded"
                  | VStr c => toUpperCase c
                  | _ => "application/x-www-form-urlencoded"
                  end
             /\ Instance.method p =
                  match prop cfg "method" with
                  | VStr "" => "POST"
                  | VStr m => toUpperCase m
                  | _ => "POST"
                  end).
  { exists (instance_prepared cfg cbf_ func i).
    destruct (instance_prepared_facts cfg cbf_ func i _ eq_refl) as (Po & Pp & Pc & Pm).
    split; [apply instance_send_valid; assumption |].
    split; [exact Po |]. split; [exact Pp |]. split; [exact Pc | exact Pm]. }
  destruct E as (p & E & Po & Pp & Pc & Pm).
  clearbody r.
  assert (Hmp : Instance.method p <> "").
  { rewrite Pm. apply resolved_method_nonempty. discriminate. }
  assert (Hop : is_object (Instance.obj p) = true) by (rewrite Po; exact Hq).
  rewrite (instance_checkReq_prepared p Hop Hmp) in E.
  split.
  - intros Ha He _ _. rewrite Ha, instance_params_loop_concat in Pp.
    assert (Hz : String.eqb (Instance.params p) "" = false).
    { apply String.eqb_neq. rewrite Pp. apply concat_pairs_nonempty, He. }
    rewrite Hz in E. cbn [negb] in E. rewrite E.
    cbn [trace_of state_of fst snd Instance.src Instance.set_con].
    unfold instance_request. rewrite Pp, Pc, Pm. reflexivity.
  - intros Ha.
    assert (Hz : Instance.params p = "").
    { rewrite Pp. destruct Ha as [Ha | Ha].
      - rewrite Ha. reflexivity.
      - destruct (is_object args); [| reflexivity]. rewrite Ha. reflexivity. }
    rewrite Hz in E. cbn in E. rewrite E. reflexivity.
Qed.

(** The call of [main.js] and the same call with [args: {}]. *)
Lemma instance_send_dispatch_witness :
  trace_of (Instance.send
              (VObj [("src", VStr "https://example.com/api");
                     ("args", VObj [("key", VStr "value")])])
              (VFun "resp => console.log(resp)") VUndefined Instance.initial [])
  = [EvRequest {| x_method := "POST"; x_url := "https://example.com/api";
                  x_headers := [("Content-type", "application/x-www-form-urlencoded")];
                  x_body := Some "key=value" |}]
  /\ trace_of (Instance.send
                 (VObj [("src", VStr "https://example.com/api"); ("args", VObj [])])
                 VUndefined VUndefined Instance.initial [])
     = [].
Proof.
  split.
  - refine (proj1 (instance_send_dispatch
              (VObj [("src", VStr "https://example.com/api");
                     ("args", VObj [("key", VStr "value")])])
              (VFun "resp => console.log(resp)") VUndefined Instance.initial []
              eq_refl eq_refl _) eq_refl _ eq_refl eq_refl); discriminate.
  - refine (proj2 (instance_send_dispatch
              (VObj [("src", VStr "https://example.com/api"); ("args", VObj [])])
              VUndefined VUndefined Instance.initial [] eq_refl eq_refl _)
              (or_intror eq_refl)); discriminate.
Defined.

(** X5.  The two classes encode [printable] values alike: their loops,
    which count the iterations differently and convert the value the one
    by [+], the other in a template literal, build the same string from
    every list of entries with such values, and on every configuration
    object whose [args] is not [null] and has such values the two
    [getParams] return the same string. *)
Theorem getParams_agree :
  (forall es,
      forallb (fun kv => printable (snd kv)) es = true ->
      Static.params_loop es "" 0 = Instance.params_loop es "" 0)
  /\ (forall (cfg : value) (s : Static.state) (i : Instance.state) (tr : list event),
        is_object cfg = true ->
        prop cfg "args" <> VNull ->
        printable_entries (prop cfg "args") = true ->
        result_of (Static.getParams (Static.set_obj cfg s) tr)
        = result_of (Instance.getParams (Instance.set_obj cfg i) tr)).
Proof.
  split.
  - intros es _. rewrite static_params_loop_concat, instance_params_loop_concat.
    reflexivity.
  - intros cfg s i tr Hq Hn _.
    rewrite (static_getParams (Static.set_obj cfg s) tr Hq).
    rewrite (instance_getParams (Instance.set_obj cfg i) tr Hq Hn).
    cbn [result_of fst Static.obj Static.set_obj Instance.obj Instance.set_obj].
    cbv zeta. destruct (is_object (prop cfg "args")); [| reflexivity].
    rewrite static_params_loop_concat, instance_params_loop_concat. reflexivity.
Qed.

Lemma getParams_agree_witness :
  result_of (Static.getParams
               (Static.set_obj (VObj [("args", VArr [VStr "x y"; VNum 7; VBool true])])
                  Static.initial) [])
  = result_of (Instance.getParams
                 (Instance.set_obj (VObj [("args", VArr [VStr "x y"; VNum 7; VBool true])])
                    Instance.initial) []).
Proof.
  refine (proj2 getParams_agree
            (VObj [("args", VArr [VStr "x y"; VNum 7; VBool true])])
            Static.initial Instance.initial [] eq_refl _ eq_refl).
  discriminate.
Defined.

(** *** What a run of calls keeps *)

Lemma static_send_valid_facts env cfg cbf_ func s tr :
  is_object cfg = true -> truthy (prop cfg "src") = true ->
  exists p,
    Static.send env cfg cbf_ func s tr = Static.connect p tr
    /\ Static.obj p = cfg
    /\ Static.content_type p = Static.content_type s
    /\ Static.method p =
         match prop cfg "method" with
         | VStr "" => Static.method s
         | VStr m => toUpperCase m
         | _ => Static.method s
         end.
Proof.
  intros Hq Hs. exists (static_prepared env cfg cbf_ func s).
  destruct (static_prepared_facts env cfg cbf_ func s _ eq_refl) as (Po & Pp & Pc & Pm).
  split; [apply static_send_valid; assumption |].
  split; [exact Po |]. split; [exact Pc | exact Pm].
Qed.

Lemma static_send_step env cfg cbf_ func s tr :
  Static.method s <> "" ->
  exists s' new,
    snd (fst (Static.send env cfg cbf_ func s tr)) = s'
    /\ snd (Static.send env cfg cbf_ func s tr) = (tr ++ new)%list
    /\ Static.method s' <> ""
    /\ Static.content_type s' = Static.content_type s
    /\ (length (requests new) <= 1)%nat
    /\ Forall (sole_header (Static.content_type s)) (requests new)
    /\ calls new = [].
Proof.
  intros Hm.
  assert (Quiet : forall o st new,
             Static.send env cfg cbf_ func s tr = (o, st, (tr ++ new)%list) ->
             Static.method st = Static.method s ->
             Static.content_type st = Static.content_type s ->
             requests new = [] -> calls new = [] ->
             exists s' new,
               snd (fst (Static.send env cfg cbf_ func s tr)) = s'
               /\ snd (Static.send env cfg cbf_ func s tr) = (tr ++ new)%list
               /\ Static.method s' <> ""
               /\ Static.content_type s' = Static.content_type s
               /\ (length (requests new) <= 1)%nat
               /\ Forall (sole_header (Static.content_type s)) (requests new)
               /\ calls new = []).
  { intros o st new E Em Ec Er Ek. exists st, new. rewrite E. cbn [fst snd].
    rewrite Em, Er. repeat split; auto. }
  destruct (value_cases cfg) as [H | [-> | Hq]].
  - apply (Quiet _ s [EvWarn "Missing params"]
             (static_send_not_object env cfg cbf_ func s tr H)); reflexivity.
  - apply (Quiet (Thrown TypeError) s []); try reflexivity.
    rewrite app_nil_r. reflexivity.
  - destruct (truthy (prop cfg "src")) eqn:Hs.
    + destruct (static_send_valid_facts env cfg cbf_ func s tr Hq Hs)
        as (p & E & Po & Pc & Pm).
      rewrite E, static_connect. clear E.
      assert (Hmp : Static.method p <> "").
      { rewrite Pm. apply resolved_method_nonempty, Hm. }
      destruct (Static.checkReq p).
      * exists (Static.set_con (Some (static_request p)) p),
          [EvRequest (static_request p)].
        cbn [fst snd requests flat_map app length calls
             Static.method Static.content_type Static.set_con].
        repeat split; auto.
        constructor; [| constructor]. unfold sole_header, static_request.
        cbn [x_headers]. rewrite Pc. reflexivity.
      * exists p, []. cbn [fst snd requests flat_map length calls].
        rewrite app_nil_r. repeat split; auto.
    + apply (Quiet _ _ [EvWarn "Missing params"]
               (static_send_no_src env cfg cbf_ func s tr Hq Hs)); reflexivity.
Qed.

(** X6.  Over any run of calls to the static [send] that starts with a
    non-empty method field: the method field is never empty and the
    declared content type never changes; the run only adds to the trace,
    at most one request per call, each carrying the single header
    [Content-type] with the declared content type; and no callback is
    called by the run itself. *)
Theorem static_sends_invariant :
  forall (env : browser) (calls_ : list (value * value * value))
         (s : Static.state) (tr : list event),
    Static.method s <> "" ->
    exists new,
      snd (static_sends env calls_ s tr) = (tr ++ new)%list
      /\ Static.method (fst (static_sends env calls_ s tr)) <> ""
      /\ Static.content_type (fst (static_sends env calls_ s tr)) = Static.content_type s
      /\ (length (requests new) <= length calls_)%nat
      /\ Forall (sole_header (Static.content_type s)) (requests new)
      /\ calls new = [].
Proof.
  intros env calls_. induction calls_ as [| [[cfg cbf_] func] rest IH]; intros s tr Hm.
  - exists []. cbn [static_sends fst snd requests flat_map length calls].
    rewrite app_nil_r. repeat split; auto.
  - destruct (static_send_step env cfg cbf_ func s tr Hm)
      as (s' & new & Es & Et & Hm' & Hc & Hl & Hh & Hk).
    cbn [static_sends].
    destruct (Static.send env cfg cbf_ func s tr) as [[o st] tr'] eqn:E.
    cbn [fst snd] in Es, Et. subst st tr'.
    destruct o as [v | e].
    + destruct (IH s' (tr ++ new)%list Hm') as (more & Et' & Hm'' & Hc' & Hl' & Hh' & Hk').
      exists (new ++ more)%list. rewrite Et', Hc', Hc.
      rewrite requests_app, calls_app, Hk, Hk', length_app, <- app_assoc.
      repeat split; auto.
      * cbn [length]. lia.
      * apply Forall_app. split; [exact Hh |]. rewrite <- Hc. exact Hh'.
    + exists new. cbn [fst snd]. repeat split; auto. cbn [length]. lia.
Qed.

(** Three calls from the initial fields: a dispatched GET, a refused
    call, and a call without method that is dispatched as GET again. *)
Lemma static_sends_invariant_witness :
  let run :=
    static_sends example_page
      [ (VObj [("src", VStr "https://example.com/a");
               ("args", VObj [("a", VStr "1")]); ("method", VStr "get");
               ("content-type", VStr "text/csv")],
         VUndefined, VUndefined);
        (VObj [("args", VObj [("a", VStr "1")])], VUndefined, VUndefined);
        (VObj [("src", VStr "https://example.com/b");
               ("args", VObj [("b", VStr "2")])],
         VUndefined, VUndefined) ]
      Static.initial [] in
  Static.method (fst run) <> ""
  /\ Static.content_type (fst run) = "application/x-www-form-urlencoded"
  /\ map x_method (requests (snd run)) = ["GET"; "GET"]
  /\ map x_headers (requests (snd run)) = [default_header; default_header].
Proof.
  cbv zeta.
  destruct (static_sends_invariant example_page
              [ (VObj [("src", VStr "https://example.com/a");
                       ("args", VObj [("a", VStr "1")]); ("method", VStr "get");
                       ("content-type", VStr "text/csv")],
                 VUndefined, VUndefined);
                (VObj [("args", VObj [("a", VStr "1")])], VUndefined, VUndefined);
                (VObj [("src", VStr "https://example.com/b");
                       ("args", VObj [("b", VStr "2")])],
                 VUndefined, VUndefined) ]
              Static.initial [] ltac:(discriminate))
    as (new & _ & Hm & Hc & _).
  split; [exact Hm |]. split; [exact Hc |]. split; reflexivity.
Defined.

Lemma instance_send_valid_facts cfg cbf_ func i tr :
  is_object cfg = true -> truthy (prop cfg "src") = true ->
  prop cfg "args" <> VNull ->
  exists p,
    Instance.send cfg cbf_ func i tr =
      (if Instance.checkReq p
       then (Normal VUndefined,
             Instance.set_con (Some (instance_request p)) p,
             (tr ++ [EvRequest (instance_request p)])%list)
       else (Normal VUndefined, p, tr))
    /\ Instance.contentType p <> ""
    /\ Instance.method p <> "".
Proof.
  intros Hq Hs Hn. exists (instance_prepared cfg cbf_ func i).
  destruct (instance_prepared_facts cfg cbf_ func i _ eq_refl) as (Po & Pp & Pc & Pm).
  split; [apply instance_send_valid; assumption |].
  split.
  - rewrite Pc. apply resolved_method_nonempty. discriminate.
  - rewrite Pm. apply resolved_method_nonempty. discriminate.
Qed.

Lemma instance_send_step cfg cbf_ func i tr :
  Instance.method i <> "" -> Instance.contentType i <> "" ->
  exists i' new,
    snd (fst (Instance.send cfg cbf_ func i tr)) = i'
    /\ snd (Instance.send cfg cbf_ func i tr) = (tr ++ new)%list
    /\ Instance.method i' <> ""
    /\ Instance.contentType i' <> ""
    /\ (length (requests new) <= 1)%nat
    /\ Forall (fun x => exists v, v <> "" /\ sole_header v x) (requests new)
    /\ calls new = [].
Proof.
  intros Hm Hc.
  assert (Quiet : forall o st new,
             Instance.send cfg cbf_ func i tr = (o, st, (tr ++ new)%list) ->
             Instance.method st = Instance.method i ->
             Instance.contentType st = Instance.contentType i ->
             requests new = [] -> calls new = [] ->
             exists i' new,
               snd (fst (Instance.send cfg cbf_ func i tr)) = i'
               /\ snd (Instance.send cfg cbf_ func i tr) = (tr ++ new)%list
               /\ Instance.method i' <> ""
               /\ Instance.contentType i' <> ""
               /\ (length (requests new) <= 1)%nat
               /\ Forall (fun x => exists v, v <> "" /\ sole_header v x) (requests new)
               /\ calls new = []).
  { intros o st new E Em Ec Er Ek. exists st, new. rewrite E. cbn [fst snd].
    rewrite Em, Ec, Er. repeat split; auto. }
  destruct (value_cases cfg) as [H | [-> | Hq]].
  - apply (Quiet _ i [EvWarn "Missing params"]
             (instance_send_not_object cfg cbf_ func i tr H)); reflexivity.
  - apply (Quiet (Thrown TypeError) i []); try reflexivity.
    rewrite app_nil_r. reflexivity.
  - destruct (truthy (prop cfg "src")) eqn:Hs.
    + destruct (prop cfg "args") eqn:Ha;
        try (assert (Hn : prop cfg "args" <> VNull) by (rewrite Ha; discriminate);
             destruct (instance_send_valid_facts cfg cbf_ func i tr Hq Hs Hn)
               as (p & E & Pc & Pm);
             rewrite E; clear E;
             destruct (Instance.checkReq p);
             [ exists (Instance.set_con (Some (instance_request p)) p),
                 [EvRequest (instance_request p)];
               cbn [fst snd requests flat_map app length calls
                    Instance.method Instance.contentType Instance.set_con];
               repeat split; auto;
               constructor; [| constructor];
               exists (Instance.contentType p); split; [exact Pc | reflexivity]
             | exists p, []; cbn [fst snd requests flat_map length calls];
               rewrite app_nil_r; repeat split; auto ]).
      apply (Quiet (Thrown TypeError)
               (instance_after_getSrc (Instance.set_obj cfg (instance_after_checkArgs cfg i)))
               []); try reflexivity.
      rewrite app_nil_r. apply instance_send_args_null; assumption.
    + apply (Quiet _ _ [EvWarn "Missing params"]
               (instance_send_no_src cfg cbf_ func i tr Hq Hs)); reflexivity.
Qed.

(** X7.  Over any run of [send] calls on one instance whose method and
    content type start non-empty (as [new Server()] has them): both stay
    non-empty; the run only adds to the trace, at most one request per
    call, each with exactly one header, [Content-type], of non-empty
    value; and no callback is called by the run itself. *)
Theorem instance_sends_invariant :
  forall (calls_ : list (value * value * value))
         (i : Instance.state) (tr : list event),
    Instance.method i <> "" -> Instance.contentType i <> "" ->
    exists new,
      snd (instance_sends calls_ i tr) = (tr ++ new)%list
      /\ Instance.method (fst (instance_sends calls_ i tr)) <> ""
      /\ Instance.contentType (fst (instance_sends calls_ i tr)) <> ""
      /\ (length (requests new) <= length calls_)%nat
      /\ Forall (fun x => exists v, v <> "" /\ sole_header v x) (requests new)
      /\ calls new = [].
Proof.
  intros calls_. induction calls_ as [| [[cfg cbf_] func] rest IH]; intros i tr Hm Hc.
  - exists []. cbn [instance_sends fst snd requests flat_map length calls].
    rewrite app_nil_r. repeat split; auto.
  - destruct (instance_send_step cfg cbf_ func i tr Hm Hc)
      as (i' & new & Es & Et & Hm' & Hc' & Hl & Hh & Hk).
    cbn [instance_sends].
    destruct (Instance.send cfg cbf_ func i tr) as [[o st] tr'] eqn:E.
    cbn [fst snd] in Es, Et. subst st tr'.
    destruct o as [v | e].
    + destruct (IH i' (tr ++ new)%list Hm' Hc')
        as (more & Et' & Hm'' & Hc'' & Hl' & Hh' & Hk').
      exists (new ++ more)%list. rewrite Et'.
      rewrite requests_app, calls_app, Hk, Hk', length_app, <- app_assoc.
      repeat split; auto.
      * cbn [length]. lia.
      * apply Forall_app. split; assumption.
    + exists new. cbn [fst snd]. repeat split; auto. cbn [length]. lia.
Qed.

Lemma instance_sends_invariant_witness :
  let run :=
    instance_sends
      [ (VObj [("src", VStr "https://example.com/a");
               ("args", VObj [("a", VStr "1")]); ("method", VStr "put");
               ("content-type", VStr "text/csv")],
         VUndefined, VUndefined);
        (VObj [("src", VStr "https://example.com/b"); ("args", VNull)],
         VUndefined, VUndefined) ]
      Instance.initial [] in
  Instance.method (fst run) <> ""
  /\ map x_headers (requests (snd run)) = [[("Content-type", "TEXT/CSV")]].
Proof.
  cbv zeta.
  destruct (instance_sends_invariant
              [ (VObj [("src", VStr "https://example.com/a");
                       ("args", VObj [("a", VStr "1")]); ("method", VStr "put");
                       ("content-type", VStr "text/csv")],
                 VUndefined, VUndefined);
                (VObj [("src", VStr "https://example.com/b"); ("args", VNull)],
                 VUndefined, VUndefined) ]
              Instance.initial [] ltac:(discriminate) ltac:(discriminate))
    as (new & _ & Hm & _).
  split; [exact Hm | reflexivity].
Defined.

(** *** Diagnostics, source and callback after [send] *)

Lemma static_prepared_more env cfg cbf_ func s p :
  p = static_prepared env cfg cbf_ func s ->
  let given := truthy (prop cfg "args") in
  Static.error p = (if given then Static.error s else VStr "No arguments were specified.")
  /\ Static.status p = (if given then Static.status s else VNum 1)
  /\ Static.error_level p = (if given then Static.error_level s else WARNING)
  /\ Static.src p =
       match prop cfg "src" with
       | VStr u =>
           if (is_false (Static.url_auto_resolve s)
               && Z.eqb (indexOf (toLowerCase u) "http") (-1))%bool
           then VStr (resolved_against env u) else VStr u
       | _ => VBool false
       end
  /\ Static.cbf p =
       (if (is_false (default_false func) && negb (is_false (default_false cbf_)))%bool
        then default_false cbf_
        else if (is_true (default_false cbf_) && negb (is_false (default_false func)))%bool
        then default_false func
        else js_or (js_or (js_or (js_or (prop cfg "func") (prop cfg "cbf"))
                                 (prop cfg "callback"))
                          (prop cfg "callback-function")) (VBool false)).
Proof.
  intros ->. cbv zeta. repeat split; try reflexivity.
  unfold static_prepared, static_after_callback, static_after_setContentType,
    static_after_setMethod, static_after_getParams, static_after_validateSources,
    static_after_getSrc, static_after_checkArgs, resolved_against.
  cbn [Static.src Static.set_cbf Static.set_contentType Static.set_method
       Static.set_params Static.set_src Static.set_obj Static.set_diagnostic
       Static.url_auto_resolve Static.obj].
  destruct (prop cfg "src"); destruct (is_false (Static.url_auto_resolve s));
    try reflexivity.
Qed.

Lemma instance_prepared_more cfg cbf_ func i p :
  p = instance_prepared cfg cbf_ func i ->
  let given := truthy (prop cfg "args") in
  Instance.error p = (if given then Instance.error i else VStr "No arguments specified")
  /\ Instance.status p = (if given then Instance.status i else VNum 1)
  /\ Instance.errorLevel p = (if given then Instance.errorLevel i else WARNING)
  /\ Instance.src p = (if is_string (prop cfg "src") then prop cfg "src" else VBool false)
  /\ Instance.cbf p =
       (if is_false (default_false func) then default_false cbf_
        else if is_true (default_false cbf_) then default_false func
        else js_or (js_or (js_or (js_or (prop cfg "func") (prop cfg "cbf"))
                                 (prop cfg "callback"))
                          (prop cfg "callback-function")) (VBool false)).
Proof. intros ->. cbv zeta. repeat split; reflexivity. Qed.

(** The fields [connect] leaves alone, after a [send] that passed
    validation. *)
Lemma static_send_keeps env cfg cbf_ func s tr :
  is_object cfg = true -> truthy (prop cfg "src") = true ->
  exists p,
    p = static_prepared env cfg cbf_ func s
    /\ Static.error (state_of (Static.send env cfg cbf_ func s tr)) = Static.error p
    /\ Static.status (state_of (Static.send env cfg cbf_ func s tr)) = Static.status p
    /\ Static.error_level (state_of (Static.send env cfg cbf_ func s tr))
       = Static.error_level p
    /\ Static.src (state_of (Static.send env cfg cbf_ func s tr)) = Static.src p
    /\ Static.cbf (state_of (Static.send env cfg cbf_ func s tr)) = Static.cbf p.
Proof.
  intros Hq Hs. exists (static_prepared env cfg cbf_ func s).
  split; [reflexivity |].
  rewrite (static_send_valid env cfg cbf_ func s tr Hq Hs), static_connect.
  generalize (static_prepared env cfg cbf_ func s) as p. intros p.
  destruct (Static.checkReq p); cbn [state_of fst snd]; repeat split; reflexivity.
Qed.

Lemma instance_send_keeps cfg cbf_ func i tr :
  is_object cfg = true -> truthy (prop cfg "src") = true ->
  prop cfg "args" <> VNull ->
  exists p,
    p = instance_prepared cfg cbf_ func i
    /\ Instance.error (state_of (Instance.send cfg cbf_ func i tr)) = Instance.error p
    /\ Instance.status (state_of (Instance.send cfg cbf_ func i tr)) = Instance.status p
    /\ Instance.errorLevel (state_of (Instance.send cfg cbf_ func i tr))
       = Instance.errorLevel p
    /\ Instance.src (state_of (Instance.send cfg cbf_ func i tr)) = Instance.src p
    /\ Instance.cbf (state_of (Instance.send cfg cbf_ func i tr)) = Instance.cbf p.
Proof.
  intros Hq Hs Hn. exists (instance_prepared cfg cbf_ func i).
  split; [reflexivity |].
  rewrite (instance_send_valid cfg cbf_ func i tr Hq Hs Hn). cbv zeta.
  generalize (instance_prepared cfg cbf_ func i) as p. intros p.
  destruct (Instance.checkReq p); cbn [state_of fst snd]; repeat split; reflexivity.
Qed.

Lemma truthy_not_null v : truthy v = true -> v <> VNull.
Proof. intros H E. rewrite E in H. discriminate H. Qed.

(** X8.  A [send] that passes validation with [args] present never
    touches the diagnostic fields: [error], [status] and the error level
    keep whatever an earlier call left there, whether or not the request
    is dispatched. *)
Theorem diagnostics_not_cleared :
  forall (env : browser) (cfg cbf_ func : value)
         (s : Static.state) (i : Instance.state) (tr : list event),
    is_object cfg = true ->
    truthy (prop cfg "src") = true ->
    truthy (prop cfg "args") = true ->
    let rs := Static.send env cfg cbf_ func s tr in
    let ri := Instance.send cfg cbf_ func i tr in
    (Static.error (state_of rs) = Static.error s
     /\ Static.status (state_of rs) = Static.status s
     /\ Static.error_level (state_of rs) = Static.error_level s)
    /\ (Instance.error (state_of ri) = Instance.error i
        /\ Instance.status (state_of ri) = Instance.status i
        /\ Instance.errorLevel (state_of ri) = Instance.errorLevel i).
Proof.
  intros env cfg cbf_ func s i tr Hq Hs Ha rs ri. unfold rs, ri. split.
  - destruct (static_send_keeps env cfg cbf_ func s tr Hq Hs)
      as (p & Hp & E1 & E2 & E3 & _).
    destruct (static_prepared_more env cfg cbf_ func s p Hp) as (M1 & M2 & M3 & _).
    rewrite Ha in M1, M2, M3. rewrite E1, E2, E3, M1, M2, M3. repeat split.
  - destruct (instance_send_keeps cfg cbf_ func i tr Hq Hs (truthy_not_null _ Ha))
      as (p & Hp & E1 & E2 & E3 & _).
    destruct (instance_prepared_more cfg cbf_ func i p Hp) as (M1 & M2 & M3 & _).
    rewrite Ha in M1, M2, M3. rewrite E1, E2, E3, M1, M2, M3. repeat split.
Qed.

(** A rejected call followed by a dispatched one: the fatal level of the
    first is still recorded after the second. *)
Lemma diagnostics_not_cleared_witness :
  let bad := Static.send example_page (VObj []) VUndefined VUndefined Static.initial [] in
  let good := Static.send example_page
                (VObj [("src", VStr "https://example.com/api");
                       ("args", VObj [("a", VStr "1")])])
                VUndefined VUndefined (state_of bad) (trace_of bad) in
  result_of good = Normal (VBool true)
  /\ Static.error_level (state_of good) = FATAL.
Proof.
  cbv zeta. split; [reflexivity |].
  exact (proj2 (proj2 (proj1
    (diagnostics_not_cleared example_page
       (VObj [("src", VStr "https://example.com/api"); ("args", VObj [("a", VStr "1")])])
       VUndefined VUndefined
       (state_of (Static.send example_page (VObj []) VUndefined VUndefined
                    Static.initial []))
       Instance.initial
       (trace_of (Static.send example_page (VObj []) VUndefined VUndefined
                    Static.initial []))
       eq_refl eq_refl eq_refl)))).
Defined.

Lemma truthy_string u : u <> "" -> truthy (VStr u) = true.
Proof. intros H. simpl. destruct u; [congruence | reflexivity]. Qed.

(** X9.  The source a valid [send] stores.  In the static class a string
    [src] is kept as given when it holds "http" anywhere, in any case
    (also in the middle of a relative path), or when the override
    [url-auto-resolve] is anything but [false]; the instance class keeps
    every string [src] as given.  A truthy [src] that is not a string
    passes validation in both classes and is stored as [false]. *)
Theorem source_kept :
  forall (env : browser) (cfg cbf_ func : value)
         (s : Static.state) (i : Instance.state) (tr : list event),
    is_object cfg = true ->
    truthy (prop cfg "src") = true ->
    let rs := Static.send env cfg cbf_ func s tr in
    let ri := Instance.send cfg cbf_ func i tr in
    (forall u, prop cfg "src" = VStr u ->
               occurs "http" (toLowerCase u) \/ Static.url_auto_resolve s <> VBool false ->
               Static.src (state_of rs) = VStr u)
    /\ (forall u, prop cfg "src" = VStr u -> prop cfg "args" <> VNull ->
                  Instance.src (state_of ri) = VStr u)
    /\ (is_string (prop cfg "src") = false ->
        Static.src (state_of rs) = VBool false
        /\ (prop cfg "args" <> VNull -> Instance.src (state_of ri) = VBool false)).
Proof.
  intros env cfg cbf_ func s i tr Hq Hs rs ri. unfold rs, ri.
  destruct (static_send_keeps env cfg cbf_ func s tr Hq Hs)
    as (p & Hp & _ & _ & _ & Es & _).
  destruct (static_prepared_more env cfg cbf_ func s p Hp) as (_ & _ & _ & Ms & _).
  rewrite Es, Ms. clear Es Ms Hp p.
  split; [| split].
  - intros u Hu [Hh | Ha]; rewrite Hu.
    + apply indexOf_occurs in Hh. apply negb_true_iff in Hh. rewrite Hh, andb_false_r.
      reflexivity.
    + assert (E : is_false (Static.url_auto_resolve s) = false).
      { destruct (Static.url_auto_resolve s) as [| | [|] | | | | |];
          try reflexivity; congruence. }
      rewrite E. reflexivity.
  - intros u Hu Hn.
    destruct (instance_send_keeps cfg cbf_ func i tr Hq Hs Hn)
      as (p & Hp & _ & _ & _ & Es & _).
    destruct (instance_prepared_more cfg cbf_ func i p Hp) as (_ & _ & _ & Ms & _).
    rewrite Es, Ms, Hu. reflexivity.
  - intros Hn. split.
    + destruct (prop cfg "src"); try reflexivity. discriminate Hn.
    + intros Ha.
      destruct (instance_send_keeps cfg cbf_ func i tr Hq Hs Ha)
        as (p & Hp & _ & _ & _ & Es & _).
      destruct (instance_prepared_more cfg cbf_ func i p Hp) as (_ & _ & _ & Ms & _).
      rewrite Es, Ms, Hn. reflexivity.
Qed.

(** A relative path that holds "http" is not resolved, and a numeric
    [src] becomes the address ["false"]. *)
Lemma source_kept_witness :
  Static.src (state_of (Static.send example_page
                          (VObj [("src", VStr "docs/HTTP-codes.html")])
                          VUndefined VUndefined Static.initial []))
  = VStr "docs/HTTP-codes.html"
  /\ map x_url (requests (trace_of (Static.send example_page
                                     (VObj [("src", VNum 5);
                                            ("args", VObj [("a", VStr "1")])])
                                     VUndefined VUndefined Static.initial [])))
     = ["false"].
Proof.
  split; [| reflexivity].
  refine (proj1 (source_kept example_page (VObj [("src", VStr "docs/HTTP-codes.html")])
                   VUndefined VUndefined Static.initial Instance.initial []
                   eq_refl eq_refl)
            "docs/HTTP-codes.html" eq_refl (or_introl _)).
  apply indexOf_occurs. reflexivity.
Defined.


Lemma is_true_iff v : is_true v = true <-> v = VBool true.
Proof.
  destruct v as [| | [|] | | | | |]; simpl; split; congruence.
Qed.






(** *** The response handlers *)

Lemma not_success_test r :
  ~ success r ->
  Z.eqb (readyState r) 4 = false
  \/ (Z.leb 200 (http_status r) && Z.ltb (http_status r) 300)%bool = false.
Proof.
  intros H. destruct (Z.eqb_spec (readyState r) 4) as [E | E]; [| left; reflexivity].
  right. destruct (Z.leb 200 (http_status r) && Z.ltb (http_status r) 300)%bool eqn:T;
    [| reflexivity].
  exfalso. apply H. apply andb_prop in T. destruct T as [T1 T2].
  apply Z.leb_le in T1. apply Z.ltb_lt in T2. split; [exact E | lia].
Qed.

(** X12.  On a state change that is not a completed response with a
    status in [200, 300), neither handler does anything: no field is
    written, nothing is logged, no callback is called, whatever the
    callback field holds. *)
Theorem handlers_ignore_failures :
  forall (env : browser) (r : response)
         (s : Static.state) (i : Instance.state) (tr : list event),
    ~ success r ->
    Static.onreadystatechange env r s tr = (Normal tt, s, tr)
    /\ Instance.handleReadyStateChange env r i tr = (Normal tt, i, tr).
Proof.
  intros env r s i tr H.
  unfold Static.onreadystatechange, Instance.handleReadyStateChange.
  destruct (not_success_test r H) as [E | E].
  - rewrite E. split; reflexivity.
  - rewrite E. destruct (negb (Z.eqb (readyState r) 4)); split; reflexivity.
Qed.

Lemma handlers_ignore_failures_witness :
  Static.onreadystatechange example_page
    {| readyState := 4; http_status := 500; responseText := "Internal Server Error" |}
    (Static.set_cbf (VStr "handler") Static.initial) []
  = (Normal tt, Static.set_cbf (VStr "handler") Static.initial, []).
Proof.
  refine (proj1 (handlers_ignore_failures example_page
                   {| readyState := 4; http_status := 500;
                      responseText := "Internal Server Error" |}
                   (Static.set_cbf (VStr "handler") Static.initial)
                   Instance.initial [] _)).
  intros [_ H]. cbn in H. lia.
Defined.









(** *** The encoder *)

Lemma kept_not_percent c : uri_kept c = true -> Ascii.eqb c "%" = false.
Proof.
  destruct c as [[|] [|] [|] [|] [|] [|] [|] [|]];
    intros H; first [reflexivity | discriminate H].
Qed.

Lemma escape_undone c :
  ascii_of_N (16 * hex_value (hex_digit (code c / 16))
              + hex_value (hex_digit (code c mod 16))) = c.
Proof. destruct c as [[|] [|] [|] [|] [|] [|] [|] [|]]; reflexivity. Qed.

Lemma hex_digit_kept c :
  uri_kept (hex_digit (code c / 16)) = true /\ uri_kept (hex_digit (code c mod 16)) = true.
Proof. destruct c as [[|] [|] [|] [|] [|] [|] [|] [|]]; split; reflexivity. Qed.

Lemma unescape_encodeURI s : unescape_uri (encodeURI s) = s.
Proof.
  induction s as [| c s IH]; [reflexivity |].
  cbn [encodeURI]. destruct (uri_kept c) eqn:K.
  - cbn [unescape_uri]. rewrite (kept_not_percent c K), IH. reflexivity.
  - cbn [unescape_uri]. change (Ascii.eqb "%" "%") with true. cbv iota.
    rewrite escape_undone, IH. reflexivity.
Qed.

(** X15.  [url_encode] loses nothing on strings: the escapes it writes
    can be undone, so two different strings are never encoded alike; its
    output holds only characters [encodeURI] keeps and the percent sign;
    a value that is not a string comes back as it is ([undefined] as
    [false]); and the encoders of the two classes are the same function. *)
Theorem url_encode_faithful :
  (forall a, unescape_uri (to_string (Static.url_encode (VStr a))) = a)
  /\ (forall a b, Static.url_encode (VStr a) = Static.url_encode (VStr b) -> a = b)
  /\ (forall a, all_chars (fun c => (uri_kept c || Ascii.eqb c "%")%bool)
                  (to_string (Static.url_encode (VStr a))) = true)
  /\ (forall v, is_string v = false -> Static.url_encode v = default_false v)
  /\ (forall v, Instance.urlEncode v = Static.url_encode v).
Proof.
  split; [| split; [| split; [| split]]].
  - intros a. apply unescape_encodeURI.
  - intros a b H. cbn in H. injection H as H.
    rewrite <- (unescape_encodeURI a), <- (unescape_encodeURI b), H. reflexivity.
  - intros a. cbn [Static.url_encode default_false to_string].
    induction a as [| c a IH]; [reflexivity |].
    cbn [encodeURI]. destruct (uri_kept c) eqn:K.
    + cbn [all_chars]. rewrite K, IH. reflexivity.
    + destruct (hex_digit_kept c) as [H1 H2].
      cbn [all_chars]. rewrite H1, H2, IH. reflexivity.
  - intros v H. destruct v; try reflexivity. discriminate H.
  - intros v. reflexivity.
Qed.

Lemma url_encode_faithful_witness :
  Static.url_encode (VUndefined) = VBool false
  /\ Static.url_encode (VNum 7) = VNum 7.
Proof.
  destruct url_encode_faithful as (_ & _ & _ & H & _).
  split; [exact (H VUndefined eq_refl) | exact (H (VNum 7) eq_refl)].
Defined.

(** *** Resolving a source twice *)

Lemma indexOf_prefix hay needle :
  String.prefix needle hay = true -> indexOf hay needle = 0%Z.
Proof.
  intros H. unfold indexOf. destruct hay; cbn [indexOf_from]; rewrite H; reflexivity.
Qed.

Lemma prefix_app a b needle :
  String.prefix needle a = true -> String.prefix needle (a ++ b) = true.
Proof.
  intros H. apply prefix_iff in H. destruct H as [rest ->].
  apply prefix_iff. exists (rest ++ b). apply append_assoc.
Qed.

(** X16.  On a page whose scheme starts with "http" (in any case),
    [validateSources] run a second time changes nothing: the source it
    resolved holds "http" and is taken as absolute. *)
Theorem validateSources_idempotent :
  forall (env : browser) (s : Static.state) (tr : list event),
    String.prefix "http" (toLowerCase (protocol (win_location env))) = true ->
    (Static.validateSources env ;; Static.validateSources env)%js s tr
    = Static.validateSources env s tr.
Proof.
  intros env s tr Hp.
  assert (R : forall st,
             Static.validateSources env st tr =
               (Normal tt,
                match Static.src st with
                | VStr u => if Z.eqb (indexOf (toLowerCase u) "http") (-1)
                            then Static.set_src (VStr (resolved_against env u)) st
                            else st
                | _ => st
                end, tr)).
  { intros st. unfold Static.validateSources, bind, gets.
    destruct (Static.src st); try reflexivity.
    destruct (Z.eqb _ _); reflexivity. }
  rewrite (bind_normal _ _ _ _ _ _ _ (R s)), (R s).
  destruct (Static.src s) as [| | | | u | | |] eqn:Es;
    try (rewrite R, Es; reflexivity).
  destruct (Z.eqb (indexOf (toLowerCase u) "http") (-1)) eqn:Eh.
  - rewrite R. cbn [Static.src Static.set_src].
    unfold resolved_against at 1.
    unfold toLowerCase at 1. rewrite map_string_app. fold toLowerCase.
    rewrite (indexOf_prefix _ _ (prefix_app _ _ _ Hp)). reflexivity.
  - rewrite R, Es, Eh. reflexivity.
Qed.

Lemma validateSources_idempotent_witness :
  state_of ((Static.validateSources example_page ;; Static.validateSources example_page)%js
              (Static.set_src (VStr "data.json") Static.initial) [])
  = Static.set_src (VStr "https://example.com/app/data.json") Static.initial.
Proof.
  rewrite (validateSources_idempotent example_page
             (Static.set_src (VStr "data.json") Static.initial) [] eq_refl).
  reflexivity.
Defined.

(** *** [getArrayType] *)

(** X17.  [getArrayType] does not tell arrays from objects: on every
    non-null object or array it answers ["array"] when there is at least
    one entry and ["object"] when there is none, so [[]] and [{}] are
    both ["object"] and [["a"]] and [{k: 1}] both ["array"]; it answers
    [false] on anything that is not an object and raises a TypeError on
    [null]. *)
Theorem getArrayType_by_emptiness :
  (forall q, is_object q = true ->
             Static.getArrayType q =
               Normal (VStr (match entries q with [] => "object" | _ => "array" end)))
  /\ (forall elems,
        Static.getArrayType (VArr elems) =
          Normal (VStr (match elems with [] => "object" | _ => "array" end)))
  /\ (forall q, typeof (default_false q) <> "object" ->
                Static.getArrayType q = Normal (VBool false))
  /\ Static.getArrayType VNull = Thrown TypeError.
Proof.
  split; [| split; [| split]].
  - intros q Hq. unfold Static.getArrayType.
    rewrite (default_false_object q Hq), (typeof_object q Hq). cbn [String.eqb].
    destruct q; try discriminate Hq.
    + cbn [entries]. destruct props as [| [k v] props]; reflexivity.
    + cbn [entries]. destruct elems as [| e elems]; reflexivity.
  - intros elems. destruct elems; reflexivity.
  - intros q H. destruct q; simpl in H; try reflexivity; congruence.
  - reflexivity.
Qed.

Lemma getArrayType_by_emptiness_witness :
  Static.getArrayType (VObj [("k", VNum 1)]) = Normal (VStr "array")
  /\ Static.getArrayType (VArr []) = Normal (VStr "object")
  /\ Static.getArrayType (VStr "text") = Normal (VBool false).
Proof.
  destruct getArrayType_by_emptiness as (H1 & H2 & H3 & _).
  split; [exact (H1 (VObj [("k", VNum 1)]) eq_refl) |].
  split; [exact (H2 []) |].
  apply H3. discriminate.
Defined.

(** *** [canReachHost] *)

Lemma spin_unreached steps queued :
  match Instance.spin steps false queued with
  | Some (r, _) => r = false /\ In (Instance.ClockTest false) steps
  | None => ~ In (Instance.ClockTest false) steps
  end.
Proof.
  revert queued. induction steps as [| st steps IH]; intros queued.
  - intros H. exact H.
  - destruct st as [[|] |]; cbn [Instance.spin andb negb].
    + specialize (IH queued). destruct (Instance.spin steps false queued) as [[r q] |].
      * destruct IH as [Hr Hin]. split; [exact Hr | right; exact Hin].
      * intros [H | H]; [discriminate H | exact (IH H)].
    + split; [reflexivity | left; reflexivity].
    + specialize (IH (S queued)).
      destruct (Instance.spin steps false (S queued)) as [[r q] |].
      * destruct IH as [Hr Hin]. split; [exact Hr | right; exact Hin].
      * intros [H | H]; [discriminate H | exact (IH H)].
Qed.

(** X18.  [canReachHost] never answers [true].  On a host that is not a
    string it answers [false] at once and requests nothing.  On a string
    it requests [host/favicon.ico?t=<now>] and spins until the clock
    test fails: it returns, with [false], exactly when the 100 ms have
    run out, whether or not the image's event has arrived meanwhile,
    because the handler that would set [reached] waits in the event loop
    until the method has returned. *)
Theorem canReachHost_never_true :
  forall (host : value) (now : Z) (steps : list Instance.spin_step),
    let probe := Instance.canReachHost host now steps in
    Instance.returned probe <> Some true
    /\ (is_string host = false ->
        probe = {| Instance.image_src := None; Instance.returned := Some false;
                   Instance.tasks_left := 0 |})
    /\ (forall h, host = VStr h ->
          Instance.image_src probe = Some (h ++ "/favicon.ico?t=" ++ Z_to_string now)
          /\ (Instance.returned probe = Some false <->
              In (Instance.ClockTest false) steps)
          /\ (Instance.returned probe = None <->
              ~ In (Instance.ClockTest false) steps)).
Proof.
  intros host now steps probe. unfold probe, Instance.canReachHost.
  destruct host as [| | | | h | | |];
    try (split; [discriminate | split; [reflexivity | intros h' H; discriminate H]]).
  pose proof (spin_unreached steps 0) as Hs.
  destruct (Instance.spin steps false 0) as [[r q] |].
  - destruct Hs as [-> Hin]. cbn [Instance.returned Instance.image_src].
    split; [discriminate | split; [discriminate |]].
    intros h' H. injection H as <-.
    split; [reflexivity | split; split].
    + intros _. exact Hin.
    + reflexivity.
    + discriminate.
    + intros H. exfalso. exact (H Hin).
  - cbn [Instance.returned Instance.image_src].
    split; [discriminate | split; [discriminate |]].
    intros h' H. injection H as <-.
    split; [reflexivity | split; split].
    + discriminate.
    + intros H. exfalso. exact (Hs H).
    + intros _. exact Hs.
    + reflexivity.
Qed.

(** The call of [main.js], with the image answering during the wait. *)
Lemma canReachHost_never_true_witness :
  let probe := Instance.canReachHost (VStr "https://example.com") 1700000000000
                 [Instance.ClockTest true; Instance.ImageSettled;
                  Instance.ClockTest true; Instance.ClockTest false] in
  Instance.image_src probe = Some "https://example.com/favicon.ico?t=1700000000000"
  /\ Instance.returned probe = Some false.
Proof.
  cbv zeta.
  destruct (proj2 (proj2 (canReachHost_never_true (VStr "https://example.com")
                            1700000000000
                            [Instance.ClockTest true; Instance.ImageSettled;
                             Instance.ClockTest true; Instance.ClockTest false]))
              "https://example.com" eq_refl) as (H1 & H2 & _).
  split; [exact H1 |].
  apply H2. right. right. right. left. reflexivity.
Defined.

(** *** [args: null] in the instance class *)

(** X19.  In the instance class a configuration object with a truthy
    [src] and [args: null] makes [send] raise a TypeError half-way: the
    warning for missing arguments is recorded and [obj] and [src] are
    overwritten, while the parameters, the method, the content type,
    the callback and the connection keep the values of the previous
    call, and nothing is logged or sent.  The static class, on the same
    configuration, raises nothing and returns [false]. *)
Theorem instance_send_args_null_partial :
  forall (env : browser) (cfg cbf_ func : value)
         (s : Static.state) (i : Instance.state) (tr : list event),
    is_object cfg = true ->
    truthy (prop cfg "src") = true ->
    prop cfg "args" = VNull ->
    let ri := Instance.send cfg cbf_ func i tr in
    let rs := Static.send env cfg cbf_ func s tr in
    (result_of ri = Thrown TypeError
     /\ trace_of ri = tr
     /\ Instance.errorLevel (state_of ri) = WARNING
     /\ Instance.error (state_of ri) = VStr "No arguments specified"
     /\ Instance.obj (state_of ri) = cfg
     /\ Instance.src (state_of ri)
        = (if is_string (prop cfg "src") then prop cfg "src" else VBool false)
     /\ Instance.params (state_of ri) = Instance.params i
     /\ Instance.method (state_of ri) = Instance.method i
     /\ Instance.contentType (state_of ri) = Instance.contentType i
     /\ Instance.cbf (state_of ri) = Instance.cbf i
     /\ Instance.con (state_of ri) = Instance.con i)
    /\ (result_of rs = Normal (VBool false) /\ trace_of rs = tr
        /\ Static.params (state_of rs) = "").
Proof.
  intros env cfg cbf_ func s i tr Hq Hs Ha ri rs. split.
  - unfold ri. rewrite (instance_send_args_null cfg cbf_ func i tr Hq Hs Ha).
    cbn [result_of trace_of state_of fst snd].
    unfold instance_after_getSrc, instance_after_checkArgs.
    cbn [Instance.errorLevel Instance.error Instance.obj Instance.src Instance.params
         Instance.method Instance.contentType Instance.cbf Instance.con
         Instance.set_src Instance.set_obj Instance.set_diagnostic].
    rewrite Ha. cbn [truthy]. repeat split; reflexivity.
  - unfold rs.
    destruct (static_send_valid_facts env cfg cbf_ func s tr Hq Hs)
      as (p & E & _ & _ & _).
    destruct (static_prepared_facts env cfg cbf_ func s _ eq_refl) as (_ & Pp & _ & _).
    rewrite Ha in Pp. cbn [is_object] in Pp.
    rewrite (static_send_valid env cfg cbf_ func s tr Hq Hs), static_connect.
    assert (C : Static.checkReq (static_prepared env cfg cbf_ func s) = false).
    { unfold Static.checkReq. rewrite Pp. cbn [String.length Nat.eqb].
      rewrite orb_true_r. reflexivity. }
    rewrite C. cbn [result_of trace_of state_of fst snd].
    repeat split; try reflexivity. exact Pp.
Qed.

Lemma instance_send_args_null_partial_witness :
  let first := Instance.send
                 (VObj [("src", VStr "https://example.com/a");
                        ("args", VObj [("a", VStr "1")]); ("method", VStr "put")])
                 VUndefined VUndefined Instance.initial [] in
  let second := Instance.send
                  (VObj [("src", VStr "https://example.com/b"); ("args", VNull)])
                  VUndefined VUndefined (state_of first) (trace_of first) in
  result_of second = Thrown TypeError
  /\ Instance.src (state_of second) = VStr "https://example.com/b"
  /\ Instance.params (state_of second) = "a=1"
  /\ Instance.method (state_of second) = "PUT".
Proof.
  cbv zeta.
  destruct (proj1 (instance_send_args_null_partial example_page
              (VObj [("src", VStr "https://example.com/b"); ("args", VNull)])
              VUndefined VUndefined Static.initial
              (state_of (Instance.send
                 (VObj [("src", VStr "https://example.com/a");
                        ("args", VObj [("a", VStr "1")]); ("method", VStr "put")])
                 VUndefined VUndefined Instance.initial []))
              (trace_of (Instance.send
                 (VObj [("src", VStr "https://example.com/a");
                        ("args", VObj [("a", VStr "1")]); ("method", VStr "put")])
                 VUndefined VUndefined Instance.initial []))
              eq_refl eq_refl eq_refl))
    as (H1 & _ & _ & _ & _ & H6 & H7 & H8 & _).
  split; [exact H1 |]. split; [exact H6 |]. split; [exact H7 | exact H8].
Defined.

(** *** [dirname] applied twice *)

Lemma word_char_not_slash c : word_char c = true -> Ascii.eqb c "/" = false.
Proof.
  destruct c as [[|] [|] [|] [|] [|] [|] [|] [|]];
    intros H; first [reflexivity | discriminate H].
Qed.

Lemma not_slash_lower c : not_slash (lower_char c) = not_slash c.
Proof. destruct c as [[|] [|] [|] [|] [|] [|] [|] [|]]; reflexivity. Qed.

Lemma star_word_some s k out :
  Regex.star true (Regex.ARanges [("A"%char, "z"%char); ("0"%char, "9"%char)]) s k = Some out ->
  exists run t, s = run ++ t /\ all_chars word_char run = true /\ k t = Some out.
Proof.
  induction s as [| c s IH]; intros H.
  - exists "", "". repeat split. exact H.
  - cbn [Regex.star] in H. fold (word_char c) in H.
    destruct (word_char c) eqn:Hc.
    + destruct (Regex.star true _ s k) as [o |] eqn:Es.
      * injection H as <-. destruct (IH eq_refl) as (run & t & -> & Hr & Hk).
        exists (String c run), t. repeat split; [| exact Hk].
        cbn [all_chars]. rewrite Hc, Hr. reflexivity.
      * exists "", (String c s). repeat split. exact H.
    + exists "", (String c s). repeat split. exact H.
Qed.

Lemma dot_and_extension_some t out :
  dot_and_extension t = Some out ->
  exists t' w rest,
    t = String "." t' /\ In w listed_extensions
    /\ strip_prefix_ci w t' = Some rest
    /\ Regex.star true Regex.ADot rest Some = Some out.
Proof.
  destruct t as [| c t']; [discriminate |].
  rewrite dot_and_extension_cons. destruct (not_dot c) eqn:Hc; [discriminate |].
  intros H. destruct (first_match_some _ _ _ _ H) as (w & rest & Hin & Hw & Hk).
  exists t', w, rest. split; [| repeat split; assumption].
  unfold not_dot in Hc. apply negb_false_iff, Ascii.eqb_eq in Hc. rewrite Hc. reflexivity.
Qed.

(** What a match of the file name looks like. *)
Lemma name_and_extension_some s out :
  Regex.rmatch true name_and_extension_re s Some = Some out ->
  exists c run t' w rest,
    s = String c (run ++ String "." t')
    /\ word_char c = true /\ all_chars word_char run = true
    /\ In w listed_extensions /\ strip_prefix_ci w t' = Some rest
    /\ Regex.star true Regex.ADot rest Some = Some out.
Proof.
  rewrite name_and_extension_unfold. destruct s as [| c s]; [discriminate |].
  destruct (word_char c) eqn:Hc; [| discriminate]. intros H.
  destruct (star_word_some _ _ _ H) as (run & t & -> & Hr & Hd).
  destruct (dot_and_extension_some _ _ Hd) as (t' & w & rest & -> & Hin & Hw & Hk).
  exists c, run, t', w, rest. repeat split; assumption.
Qed.

Lemma star_dot_total t : exists out, Regex.star true Regex.ADot t Some = Some out.
Proof.
  induction t as [| c t [out IH]]; [exists ""; reflexivity |].
  cbn [Regex.star]. destruct (Regex.atom_test true Regex.ADot c).
  - rewrite IH. exists out. reflexivity.
  - eexists. reflexivity.
Qed.

Lemma first_match_total ws s k :
  (forall t, exists o, k t = Some o) ->
  (exists w rest, In w ws /\ strip_prefix_ci w s = Some rest) ->
  exists o, first_match ws s k = Some o.
Proof.
  intros Hk. induction ws as [| w0 ws IH]; intros (w & rest & Hin & Hw).
  - destruct Hin.
  - cbn [first_match]. destruct (strip_prefix_ci w0 s) as [r |] eqn:E0.
    + destruct (Hk r) as [o Ho]. rewrite Ho. exists o. reflexivity.
    + apply IH. destruct Hin as [-> | Hin]; [congruence |].
      exists w, rest. split; assumption.
Qed.

(** A file name matches whatever follows its extension. *)
Lemma name_and_extension_any c run e w y :
  word_char c = true -> all_chars word_char run = true ->
  In w listed_extensions -> toUpperCase e = toUpperCase w ->
  exists out,
    Regex.rmatch true name_and_extension_re (String c (run ++ String "." (e ++ y))) Some
    = Some out.
Proof.
  intros Hc Hr Hin He.
  assert (Hd : exists out, dot_and_extension (String "." (e ++ y)) = Some out).
  { rewrite dot_and_extension_cons. change (not_dot ".") with false. cbv iota.
    apply first_match_total.
    - intros t. apply star_dot_total.
    - exists w, y. split; [exact Hin | apply strip_prefix_ci_app, He]. }
  destruct Hd as [out Hd]. exists out.
  rewrite name_and_extension_unfold, Hc.
  apply star_word_run; [exact Hr |].
  cbn [Regex.star]. change (Regex.atom_test true _ "."%char) with false.
  cbv iota. exact Hd.
Qed.

Lemma filename_re_of_name s out :
  Regex.rmatch true name_and_extension_re s Some = Some out ->
  (Regex.rmatch true Regex.filename_re s Some = Some out
   /\ Regex.rmatch true Regex.filename_re (String "/" s) Some = Some out).
Proof.
  intros H. split.
  - rewrite filename_re_unfold. destruct s as [| c s]; [discriminate H |].
    pose proof H as H'. rewrite name_and_extension_unfold in H'.
    destruct (word_char c) eqn:Hc; [| discriminate H'].
    rewrite (word_char_not_slash c Hc). exact H.
  - rewrite filename_re_unfold. change (Ascii.eqb "/" "/") with true. cbv iota.
    rewrite H. reflexivity.
Qed.

Lemma filename_re_some s out :
  Regex.rmatch true Regex.filename_re s Some = Some out ->
  exists lead body,
    s = lead ++ body /\ (lead = "" \/ lead = "/")
    /\ Regex.rmatch true name_and_extension_re body Some = Some out.
Proof.
  rewrite filename_re_unfold. destruct s as [| c s]; [discriminate |].
  destruct (Ascii.eqb_spec c "/") as [-> | Hc].
  - destruct (Regex.rmatch true name_and_extension_re s Some) as [o |] eqn:E.
    + intros H. injection H as <-. exists "/", s. repeat split; [right; reflexivity | exact E].
    + intros H. exists "", (String "/" s). repeat split; [left; reflexivity | exact H].
  - intros H. exists "", (String c s). repeat split; [left; reflexivity | exact H].
Qed.

Lemma app_snoc_split P rest x c :
  P ++ rest = x ++ String c "" ->
  (rest = "" /\ P = x ++ String c "")
  \/ (exists r, rest = r ++ String c "" /\ x = P ++ r).
Proof.
  revert x. induction P as [| a P IH]; intros x H.
  - right. exists x. split; [exact H | reflexivity].
  - destruct x as [| b x].
    + injection H as -> H. destruct P; [| discriminate H].
      left. simpl in H. subst rest. split; reflexivity.
    + injection H as -> H. destruct (IH x H) as [[-> ->] | (r & -> & ->)].
      * left. split; reflexivity.
      * right. exists r. split; reflexivity.
Qed.

Lemma listed_no_slash e w :
  In w listed_extensions -> toUpperCase e = toUpperCase w ->
  e <> "" /\ all_chars not_slash e = true.
Proof.
  intros Hin He. pose proof (upper_eq_lower e w He) as Hl.
  rewrite (listed_lower w Hin) in Hl.
  rewrite <- (all_chars_lower not_slash e not_slash_lower), Hl.
  split.
  - intros ->. cbn in Hl. subst w.
    repeat (destruct Hin as [Hin | Hin]; [discriminate Hin |]). destruct Hin.
  - repeat (destruct Hin as [<- | Hin]; [reflexivity |]). destruct Hin.
Qed.

(** A match that starts in [x] when a slash follows [x] starts there
    whatever follows [x]. *)
Lemma filename_re_transfer x m out :
  Regex.rmatch true Regex.filename_re (x ++ "/") Some = Some out ->
  exists out', Regex.rmatch true Regex.filename_re (x ++ m) Some = Some out'.
Proof.
  intros H.
  destruct (filename_re_some _ _ H) as (lead & body & Es & Hl & Hb).
  destruct (name_and_extension_some _ _ Hb)
    as (c & run & t' & w & rest & -> & Hc & Hr & Hin & Hw & _).
  destruct (strip_prefix_ci_some _ _ _ Hw) as (e & -> & He).
  destruct (listed_no_slash e w Hin He) as [Hne Hns].
  assert (Es' : (lead ++ String c (run ++ String "." e)) ++ rest = x ++ String "/" "").
  { rewrite Es. rewrite !append_assoc. cbn [append]. rewrite append_assoc.
    cbn [append]. reflexivity. }
  destruct (app_snoc_split _ _ _ _ Es') as [[-> Hx] | (r & -> & ->)].
  - exfalso.
    assert (Hx' : (lead ++ String c (run ++ String "." "")) ++ e = x ++ String "/" "").
    { rewrite <- Hx. rewrite !append_assoc. cbn [append]. rewrite append_assoc.
      reflexivity. }
    destruct (app_snoc_split _ _ _ _ Hx') as [[E _] | (r & E & _)].
    + exact (Hne E).
    + rewrite E, all_chars_app in Hns. cbn in Hns. rewrite andb_false_r in Hns.
      discriminate Hns.
  - destruct (name_and_extension_any c run e w (r ++ m) Hc Hr Hin He) as [out' Ho].
    exists out'.
    assert (Eform : (lead ++ String c (run ++ String "." e)) ++ r ++ m
                    = lead ++ String c (run ++ String "." (e ++ r ++ m))).
    { rewrite !append_assoc. cbn [append]. rewrite append_assoc. reflexivity. }
    rewrite append_assoc, Eform.
    destruct (filename_re_of_name _ _ Ho) as [F1 F2].
    destruct Hl as [-> | ->]; [exact F1 | exact F2].
Qed.

Lemma exec_leftmost r s before rest :
  Regex.exec true r s = Some (before, rest) ->
  forall d1 c d2 s',
    before = d1 ++ String c d2 -> s = before ++ s' ->
    Regex.rmatch true r (String c d2 ++ s') Some = None.
Proof.
  revert before. induction s as [| c0 s IH]; intros before H d1 c d2 s' Eb Es.
  - subst before. destruct d1; discriminate Es.
  - cbn [Regex.exec] in H.
    destruct (Regex.rmatch true r (String c0 s) Some) as [out |] eqn:E.
    + injection H as <- <-. destruct d1; discriminate Eb.
    + destruct (Regex.exec true r s) as [[b o] |] eqn:Ex; [| discriminate H].
      injection H as <- <-. cbn [append] in Es. injection Es as Es.
      destruct d1 as [| a d1].
      * cbn [append] in Eb. injection Eb as <- <-.
        cbn [append]. rewrite <- Es. exact E.
      * cbn [append] in Eb. injection Eb as <- Eb.
        exact (IH b eq_refl d1 c d2 s' Eb Es).
Qed.

Lemma exec_none_intro r s :
  (forall d1 d2, s = d1 ++ d2 -> Regex.rmatch true r d2 Some = None) ->
  Regex.exec true r s = None.
Proof.
  induction s as [| c s IH]; intros H.
  - cbn [Regex.exec]. rewrite (H "" "" eq_refl). reflexivity.
  - cbn [Regex.exec]. rewrite (H "" (String c s) eq_refl), IH; [reflexivity |].
    intros d1 d2 E. apply (H (String c d1) d2). rewrite E. reflexivity.
Qed.

Lemma all_chars_suffix f a b : all_chars f (a ++ b) = true -> all_chars f b = true.
Proof. rewrite all_chars_app. intros H. apply andb_prop in H. apply H. Qed.

(** On a single line the match runs to the end of the path. *)
Lemma filename_re_to_end s out :
  all_chars not_line_break s = true ->
  Regex.rmatch true Regex.filename_re s Some = Some out -> out = "".
Proof.
  intros Hs H.
  destruct (filename_re_some _ _ H) as (lead & body & -> & _ & Hb).
  destruct (name_and_extension_some _ _ Hb)
    as (c & run & t' & w & rest & -> & _ & _ & _ & Hw & Hk).
  destruct (strip_prefix_ci_some _ _ _ Hw) as (e & -> & _).
  apply all_chars_suffix in Hs.
  change (String c (run ++ String "." (e ++ rest)))
    with (String c "" ++ run ++ String "." "" ++ e ++ rest) in Hs.
  do 4 apply all_chars_suffix in Hs.
  rewrite (star_dot_all rest Hs) in Hk. injection Hk as <-. reflexivity.
Qed.

(** What [dirname] does to a single-line path: nothing, or it puts a slash
    in the place of a tail that the file-name pattern matches. *)
Lemma dirname_shape p :
  all_chars not_line_break p = true ->
  Static.dirname (VStr p) = VStr p
  \/ exists before cut,
       p = before ++ cut
       /\ Regex.exec true Regex.filename_re p = Some (before, "")
       /\ Regex.rmatch true Regex.filename_re cut Some = Some ""
       /\ Static.dirname (VStr p) = VStr (before ++ "/").
Proof.
  intros Hp. rewrite dirname_string.
  destruct (negb _ && _)%bool; [| left; reflexivity].
  unfold Regex.replace.
  destruct (Regex.exec true Regex.filename_re p) as [[before rest] |] eqn:Ex;
    [| left; reflexivity].
  destruct (exec_some _ _ _ _ Ex) as (cut & -> & Hm).
  pose proof (filename_re_to_end cut rest (all_chars_suffix _ _ _ Hp) Hm) as ->.
  right. exists before, cut. repeat split; assumption.
Qed.

Lemma exec_after_cut before cut :
  Regex.exec true Regex.filename_re (before ++ cut) = Some (before, "") ->
  Regex.exec true Regex.filename_re (before ++ "/") = None.
Proof.
  intros Ex. apply exec_none_intro. intros d1 d2 E.
  destruct (Regex.rmatch true Regex.filename_re d2 Some) as [out |] eqn:Hm;
    [exfalso | reflexivity].
  symmetry in E. destruct (app_snoc_split _ _ _ _ E) as [[-> _] | (r & -> & Eb)].
  - discriminate Hm.
  - destruct (filename_re_transfer r cut out Hm) as [out' Ho].
    destruct r as [| c r]; [discriminate Hm |].
    rewrite (exec_leftmost _ _ _ _ Ex d1 c r cut Eb eq_refl) in Ho. discriminate Ho.
Qed.

(** X20. On a value that is not a string with a line terminator, [dirname]
    applied a second time changes nothing: once the file name is cut off a
    path, the pattern finds no file name in what is left. *)
Theorem dirname_idempotent (v : value) :
  single_line v ->
  Static.dirname (Static.dirname v) = Static.dirname v.
Proof.
  intros Hv. destruct v; try reflexivity.
  cbn [single_line] in Hv. destruct Hv as [Hv _].
  destruct (dirname_shape s Hv) as [E | (before & cut & -> & Ex & _ & ->)].
  - rewrite E. exact E.
  - rewrite dirname_string. unfold Regex.replace.
    rewrite (exec_after_cut before cut Ex).
    destruct (negb _ && _)%bool; reflexivity.
Qed.

Lemma dirname_idempotent_witness :
  single_line (VStr "https://example.com/app/index.html")
  /\ Static.dirname (VStr "https://example.com/app/index.html")
     = VStr "https://example.com/app/"
  /\ Static.dirname (Static.dirname (VStr "https://example.com/app/index.html"))
     = Static.dirname (VStr "https://example.com/app/index.html").
Proof.
  split; [split; reflexivity |]. split; [reflexivity |].
  apply (dirname_idempotent (VStr "https://example.com/app/index.html")).
  split; reflexivity.
Defined.

(** With a line break in the path the second application cuts again. *)
Example dirname_twice_two_lines :
  let p := String "a" (String "." (String "j" (String "s" (String "010" "b.js")))) in
  Static.dirname (VStr p) <> Static.dirname (Static.dirname (VStr p)).
Proof. vm_compute. discriminate. Qed.

(** X21. The directory name of a single-line path is the path itself, or
    what comes before a non-empty tail of it, followed by a slash: nothing
    before the cut is changed and nothing after it is kept. *)
Theorem dirname_cuts_tail (p : string) :
  single_line (VStr p) ->
  Static.dirname (VStr p) = VStr p
  \/ exists before cut,
       p = before ++ cut /\ cut <> ""
       /\ Static.dirname (VStr p) = VStr (before ++ "/").
Proof.
  intros [Hp _].
  destruct (dirname_shape p Hp) as [E | (before & cut & -> & _ & Hm & E)].
  - left. exact E.
  - right. exists before, cut. repeat split; [| exact E].
    intros ->. discriminate Hm.
Qed.

Lemma dirname_cuts_tail_witness :
  single_line (VStr "/app/index.html")
  /\ (Static.dirname (VStr "/app/index.html") = VStr "/app/index.html"
      \/ exists before cut,
           "/app/index.html" = before ++ cut /\ cut <> ""
           /\ Static.dirname (VStr "/app/index.html") = VStr (before ++ "/")).
Proof.
  split; [split; reflexivity |].
  apply (dirname_cuts_tail "/app/index.html"). split; reflexivity.
Defined.
